(** * dctoolkit: peer connections, downloads and uploads

    A shallow embedding of [conn_peer.go], [download.go] and [upload.go]
    of the Direct Connect client toolkit, and the properties of the
    peer handshake, the transfer engine and the slot accounting that its
    specification states.

    Conventions of the embedding.
    - Go pointers ([*Peer], [*connPeer], [*Download], [*upload]) are
      references (natural numbers) into stores held by the client; a
      [nil] pointer is [None].
    - Every block the source runs under the client mutex is one function
      from client state to client state; a goroutine is the sequence of
      its blocks.
    - A Go function returning [error] is a computation in the monad [M]:
      it always returns the state it has reached, together with [Ret]
      (the [nil] error), [Fail] (a non-nil error), [Panic] or [Blocks].
    - [uint64] and [int64] values are integers with the conversions and
      the wrap-around written out.
    - Logging ([dolog]) has no effect on the state and is left out. *)

From Stdlib Require Import ZArith List String Ascii Bool Lia.
From stdpp Require Import base option list gmap strings pretty.
Import ListNotations.

Open Scope Z_scope.
Open Scope string_scope.
Open Scope list_scope.

(** ** Errors and the computation monad *)

(** Go compares errors by identity: the two sentinels are values of their
    own, every [fmt.Errorf] and every error of the operating system or of
    a helper is a fresh value carrying its text. *)
Inductive error : Type :=
| errorTerminated
| errorNoSlots
| Errorf (text : string)
| errorExt (text : string).

Inductive res (A : Type) : Type :=
| Ret (a : A)
| Fail (e : error)
| Panic (text : string)
| Blocks.
Arguments Ret {A} a.
Arguments Fail {A} e.
Arguments Panic {A} text.
Arguments Blocks {A}.

Definition M (S A : Type) : Type := S -> S * res A.

Definition ret {S A} (a : A) : M S A := fun s => (s, Ret a).
Definition fail {S A} (e : error) : M S A := fun s => (s, Fail e).
Definition panic {S A} (text : string) : M S A := fun s => (s, Panic text).
Definition get {S} : M S S := fun s => (s, Ret s).
Definition modify {S} (f : S -> S) : M S unit := fun s => (f s, Ret tt).

Definition bind {S A B} (m : M S A) (k : A -> M S B) : M S B :=
  fun s =>
    match m s with
    | (s', Ret a) => k a s'
    | (s', Fail e) => (s', Fail e)
    | (s', Panic t) => (s', Panic t)
    | (s', Blocks) => (s', Blocks)
    end.

Notation "x <- m ;; k" := (bind m (fun x => k))
  (at level 100, m at next level, right associativity).
Notation "m ;;; k" := (bind m (fun _ => k))
  (at level 100, right associativity).

(** [when b m] is [if b { m }]. *)
Definition when {S} (b : bool) (m : M S unit) : M S unit :=
  if b then m else ret tt.

(** ** Machine integers *)

Definition uint64 (z : Z) : Z := z mod 2 ^ 64.

Definition int64 (z : Z) : Z := (z + 2 ^ 63) mod 2 ^ 64 - 2 ^ 63.

(** ** Bytes, hashes and messages *)

#[global] Instance byte_eq_dec : EqDecision Byte.byte := Byte.byte_eq_dec.

Definition bytes : Type := list Byte.byte.

(** [TigerHash] is a 24-byte array, compared by value. *)
Definition TigerHash : Type := list Byte.byte.

(** The protocol features a side announces; their wire names are declared
    with the codecs. *)
Inductive feature : Type :=
| adcFeatureBas0 | adcFeatureBase | adcFeatureTiger
| adcFeatureFileListBzip | adcFeatureZlibGet
| nmdcFeatureMiniSlots | nmdcFeatureFileListBzip | nmdcFeatureAdcGet
| nmdcFeatureTTHLeaves | nmdcFeatureTTHDownload | nmdcFeatureZlibGet.

(** The messages the peer protocol decodes and encodes.  [Start] and the
    [Length] of a SendFile are [uint64], the [Length] of a GetFile is
    [int64], a [Bet] is [uint]. *)
Inductive msg : Type :=
| msgAdcCStatus (Type_ : Z) (Code : Z) (Message : string)
| msgAdcCSupports (Features : list feature)
| msgAdcCInfos (Fields : gmap string string)
| msgAdcCGetFile (Query : string) (Start : Z) (Length : Z) (Compressed : bool)
| msgAdcCSendFile (Query : string) (Start : Z) (Length : Z) (Compressed : bool)
| msgNmdcMyNick (Nick : string)
| msgNmdcLock (Lock : string) (Pk : string) (Ref : string)
| msgNmdcSupports (Features : list feature)
| msgNmdcDirection (Direction : string) (Bet : Z)
| msgNmdcKey (Key : bytes)
| msgNmdcGetFile (Query : string) (Start : Z) (Length : Z) (Compressed : bool)
| msgNmdcSendFile (Query : string) (Start : Z) (Length : Z) (Compressed : bool)
| msgNmdcMaxedOut
| msgNmdcError (Error : string)
| msgBinary (Content : bytes)
| msgUnhandled (name : string).

Definition adcFeatures : list feature :=
  [adcFeatureBas0; adcFeatureBase; adcFeatureTiger; adcFeatureFileListBzip;
   adcFeatureZlibGet].

Definition nmdcFeatures : list feature :=
  [nmdcFeatureMiniSlots; nmdcFeatureFileListBzip; nmdcFeatureAdcGet;
   nmdcFeatureTTHLeaves; nmdcFeatureTTHDownload].

(** ** The wire protocol of one connection

    Modelled from the spec: the [protocol] capability of section 4.2
    ([Write], [SetReadBinary], zlib on read, [Terminate]); its
    implementations are not among the sources.  [Write] appends to the
    messages sent so far. *)
Record protocol : Type := mkProtocol {
  written : list msg;
  readBinary : bool;
  readerZlib : bool;
  closed : bool
}.

Definition newProtocol : protocol :=
  {| written := []; readBinary := false; readerZlib := false; closed := false |}.

Definition protocol_Write (m : msg) (c : protocol) : protocol :=
  {| written := written c ++ [m]; readBinary := readBinary c;
     readerZlib := readerZlib c; closed := closed c |}.

Definition protocol_SetReadBinary (b : bool) (c : protocol) : protocol :=
  {| written := written c; readBinary := b;
     readerZlib := readerZlib c; closed := closed c |}.

Definition protocol_ReaderEnableZlib (c : protocol) : protocol :=
  {| written := written c; readBinary := readBinary c;
     readerZlib := true; closed := closed c |}.

Definition protocol_Terminate (c : protocol) : protocol :=
  {| written := written c; readBinary := readBinary c;
     readerZlib := readerZlib c; closed := true |}.

(** ** Peer connections *)


(** A [*Peer] is the peer it points to together with its address: two
    pointers are equal when the addresses are. *)
Record Peer : Type := mkPeer {
  peer_addr : nat;
  Nick : string;
  peer_adcClientId : bytes;
  peer_adcFingerprint : string
}.

Definition Peer_ptr_eqb (a b : Peer) : bool := Nat.eqb (peer_addr a) (peer_addr b).

Inductive transfer : Type :=
| TDownload (d : nat)
| TUpload (u : nat).

#[global] Instance transfer_eq_dec : EqDecision transfer.
Proof. solve_decision. Defined.

(** [wakeUp] is a channel of capacity one: the field counts the signals
    it holds.  [tlsConn] keeps the certificates the remote side showed. *)
Record connPeer : Type := mkConnPeer {
  p_isEncrypted : bool;
  p_isActive : bool;
  p_wakeUp : nat;
  p_state : string;
  p_protoState : string;
  p_conn : option protocol;
  p_tlsConn : option (list bytes);
  p_adcToken : string;
  p_passiveIp : string;
  p_passivePort : Z;
  p_peer : option Peer;
  p_remoteLock : bytes;
  p_localDirection : string;
  p_localBet : Z;
  p_remoteDirection : string;
  p_remoteBet : Z;
  p_direction : string;
  p_transfer : option transfer
}.

Definition set_p_wakeUp (v : nat) (x : connPeer) : connPeer :=
  mkConnPeer (p_isEncrypted x) (p_isActive x) v (p_state x)
    (p_protoState x) (p_conn x) (p_tlsConn x) (p_adcToken x)
    (p_passiveIp x) (p_passivePort x) (p_peer x) (p_remoteLock x)
    (p_localDirection x) (p_localBet x) (p_remoteDirection x)
    (p_remoteBet x) (p_direction x) (p_transfer x).

Definition set_p_state (v : string) (x : connPeer) : connPeer :=
  mkConnPeer (p_isEncrypted x) (p_isActive x) (p_wakeUp x) v
    (p_protoState x) (p_conn x) (p_tlsConn x) (p_adcToken x)
    (p_passiveIp x) (p_passivePort x) (p_peer x) (p_remoteLock x)
    (p_localDirection x) (p_localBet x) (p_remoteDirection x)
    (p_remoteBet x) (p_direction x) (p_transfer x).

Definition set_p_protoState (v : string) (x : connPeer) : connPeer :=
  mkConnPeer (p_isEncrypted x) (p_isActive x) (p_wakeUp x) (p_state x) v
    (p_conn x) (p_tlsConn x) (p_adcToken x) (p_passiveIp x)
    (p_passivePort x) (p_peer x) (p_remoteLock x) (p_localDirection x)
    (p_localBet x) (p_remoteDirection x) (p_remoteBet x) (p_direction x)
    (p_transfer x).

Definition set_p_conn (v : option protocol) (x : connPeer) : connPeer :=
  mkConnPeer (p_isEncrypted x) (p_isActive x) (p_wakeUp x) (p_state x)
    (p_protoState x) v (p_tlsConn x) (p_adcToken x) (p_passiveIp x)
    (p_passivePort x) (p_peer x) (p_remoteLock x) (p_localDirection x)
    (p_localBet x) (p_remoteDirection x) (p_remoteBet x) (p_direction x)
    (p_transfer x).

Definition set_p_adcToken (v : string) (x : connPeer) : connPeer :=
  mkConnPeer (p_isEncrypted x) (p_isActive x) (p_wakeUp x) (p_state x)
    (p_protoState x) (p_conn x) (p_tlsConn x) v (p_passiveIp x)
    (p_passivePort x) (p_peer x) (p_remoteLock x) (p_localDirection x)
    (p_localBet x) (p_remoteDirection x) (p_remoteBet x) (p_direction x)
    (p_transfer x).

Definition set_p_peer (v : option Peer) (x : connPeer) : connPeer :=
  mkConnPeer (p_isEncrypted x) (p_isActive x) (p_wakeUp x) (p_state x)
    (p_protoState x) (p_conn x) (p_tlsConn x) (p_adcToken x)
    (p_passiveIp x) (p_passivePort x) v (p_remoteLock x)
    (p_localDirection x) (p_localBet x) (p_remoteDirection x)
    (p_remoteBet x) (p_direction x) (p_transfer x).

Definition set_p_remoteLock (v : bytes) (x : connPeer) : connPeer :=
  mkConnPeer (p_isEncrypted x) (p_isActive x) (p_wakeUp x) (p_state x)
    (p_protoState x) (p_conn x) (p_tlsConn x) (p_adcToken x)
    (p_passiveIp x) (p_passivePort x) (p_peer x) v (p_localDirection x)
    (p_localBet x) (p_remoteDirection x) (p_remoteBet x) (p_direction x)
    (p_transfer x).

Definition set_p_localDirection (v : string) (x : connPeer) : connPeer :=
  mkConnPeer (p_isEncrypted x) (p_isActive x) (p_wakeUp x) (p_state x)
    (p_protoState x) (p_conn x) (p_tlsConn x) (p_adcToken x)
    (p_passiveIp x) (p_passivePort x) (p_peer x) (p_remoteLock x) v
    (p_localBet x) (p_remoteDirection x) (p_remoteBet x) (p_direction x)
    (p_transfer x).

Definition set_p_localBet (v : Z) (x : connPeer) : connPeer :=
  mkConnPeer (p_isEncrypted x) (p_isActive x) (p_wakeUp x) (p_state x)
    (p_protoState x) (p_conn x) (p_tlsConn x) (p_adcToken x)
    (p_passiveIp x) (p_passivePort x) (p_peer x) (p_remoteLock x)
    (p_localDirection x) v (p_remoteDirection x) (p_remoteBet x)
    (p_direction x) (p_transfer x).

Definition set_p_remoteDirection (v : string) (x : connPeer) : connPeer :=
  mkConnPeer (p_isEncrypted x) (p_isActive x) (p_wakeUp x) (p_state x)
    (p_protoState x) (p_conn x) (p_tlsConn x) (p_adcToken x)
    (p_passiveIp x) (p_passivePort x) (p_peer x) (p_remoteLock x)
    (p_localDirection x) (p_localBet x) v (p_remoteBet x) (p_direction x)
    (p_transfer x).

Definition set_p_remoteBet (v : Z) (x : connPeer) : connPeer :=
  mkConnPeer (p_isEncrypted x) (p_isActive x) (p_wakeUp x) (p_state x)
    (p_protoState x) (p_conn x) (p_tlsConn x) (p_adcToken x)
    (p_passiveIp x) (p_passivePort x) (p_peer x) (p_remoteLock x)
    (p_localDirection x) (p_localBet x) (p_remoteDirection x) v
    (p_direction x) (p_transfer x).

Definition set_p_direction (v : string) (x : connPeer) : connPeer :=
  mkConnPeer (p_isEncrypted x) (p_isActive x) (p_wakeUp x) (p_state x)
    (p_protoState x) (p_conn x) (p_tlsConn x) (p_adcToken x)
    (p_passiveIp x) (p_passivePort x) (p_peer x) (p_remoteLock x)
    (p_localDirection x) (p_localBet x) (p_remoteDirection x)
    (p_remoteBet x) v (p_transfer x).

Definition set_p_transfer (v : option transfer) (x : connPeer) : connPeer :=
  mkConnPeer (p_isEncrypted x) (p_isActive x) (p_wakeUp x) (p_state x)
    (p_protoState x) (p_conn x) (p_tlsConn x) (p_adcToken x)
    (p_passiveIp x) (p_passivePort x) (p_peer x) (p_remoteLock x)
    (p_localDirection x) (p_localBet x) (p_remoteDirection x)
    (p_remoteBet x) (p_direction x) v.

Definition nilDeref {S A} : M S A :=
  panic "invalid memory address or nil pointer dereference".

(** A method call through [p.conn]: a nil interface panics. *)
Definition conn_do (f : protocol -> protocol) : M connPeer unit :=
  fun p =>
    match p_conn p with
    | Some c => (set_p_conn (Some (f c)) p, Ret tt)
    | None => nilDeref p
    end.

(** [p.wakeUp <- struct{}{}] on the channel of capacity one. *)
Definition wakeUp_send : M connPeer unit :=
  fun p =>
    match p_wakeUp p with
    | O => (set_p_wakeUp 1 p, Ret tt)
    | _ => (p, Blocks)
    end.

(** ** Downloads and uploads *)

Record DownloadConf : Type := mkDownloadConf {
  conf_Peer : Peer;
  TTH : TigerHash;
  Start : Z;
  Length : Z;
  SavePath : string;
  SkipValidation : bool;
  isFilelist : bool
}.

(** [io.WriteCloser] of a download: the file created at a path, or the
    writer over the buffer [content] with the place it has reached. *)
Inductive writer : Type :=
| FileWriter (path : string)
| BytesWriter (offset : nat).

(** The channels of a download count the signals sent on them;
    [terminate] has capacity one. *)
Record Download : Type := mkDownload {
  d_conf : DownloadConf;
  d_terminateRequested : bool;
  d_terminate : nat;
  d_state : string;
  d_activeDlChan : nat;
  d_slotChan : nat;
  d_peerChan : nat;
  d_pconn : option nat;
  d_query : string;
  d_adcToken : string;
  d_writer : option writer;
  d_writerClosed : bool;
  d_content : bytes;
  d_offset : Z;
  d_length : Z
}.

Definition set_d_terminateRequested (v : bool) (x : Download) : Download :=
  mkDownload (d_conf x) v (d_terminate x) (d_state x) (d_activeDlChan x)
    (d_slotChan x) (d_peerChan x) (d_pconn x) (d_query x) (d_adcToken x)
    (d_writer x) (d_writerClosed x) (d_content x) (d_offset x) (d_length x).

Definition set_d_terminate (v : nat) (x : Download) : Download :=
  mkDownload (d_conf x) (d_terminateRequested x) v (d_state x)
    (d_activeDlChan x) (d_slotChan x) (d_peerChan x) (d_pconn x)
    (d_query x) (d_adcToken x) (d_writer x) (d_writerClosed x)
    (d_content x) (d_offset x) (d_length x).

Definition set_d_state (v : string) (x : Download) : Download :=
  mkDownload (d_conf x) (d_terminateRequested x) (d_terminate x) v
    (d_activeDlChan x) (d_slotChan x) (d_peerChan x) (d_pconn x)
    (d_query x) (d_adcToken x) (d_writer x) (d_writerClosed x)
    (d_content x) (d_offset x) (d_length x).

Definition set_d_activeDlChan (v : nat) (x : Download) : Download :=
  mkDownload (d_conf x) (d_terminateRequested x) (d_terminate x)
    (d_state x) v (d_slotChan x) (d_peerChan x) (d_pconn x) (d_query x)
    (d_adcToken x) (d_writer x) (d_writerClosed x) (d_content x)
    (d_offset x) (d_length x).

Definition set_d_slotChan (v : nat) (x : Download) : Download :=
  mkDownload (d_conf x) (d_terminateRequested x) (d_terminate x)
    (d_state x) (d_activeDlChan x) v (d_peerChan x) (d_pconn x) (d_query x)
    (d_adcToken x) (d_writer x) (d_writerClosed x) (d_content x)
    (d_offset x) (d_length x).

Definition set_d_peerChan (v : nat) (x : Download) : Download :=
  mkDownload (d_conf x) (d_terminateRequested x) (d_terminate x)
    (d_state x) (d_activeDlChan x) (d_slotChan x) v (d_pconn x) (d_query x)
    (d_adcToken x) (d_writer x) (d_writerClosed x) (d_content x)
    (d_offset x) (d_length x).

Definition set_d_pconn (v : option nat) (x : Download) : Download :=
  mkDownload (d_conf x) (d_terminateRequested x) (d_terminate x)
    (d_state x) (d_activeDlChan x) (d_slotChan x) (d_peerChan x) v
    (d_query x) (d_adcToken x) (d_writer x) (d_writerClosed x)
    (d_content x) (d_offset x) (d_length x).

Definition set_d_adcToken (v : string) (x : Download) : Download :=
  mkDownload (d_conf x) (d_terminateRequested x) (d_terminate x)
    (d_state x) (d_activeDlChan x) (d_slotChan x) (d_peerChan x)
    (d_pconn x) (d_query x) v (d_writer x) (d_writerClosed x) (d_content x)
    (d_offset x) (d_length x).

Definition set_d_writer (v : option writer) (x : Download) : Download :=
  mkDownload (d_conf x) (d_terminateRequested x) (d_terminate x)
    (d_state x) (d_activeDlChan x) (d_slotChan x) (d_peerChan x)
    (d_pconn x) (d_query x) (d_adcToken x) v (d_writerClosed x)
    (d_content x) (d_offset x) (d_length x).

Definition set_d_writerClosed (v : bool) (x : Download) : Download :=
  mkDownload (d_conf x) (d_terminateRequested x) (d_terminate x)
    (d_state x) (d_activeDlChan x) (d_slotChan x) (d_peerChan x)
    (d_pconn x) (d_query x) (d_adcToken x) (d_writer x) v (d_content x)
    (d_offset x) (d_length x).

Definition set_d_content (v : bytes) (x : Download) : Download :=
  mkDownload (d_conf x) (d_terminateRequested x) (d_terminate x)
    (d_state x) (d_activeDlChan x) (d_slotChan x) (d_peerChan x)
    (d_pconn x) (d_query x) (d_adcToken x) (d_writer x) (d_writerClosed x)
    v (d_offset x) (d_length x).

Definition set_d_offset (v : Z) (x : Download) : Download :=
  mkDownload (d_conf x) (d_terminateRequested x) (d_terminate x)
    (d_state x) (d_activeDlChan x) (d_slotChan x) (d_peerChan x)
    (d_pconn x) (d_query x) (d_adcToken x) (d_writer x) (d_writerClosed x)
    (d_content x) v (d_length x).

Definition set_d_length (v : Z) (x : Download) : Download :=
  mkDownload (d_conf x) (d_terminateRequested x) (d_terminate x)
    (d_state x) (d_activeDlChan x) (d_slotChan x) (d_peerChan x)
    (d_pconn x) (d_query x) (d_adcToken x) (d_writer x) (d_writerClosed x)
    (d_content x) (d_offset x) v.

(** [io.ReadCloser] of an upload. *)
Inductive reader : Type :=
| BytesReader (data : bytes)
| FileReader (path : string) (pos : Z).

Record upload : Type := mkUpload {
  u_terminateRequested : bool;
  u_state : string;
  u_pconn : nat;
  u_reader : option reader;
  u_readerClosed : bool;
  u_isCompressed : bool;
  u_query : string;
  u_start : Z;
  u_length : Z;
  u_offset : Z
}.

Definition set_u_terminateRequested (v : bool) (x : upload) : upload :=
  mkUpload v (u_state x) (u_pconn x) (u_reader x) (u_readerClosed x)
    (u_isCompressed x) (u_query x) (u_start x) (u_length x) (u_offset x).

Definition set_u_state (v : string) (x : upload) : upload :=
  mkUpload (u_terminateRequested x) v (u_pconn x) (u_reader x)
    (u_readerClosed x) (u_isCompressed x) (u_query x) (u_start x)
    (u_length x) (u_offset x).

Definition set_u_reader (v : option reader) (x : upload) : upload :=
  mkUpload (u_terminateRequested x) (u_state x) (u_pconn x) v
    (u_readerClosed x) (u_isCompressed x) (u_query x) (u_start x)
    (u_length x) (u_offset x).

Definition set_u_readerClosed (v : bool) (x : upload) : upload :=
  mkUpload (u_terminateRequested x) (u_state x) (u_pconn x) (u_reader x) v
    (u_isCompressed x) (u_query x) (u_start x) (u_length x) (u_offset x).

Definition set_u_length (v : Z) (x : upload) : upload :=
  mkUpload (u_terminateRequested x) (u_state x) (u_pconn x) (u_reader x)
    (u_readerClosed x) (u_isCompressed x) (u_query x) (u_start x) v
    (u_offset x).

(** ** The share, the file system and the client *)

Record shareFile : Type := mkShareFile {
  sf_tth : TigerHash;
  sf_tthl : list TigerHash;
  sf_realPath : string;
  sf_size : Z
}.

(** The files and directories of a share directory, in the order in
    which [range] visits them. *)
#[warnings="-register-all"]
Inductive shareDirectory : Type :=
| mkShareDirectory (files : list shareFile) (dirs : list shareDirectory).

(** The file system the client runs on: the files with their content,
    and the paths on which the operating system refuses to create, open,
    write or rename. *)
Record filesystem : Type := mkFs {
  fs_files : gmap string bytes;
  fs_denied : gset string
}.

Definition os_Create (path : string) : M filesystem unit :=
  fun fs =>
    if bool_decide (path ∈ fs_denied fs)
    then (fs, Fail (errorExt ("open " +:+ path)))
    else (mkFs (<[path := []]> (fs_files fs)) (fs_denied fs), Ret tt).

Definition os_Open (path : string) : M filesystem bytes :=
  fun fs =>
    if bool_decide (path ∈ fs_denied fs)
    then (fs, Fail (errorExt ("open " +:+ path)))
    else match fs_files fs !! path with
         | Some content => (fs, Ret content)
         | None => (fs, Fail (errorExt ("open " +:+ path)))
         end.

Definition file_Write (path : string) (chunk : bytes) : M filesystem unit :=
  fun fs =>
    if bool_decide (path ∈ fs_denied fs)
    then (fs, Fail (errorExt ("write " +:+ path)))
    else match fs_files fs !! path with
         | Some content =>
             (mkFs (<[path := content ++ chunk]> (fs_files fs)) (fs_denied fs),
              Ret tt)
         | None => (fs, Fail (errorExt ("write " +:+ path)))
         end.

Definition os_Rename (src dst : string) : M filesystem unit :=
  fun fs =>
    if bool_decide (dst ∈ fs_denied fs)
    then (fs, Fail (errorExt ("rename " +:+ src)))
    else match fs_files fs !! src with
         | Some content =>
             (mkFs (<[dst := content]> (delete src (fs_files fs)))
                   (fs_denied fs), Ret tt)
         | None => (fs, Fail (errorExt ("rename " +:+ src)))
         end.

Definition os_Remove (path : string) : M filesystem unit :=
  fun fs =>
    match fs_files fs !! path with
    | Some _ => (mkFs (delete path (fs_files fs)) (fs_denied fs), Ret tt)
    | None => (fs, Fail (errorExt ("remove " +:+ path)))
    end.

(** [f.Seek(offset, 0)]: the system call refuses a negative offset. *)
Definition file_Seek (offset : Z) : res unit :=
  if (offset <? 0)%Z then Fail (errorExt "seek: invalid argument") else Ret tt.

Record ClientConf : Type := mkClientConf {
  conf_Nick : string;
  conf_PkValue : string;
  conf_PeerDisableCompression : bool
}.

(** A call of a callback of the embedder. *)
Inductive event : Type :=
| CallOnDownloadSuccessful (d : nat)
| CallOnDownloadError (d : nat).

(** The client.  [connPeers], [connPeersByKey], [activeDownloadsByPeer]
    and [peers] are the maps of the source; [transfers] lists the keys of
    the map of transfers in the order in which [range] visits them;
    [conns], [downloads] and [uploads] are the stores the references point
    into; [OnDownloadSuccessful] and [OnDownloadError] tell whether the
    callback is set; [events] records the calls of callbacks,
    [requests] the calls of [peerRequestConnection].  The slot counters
    are integers: the declaration of [Client] is not among the sources. *)
Record Client : Type := mkClient {
  c_conf : ClientConf;
  c_protoIsAdc : bool;
  c_clientId : bytes;
  c_hubSolvedIp : string;
  c_hubPort : Z;
  c_peers : gmap string Peer;
  c_connPeers : gset nat;
  c_connPeersByKey : gmap (string * string) nat;
  c_transfers : list transfer;
  c_activeDownloadsByPeer : gmap string nat;
  c_downloadSlotAvail : Z;
  c_uploadSlotAvail : Z;
  c_fileList : bytes;
  c_shareTree : list shareDirectory;
  c_OnDownloadSuccessful : bool;
  c_OnDownloadError : bool;
  c_conns : gmap nat connPeer;
  c_downloads : gmap nat Download;
  c_uploads : gmap nat upload;
  c_requests : list (Peer * string);
  c_events : list event;
  c_fs : filesystem
}.

Definition set_c_connPeers (v : gset nat) (x : Client) : Client :=
  mkClient (c_conf x) (c_protoIsAdc x) (c_clientId x) (c_hubSolvedIp x)
    (c_hubPort x) (c_peers x) v (c_connPeersByKey x) (c_transfers x)
    (c_activeDownloadsByPeer x) (c_downloadSlotAvail x)
    (c_uploadSlotAvail x) (c_fileList x) (c_shareTree x)
    (c_OnDownloadSuccessful x) (c_OnDownloadError x) (c_conns x)
    (c_downloads x) (c_uploads x) (c_requests x) (c_events x) (c_fs x).

Definition set_c_connPeersByKey (v : gmap (string * string) nat) (x : Client) : Client :=
  mkClient (c_conf x) (c_protoIsAdc x) (c_clientId x) (c_hubSolvedIp x)
    (c_hubPort x) (c_peers x) (c_connPeers x) v (c_transfers x)
    (c_activeDownloadsByPeer x) (c_downloadSlotAvail x)
    (c_uploadSlotAvail x) (c_fileList x) (c_shareTree x)
    (c_OnDownloadSuccessful x) (c_OnDownloadError x) (c_conns x)
    (c_downloads x) (c_uploads x) (c_requests x) (c_events x) (c_fs x).

Definition set_c_transfers (v : list transfer) (x : Client) : Client :=
  mkClient (c_conf x) (c_protoIsAdc x) (c_clientId x) (c_hubSolvedIp x)
    (c_hubPort x) (c_peers x) (c_connPeers x) (c_connPeersByKey x) v
    (c_activeDownloadsByPeer x) (c_downloadSlotAvail x)
    (c_uploadSlotAvail x) (c_fileList x) (c_shareTree x)
    (c_OnDownloadSuccessful x) (c_OnDownloadError x) (c_conns x)
    (c_downloads x) (c_uploads x) (c_requests x) (c_events x) (c_fs x).

Definition set_c_activeDownloadsByPeer (v : gmap string nat) (x : Client) : Client :=
  mkClient (c_conf x) (c_protoIsAdc x) (c_clientId x) (c_hubSolvedIp x)
    (c_hubPort x) (c_peers x) (c_connPeers x) (c_connPeersByKey x)
    (c_transfers x) v (c_downloadSlotAvail x) (c_uploadSlotAvail x)
    (c_fileList x) (c_shareTree x) (c_OnDownloadSuccessful x)
    (c_OnDownloadError x) (c_conns x) (c_downloads x) (c_uploads x)
    (c_requests x) (c_events x) (c_fs x).

Definition set_c_downloadSlotAvail (v : Z) (x : Client) : Client :=
  mkClient (c_conf x) (c_protoIsAdc x) (c_clientId x) (c_hubSolvedIp x)
    (c_hubPort x) (c_peers x) (c_connPeers x) (c_connPeersByKey x)
    (c_transfers x) (c_activeDownloadsByPeer x) v (c_uploadSlotAvail x)
    (c_fileList x) (c_shareTree x) (c_OnDownloadSuccessful x)
    (c_OnDownloadError x) (c_conns x) (c_downloads x) (c_uploads x)
    (c_requests x) (c_events x) (c_fs x).

Definition set_c_uploadSlotAvail (v : Z) (x : Client) : Client :=
  mkClient (c_conf x) (c_protoIsAdc x) (c_clientId x) (c_hubSolvedIp x)
    (c_hubPort x) (c_peers x) (c_connPeers x) (c_connPeersByKey x)
    (c_transfers x) (c_activeDownloadsByPeer x) (c_downloadSlotAvail x) v
    (c_fileList x) (c_shareTree x) (c_OnDownloadSuccessful x)
    (c_OnDownloadError x) (c_conns x) (c_downloads x) (c_uploads x)
    (c_requests x) (c_events x) (c_fs x).

Definition set_c_conns (v : gmap nat connPeer) (x : Client) : Client :=
  mkClient (c_conf x) (c_protoIsAdc x) (c_clientId x) (c_hubSolvedIp x)
    (c_hubPort x) (c_peers x) (c_connPeers x) (c_connPeersByKey x)
    (c_transfers x) (c_activeDownloadsByPeer x) (c_downloadSlotAvail x)
    (c_uploadSlotAvail x) (c_fileList x) (c_shareTree x)
    (c_OnDownloadSuccessful x) (c_OnDownloadError x) v (c_downloads x)
    (c_uploads x) (c_requests x) (c_events x) (c_fs x).

Definition set_c_downloads (v : gmap nat Download) (x : Client) : Client :=
  mkClient (c_conf x) (c_protoIsAdc x) (c_clientId x) (c_hubSolvedIp x)
    (c_hubPort x) (c_peers x) (c_connPeers x) (c_connPeersByKey x)
    (c_transfers x) (c_activeDownloadsByPeer x) (c_downloadSlotAvail x)
    (c_uploadSlotAvail x) (c_fileList x) (c_shareTree x)
    (c_OnDownloadSuccessful x) (c_OnDownloadError x) (c_conns x) v
    (c_uploads x) (c_requests x) (c_events x) (c_fs x).

Definition set_c_uploads (v : gmap nat upload) (x : Client) : Client :=
  mkClient (c_conf x) (c_protoIsAdc x) (c_clientId x) (c_hubSolvedIp x)
    (c_hubPort x) (c_peers x) (c_connPeers x) (c_connPeersByKey x)
    (c_transfers x) (c_activeDownloadsByPeer x) (c_downloadSlotAvail x)
    (c_uploadSlotAvail x) (c_fileList x) (c_shareTree x)
    (c_OnDownloadSuccessful x) (c_OnDownloadError x) (c_conns x)
    (c_downloads x) v (c_requests x) (c_events x) (c_fs x).

Definition set_c_requests (v : list (Peer * string)) (x : Client) : Client :=
  mkClient (c_conf x) (c_protoIsAdc x) (c_clientId x) (c_hubSolvedIp x)
    (c_hubPort x) (c_peers x) (c_connPeers x) (c_connPeersByKey x)
    (c_transfers x) (c_activeDownloadsByPeer x) (c_downloadSlotAvail x)
    (c_uploadSlotAvail x) (c_fileList x) (c_shareTree x)
    (c_OnDownloadSuccessful x) (c_OnDownloadError x) (c_conns x)
    (c_downloads x) (c_uploads x) v (c_events x) (c_fs x).

Definition set_c_events (v : list event) (x : Client) : Client :=
  mkClient (c_conf x) (c_protoIsAdc x) (c_clientId x) (c_hubSolvedIp x)
    (c_hubPort x) (c_peers x) (c_connPeers x) (c_connPeersByKey x)
    (c_transfers x) (c_activeDownloadsByPeer x) (c_downloadSlotAvail x)
    (c_uploadSlotAvail x) (c_fileList x) (c_shareTree x)
    (c_OnDownloadSuccessful x) (c_OnDownloadError x) (c_conns x)
    (c_downloads x) (c_uploads x) (c_requests x) v (c_fs x).

Definition set_c_fs (v : filesystem) (x : Client) : Client :=
  mkClient (c_conf x) (c_protoIsAdc x) (c_clientId x) (c_hubSolvedIp x)
    (c_hubPort x) (c_peers x) (c_connPeers x) (c_connPeersByKey x)
    (c_transfers x) (c_activeDownloadsByPeer x) (c_downloadSlotAvail x)
    (c_uploadSlotAvail x) (c_fileList x) (c_shareTree x)
    (c_OnDownloadSuccessful x) (c_OnDownloadError x) (c_conns x)
    (c_downloads x) (c_uploads x) (c_requests x) (c_events x) v.

(** ** What the rest of the repository provides

    The codecs, the hashes and the constants of the ADC protocol are
    declared in files that are not among the sources; the functions below
    take them as parameters. *)
Record Externals : Type := mkExternals {
  adcStatusOk : Z;
  adcStatusWarning : Z;
  adcCodeSlotsFull : Z;
  adcCodeFileNotAvailable : Z;
  adcFieldClientId : string;
  adcFieldToken : string;
  nmdcComputeKey : bytes -> bytes;
  dcBase32Encode : bytes -> string;
  dcBase32Decode : string -> bytes;
  adcCertificateFingerprint : bytes -> string;
  TigerHashFromBase32 : string -> option TigerHash;
  TigerHash_String : TigerHash -> string;
  TTHFromBytes : bytes -> TigerHash;
  bzip2_decompress : bytes -> option bytes
}.

(** ** Access to the stores *)

Definition getp (p : nat) : M Client connPeer :=
  fun c =>
    match c_conns c !! p with
    | Some x => (c, Ret x)
    | None => nilDeref c
    end.

Definition onp {A} (p : nat) (m : M connPeer A) : M Client A :=
  fun c =>
    match c_conns c !! p with
    | Some x =>
        let (x', r) := m x in (set_c_conns (<[p := x']> (c_conns c)) c, r)
    | None => nilDeref c
    end.

Definition setp (p : nat) (f : connPeer -> connPeer) : M Client unit :=
  onp p (modify f).

Definition getd (d : nat) : M Client Download :=
  fun c =>
    match c_downloads c !! d with
    | Some x => (c, Ret x)
    | None => nilDeref c
    end.

Definition setd (d : nat) (f : Download -> Download) : M Client unit :=
  fun c =>
    match c_downloads c !! d with
    | Some x => (set_c_downloads (<[d := f x]> (c_downloads c)) c, Ret tt)
    | None => nilDeref c
    end.

Definition getu (u : nat) : M Client upload :=
  fun c =>
    match c_uploads c !! u with
    | Some x => (c, Ret x)
    | None => nilDeref c
    end.

Definition setu (u : nat) (f : upload -> upload) : M Client unit :=
  fun c =>
    match c_uploads c !! u with
    | Some x => (set_c_uploads (<[u := f x]> (c_uploads c)) c, Ret tt)
    | None => nilDeref c
    end.

(** An operation of the file system, run on the file system of the
    client. *)
Definition onfs {A} (m : M filesystem A) : M Client A :=
  fun c => let (fs', r) := m (c_fs c) in (set_c_fs fs' c, r).

(** [p.conn.Write(m)] *)
Definition conn_Write (p : nat) (m : msg) : M Client unit :=
  onp p (conn_do (protocol_Write m)).

(** [delete(c.transfers, t)] and [c.transfers[t] = struct{}{}] *)
Definition transfers_delete (t : transfer) (l : list transfer) : list transfer :=
  List.filter (fun t' => negb (bool_decide (t' = t))) l.

Definition transfers_insert (t : transfer) (l : list transfer) : list transfer :=
  if bool_decide (t ∈ l) then l else l ++ [t].

(** ** Queries on the client *)

(** Modelled from the spec: [peerRequestConnection] asks the hub for a
    connection with the peer (section 4.6, step 3); the function is not
    among the sources, the request is recorded. *)
Definition peerRequestConnection (peer : Peer) (adcToken : string) : M Client unit :=
  modify (fun c => set_c_requests (c_requests c ++ [(peer, adcToken)]) c).

(** Modelled from the spec: a peer is found by its nick, unique in the
    hub session (section 3); [peerByNick] is not among the sources. *)
Definition peerByNick (c : Client) (nick : string) : option Peer :=
  c_peers c !! nick.

(** Modelled from the spec: a peer is found by its ADC client-id
    (section 3); [peerByClientId] is not among the sources. *)
Definition peerByClientId (c : Client) (clientId : bytes) : option Peer :=
  snd <$> List.find (fun kv => bool_decide (peer_adcClientId (snd kv) = clientId))
            (map_to_list (c_peers c)).

(** The downloads among the transfers, in the order of [range]. *)
Definition downloadsOf (l : list transfer) : list nat :=
  omap (fun t => match t with TDownload d => Some d | TUpload _ => None end) l.

(** [Client.downloadByAdcToken] *)
Definition downloadByAdcToken (c : Client) (adcToken : string) : option nat :=
  List.find
    (fun d =>
       match c_downloads c !! d with
       | Some dl => (d_adcToken dl =? adcToken) && (d_state dl =? "waiting_peer")
       | None => false
       end)
    (downloadsOf (c_transfers c)).

(** [Client.downloadPendingByPeer] *)
Definition downloadPendingByPeer (c : Client) (peer : Peer) : option nat :=
  match c_activeDownloadsByPeer c !! Nick peer with
  | Some d =>
      match c_downloads c !! d with
      | Some dl =>
          if negb (d_terminateRequested dl) && (d_state dl =? "waiting_peer")
          then Some d else None
      | None => None
      end
  | None => None
  end.

(** ** Control helpers *)

(** [catch m h]: the error [m] returns is handled by [h]. *)
Definition catch {S A} (m : M S A) (h : error -> M S A) : M S A :=
  fun s =>
    match m s with
    | (s', Fail e) => h e s'
    | r => r
    end.

(** The first result of [f] over a list, as a [range] loop that leaves at
    the first hit. *)
Definition first_some {A B} (f : A -> option B) : list A -> option B :=
  fix go (l : list A) : option B :=
    match l with
    | [] => None
    | a :: l' => match f a with Some b => Some b | None => go l' end
    end.

(** [p.peer.Nick], read for the log lines: a nil peer panics. *)
Definition peerNick (p : nat) : M Client string :=
  pc <- getp p ;;
  match p_peer pc with
  | Some peer => ret (Nick peer)
  | None => nilDeref
  end.

(** ** Uploads (the [upload.go] that answers the peer itself) *)

Definition errorIsNoSlots (e : error) : bool :=
  match e with errorNoSlots => true | _ => false end.

(** [scanDir] of [newUpload]: the files of the directory first, then its
    subdirectories in depth. *)
Fixpoint scanDir (tth : TigerHash) (dir : shareDirectory) : option shareFile :=
  match dir with
  | mkShareDirectory files dirs =>
      match List.find (fun file => bool_decide (sf_tth file = tth)) files with
      | Some file => Some file
      | None => first_some (scanDir tth) dirs
      end
  end.

(** The closure of [newUpload] that finds what to send: it reads the
    client and fills [reader] and [length] of the upload. *)
Definition newUpload_open (ext : Externals) (c : Client) (u : upload)
    (reqLength : Z) : res upload :=
  if (c_uploadSlotAvail c <=? 0)%Z then Fail errorNoSlots
  else if u_query u =? "file files.xml.bz2" then
    if negb (u_start u =? 0)%Z || negb (reqLength =? -1)%Z
    then Fail (Errorf "filelist seeking is not supported")
    else Ret (set_u_length (Z.of_nat (length (c_fileList c)))
                (set_u_reader (Some (BytesReader (c_fileList c))) u))
  else if (String.length (u_query u) <? 9)%nat
  then Panic "slice bounds out of range"
  else
    let tthString := substring 9 (String.length (u_query u) - 9) (u_query u) in
    match TigerHashFromBase32 ext tthString with
    | None => Fail (errorExt "invalid TTH")
    | Some tth =>
        match first_some (scanDir tth) (c_shareTree c) with
        | None => Fail (Errorf "file does not exists")
        | Some sfile =>
            if String.prefix "tthl" (u_query u) then
              if negb (u_start u =? 0)%Z || negb (reqLength =? -1)%Z
              then Fail (Errorf "tthl seeking is not supported")
              else Ret (set_u_length (Z.of_nat (length (concat (sf_tthl sfile))))
                          (set_u_reader
                             (Some (BytesReader (concat (sf_tthl sfile)))) u))
            else
              match snd (os_Open (sf_realPath sfile) (c_fs c)) with
              | Ret _ =>
                  match file_Seek (int64 (u_start u)) with
                  | Ret _ =>
                      let f := FileReader (sf_realPath sfile) (u_start u) in
                      let maxLength := uint64 (sf_size sfile - u_start u) in
                      if negb (reqLength =? -1)%Z then
                        if (uint64 reqLength >? maxLength)%Z
                        then Fail (Errorf "length too big")
                        else Ret (set_u_reader (Some f)
                                    (set_u_length (uint64 reqLength) u))
                      else Ret (set_u_reader (Some f) (set_u_length maxLength u))
                  | Fail e => Fail e
                  | Panic t => Panic t
                  | Blocks => Blocks
                  end
              | Fail e => Fail e
              | Panic t => Panic t
              | Blocks => Blocks
              end
        end
    end.

(** [newUpload] *)
Definition newUpload (ext : Externals) (p : nat) (reqQuery : string)
    (reqStart reqLength : Z) (reqCompressed : bool) : M Client bool :=
  c <- get ;;
  let u := mkUpload false "processing" p None false
             (negb (conf_PeerDisableCompression (c_conf c)) && reqCompressed)
             reqQuery reqStart 0 0 in
  _ <- peerNick p ;;
  match newUpload_open ext c u reqLength with
  | Fail err =>
      (if errorIsNoSlots err then
         if c_protoIsAdc c
         then conn_Write p (msgAdcCStatus (adcStatusWarning ext)
                              (adcCodeSlotsFull ext) "Slots full")
         else conn_Write p msgNmdcMaxedOut
       else
         if c_protoIsAdc c
         then conn_Write p (msgAdcCStatus (adcStatusWarning ext)
                              (adcCodeFileNotAvailable ext) "File Not Available")
         else conn_Write p (msgNmdcError "File Not Available")) ;;;
      ret false
  | Panic t => panic t
  | Blocks => fun s => (s, Blocks)
  | Ret u =>
      (if c_protoIsAdc c
       then conn_Write p (msgAdcCSendFile (u_query u) (u_start u) (u_length u)
                            (u_isCompressed u))
       else conn_Write p (msgNmdcSendFile (u_query u) (u_start u) (u_length u)
                            (u_isCompressed u))) ;;;
      let r := fresh (dom (c_uploads c)) in
      modify (fun c => set_c_uploads (<[r := u]> (c_uploads c)) c) ;;;
      modify (fun c => set_c_transfers
                         (transfers_insert (TUpload r) (c_transfers c)) c) ;;;
      modify (fun c => set_c_uploadSlotAvail (c_uploadSlotAvail c - 1) c) ;;;
      setp p (set_p_state "delegated_upload") ;;;
      setp p (set_p_transfer (Some (TUpload r))) ;;;
      ret true
  end.

(** [upload.Close]; [connPeer.close] is not among the sources.
    Modelled from the spec: closing the peer connection closes its socket
    (section 5, Cancellation). *)
Definition connPeer_close (p : nat) : M Client unit :=
  onp p (conn_do protocol_Terminate).

Definition upload_Close (u : nat) : M Client unit :=
  ul <- getu u ;;
  if u_terminateRequested ul then ret tt
  else
    setu u (set_u_terminateRequested true) ;;;
    connPeer_close (u_pconn ul).

(** [upload.handleExit]; [err] is [None] for the nil error. *)
Definition upload_handleExit (u : nat) (err : option error) : M Client unit :=
  ul <- getu u ;;
  when (negb (u_terminateRequested ul) && bool_decide (err <> None))
       (_ <- peerNick (u_pconn ul) ;; ret tt) ;;;
  modify (fun c => set_c_transfers
                     (transfers_delete (TUpload u) (c_transfers c)) c) ;;;
  match u_reader ul with
  | Some _ => setu u (set_u_readerClosed true)
  | None => nilDeref
  end ;;;
  modify (fun c => set_c_uploadSlotAvail (c_uploadSlotAvail c + 1) c) ;;;
  _ <- peerNick (u_pconn ul) ;;
  ret tt.

(** ** Downloads *)

(** [Client.DownloadFile]: returns the reference of the new download;
    the goroutine [do] it starts is the sequence of blocks below. *)
Definition DownloadFile (ext : Externals) (conf : DownloadConf) : M Client nat :=
  c <- get ;;
  let conf :=
    if (Length conf <=? 0)%Z
    then mkDownloadConf (conf_Peer conf) (TTH conf) (Start conf) (-1)
           (SavePath conf) (SkipValidation conf) (isFilelist conf)
    else conf in
  let query :=
    if isFilelist conf then "file files.xml.bz2"
    else "file TTH/" +:+ TigerHash_String ext (TTH conf) in
  let d := fresh (dom (c_downloads c)) in
  modify (fun c =>
            set_c_downloads
              (<[d := mkDownload conf false 0 "uninitialized" 0 0 0 None query
                        "" None false [] 0 0]> (c_downloads c)) c) ;;;
  modify (fun c => set_c_transfers
                     (transfers_insert (TDownload d) (c_transfers c)) c) ;;;
  ret d.

(** [Download.Close] *)
Definition Download_Close (d : nat) : M Client unit :=
  dl <- getd d ;;
  if d_terminateRequested dl then ret tt
  else
    setd d (set_d_terminateRequested true) ;;;
    if negb (d_state dl =? "processing") then
      match d_terminate dl with
      | O => setd d (set_d_terminate 1)
      | _ => fun s => (s, Blocks)
      end
    else
      match d_pconn dl with
      | Some p => connPeer_close p
      | None => nilDeref
      end.

(** The three blocks of [Download.do] that run under the mutex; each
    returns whether the goroutine has to wait. *)
Definition Download_do_activedl (d : nat) : M Client bool :=
  dl <- getd d ;;
  c <- get ;;
  match c_activeDownloadsByPeer c !! Nick (conf_Peer (d_conf dl)) with
  | Some _ =>
      setd d (set_d_state "waiting_activedl") ;;;
      ret true
  | None =>
      setd d (set_d_state "waited_activedl") ;;;
      modify (fun c =>
                set_c_activeDownloadsByPeer
                  (<[Nick (conf_Peer (d_conf dl)) := d]>
                     (c_activeDownloadsByPeer c)) c) ;;;
      ret false
  end.

Definition Download_do_slot (d : nat) : M Client bool :=
  c <- get ;;
  if (c_downloadSlotAvail c <=? 0)%Z then
    setd d (set_d_state "waiting_slot") ;;;
    ret true
  else
    setd d (set_d_state "waited_slot") ;;;
    modify (fun c => set_c_downloadSlotAvail (c_downloadSlotAvail c - 1) c) ;;;
    ret false.

(** [token] is what [adcRandomToken] returns when it is called. *)
Definition Download_do_peer (d : nat) (token : string) : M Client bool :=
  dl <- getd d ;;
  c <- get ;;
  match c_connPeersByKey c !! (Nick (conf_Peer (d_conf dl)), "download") with
  | None =>
      when (c_protoIsAdc c) (setd d (set_d_adcToken token)) ;;;
      dl' <- getd d ;;
      peerRequestConnection (conf_Peer (d_conf dl)) (d_adcToken dl') ;;;
      setd d (set_d_state "waiting_peer") ;;;
      ret true
  | Some pconn =>
      setp pconn (set_p_state "delegated_download") ;;;
      setp pconn (set_p_transfer (Some (TDownload d))) ;;;
      setd d (set_d_pconn (Some pconn)) ;;;
      setd d (set_d_state "processing") ;;;
      ret false
  end.

(** The [select] a waiting [do] is parked in: the case that fires, the
    wait it belongs to. *)
Inductive wakeup : Type := WokenTerminate | WokenTimeout | WokenSignal.
Inductive waitFor : Type := WaitActiveDl | WaitSlot | WaitPeer.

Definition Download_do_select (d : nat) (w : waitFor) (by_ : wakeup) :
    M Client (option error) :=
  dl <- getd d ;;
  match by_ with
  | WokenTerminate =>
      match d_terminate dl with
      | S n => setd d (set_d_terminate n) ;;; ret (Some errorTerminated)
      | O => fun s => (s, Blocks)
      end
  | WokenTimeout =>
      match w with
      | WaitPeer => ret (Some (Errorf "timed out"))
      | _ => fun s => (s, Blocks)
      end
  | WokenSignal =>
      match w with
      | WaitActiveDl =>
          match d_activeDlChan dl with
          | S n => setd d (set_d_activeDlChan n) ;;; ret None
          | O => fun s => (s, Blocks)
          end
      | WaitSlot =>
          match d_slotChan dl with
          | S n => setd d (set_d_slotChan n) ;;; ret None
          | O => fun s => (s, Blocks)
          end
      | WaitPeer =>
          match d_peerChan dl with
          | S n => setd d (set_d_peerChan n) ;;; ret None
          | O => fun s => (s, Blocks)
          end
      end
  end.

(** The request [do] sends once it holds a connection. *)
Definition Download_do_process (d : nat) : M Client unit :=
  dl <- getd d ;;
  c <- get ;;
  let compressed :=
    negb (conf_PeerDisableCompression (c_conf c)) &&
    ((Length (d_conf dl) <=? 0)%Z || (Length (d_conf dl) >=? 1024 * 10)%Z) in
  match d_pconn dl with
  | None => nilDeref
  | Some p =>
      if c_protoIsAdc c
      then conn_Write p (msgAdcCGetFile (d_query dl) (Start (d_conf dl))
                           (Length (d_conf dl)) compressed)
      else conn_Write p (msgNmdcGetFile (d_query dl) (Start (d_conf dl))
                           (Length (d_conf dl)) compressed)
  end.

(** [Download.handleSendFile] *)
Definition Download_handleSendFile (d : nat) (reqQuery : string)
    (reqStart reqLength : Z) (reqCompressed : bool) : M Client unit :=
  dl <- getd d ;;
  c <- get ;;
  if negb (reqQuery =? d_query dl) then
    fail (Errorf ("filename returned by client is wrong: " +:+ reqQuery
                  +:+ " vs " +:+ d_query dl))
  else if negb (reqStart =? Start (d_conf dl))%Z then
    fail (Errorf ("peer returned wrong start: " +:+ pretty reqStart
                  +:+ " instead of " +:+ pretty (Start (d_conf dl))))
  else if reqCompressed && conf_PeerDisableCompression (c_conf c) then
    fail (Errorf "compression is active but is disabled")
  else
    (if (Length (d_conf dl) =? -1)%Z then setd d (set_d_length reqLength)
     else
       setd d (set_d_length (uint64 (Length (d_conf dl)))) ;;;
       if negb (uint64 (Length (d_conf dl)) =? reqLength)%Z then
         fail (Errorf ("peer returned wrong length: "
                       +:+ pretty (uint64 (Length (d_conf dl)))
                       +:+ " instead of " +:+ pretty reqLength))
       else ret tt) ;;;
    dl <- getd d ;;
    if (d_length dl =? 0)%Z then
      fail (Errorf "downloading null files is not supported")
    else
      match d_pconn dl with
      | None => nilDeref
      | Some p =>
          onp p (conn_do (protocol_SetReadBinary true)) ;;;
          when reqCompressed (onp p (conn_do protocol_ReaderEnableZlib)) ;;;
          if negb (SavePath (d_conf dl) =? "") then
            catch (onfs (os_Create (SavePath (d_conf dl) +:+ ".tmp")))
                  (fun _ => fail (Errorf "unable to create destination file")) ;;;
            setd d (set_d_writer
                      (Some (FileWriter (SavePath (d_conf dl) +:+ ".tmp"))))
          else
            setd d (set_d_content
                      (replicate (Z.to_nat (d_length dl)) Byte.x00)) ;;;
            setd d (set_d_writer (Some (BytesWriter 0)))
      end.

(** [d.writer.Write(chunk)].
    Modelled from the spec: the in-memory sink of a download (section 3);
    [newBytesWriteCloser] is not among the sources.  It copies what fits
    into the buffer from the place it has reached, and reports no error. *)
Definition writer_Write (d : nat) (chunk : bytes) : M Client unit :=
  dl <- getd d ;;
  match d_writer dl with
  | None => nilDeref
  | Some (FileWriter path) => onfs (file_Write path chunk)
  | Some (BytesWriter off) =>
      let n := Nat.min (length chunk) (length (d_content dl) - off) in
      setd d (set_d_content (take off (d_content dl) ++ take n chunk
                             ++ drop (off + n) (d_content dl))) ;;;
      setd d (set_d_writer (Some (BytesWriter (off + n))))
  end.

Definition writer_Close (d : nat) : M Client unit :=
  dl <- getd d ;;
  match d_writer dl with
  | None => nilDeref
  | Some _ => setd d (set_d_writerClosed true)
  end.

(** Modelled from the spec: [TTHFromFile] is the hash of the content of
    the file at a path (section 4.1); it is not among the sources. *)
Definition TTHFromFile (ext : Externals) (path : string) : M Client TigerHash :=
  content <- onfs (os_Open path) ;;
  ret (TTHFromBytes ext content).

(** What [handleDownload] does once the declared length is reached. *)
Definition Download_finish (ext : Externals) (d : nat) : M Client unit :=
  dl <- getd d ;;
  let conf := d_conf dl in
  match d_pconn dl with
  | None => nilDeref
  | Some p => onp p (conn_do (protocol_SetReadBinary false))
  end ;;;
  writer_Close d ;;;
  (if isFilelist conf then
     if negb (SavePath conf =? "") then
       packed <- onfs (os_Open (SavePath conf +:+ ".tmp")) ;;
       onfs (os_Create (SavePath conf)) ;;;
       match bzip2_decompress ext packed with
       | Some content => onfs (file_Write (SavePath conf) content)
       | None => fail (errorExt "bzip2 data invalid")
       end ;;;
       onfs (os_Remove (SavePath conf +:+ ".tmp"))
     else
       match bzip2_decompress ext (d_content dl) with
       | Some cnt => setd d (set_d_content cnt)
       | None => fail (errorExt "bzip2 data invalid")
       end
   else
     when (negb (SkipValidation conf) && (Start conf =? 0)%Z
           && (Length conf <=? 0)%Z)
          (contentTTH <- (if negb (SavePath conf =? "")
                          then TTHFromFile ext (SavePath conf +:+ ".tmp")
                          else ret (TTHFromBytes ext (d_content dl))) ;;
           if negb (bool_decide (contentTTH = TTH conf))
           then fail (Errorf "validation failed")
           else ret tt) ;;;
     when (negb (SavePath conf =? ""))
          (onfs (os_Rename (SavePath conf +:+ ".tmp") (SavePath conf)))) ;;;
  fail errorTerminated.

(** [Download.handleDownload]; the texts of the errors that print a whole
    message keep its name only. *)
Definition Download_handleDownload (ext : Externals) (d : nat) (msgi : msg) :
    M Client unit :=
  match msgi with
  | msgAdcCStatus _ _ text => fail (Errorf ("error: " +:+ text))
  | msgAdcCSendFile q s l z => Download_handleSendFile d q s l z
  | msgNmdcMaxedOut => fail (Errorf "maxed out")
  | msgNmdcError text => fail (Errorf ("error: " +:+ text))
  | msgNmdcSendFile q s l z => Download_handleSendFile d q s l z
  | msgBinary content =>
      dl <- getd d ;;
      let newLength := uint64 (d_offset dl + Z.of_nat (length content)) in
      if (newLength >? d_length dl)%Z then
        fail (Errorf ("binary content too long (" +:+ pretty newLength +:+ ")"))
      else
        catch (writer_Write d content)
              (fun err => writer_Close d ;;; fail err) ;;;
        setd d (set_d_offset newLength) ;;;
        if (newLength =? d_length dl)%Z then Download_finish ext d
        else ret tt
  | _ => fail (Errorf "unhandled")
  end.

(** [Download.handleExit]; [err] is [None] for the nil error. *)
Definition Download_handleExit (d : nat) (err : option error) : M Client unit :=
  dl <- getd d ;;
  modify (fun c => set_c_transfers
                     (transfers_delete (TDownload d) (c_transfers c)) c) ;;;
  modify (fun c => set_c_activeDownloadsByPeer
                     (delete (Nick (conf_Peer (d_conf dl)))
                        (c_activeDownloadsByPeer c)) c) ;;;
  c <- get ;;
  match List.find
          (fun od =>
             match c_downloads c !! od with
             | Some o =>
                 negb (d_terminateRequested o)
                 && (d_state o =? "waiting_activedl")
                 && Peer_ptr_eqb (conf_Peer (d_conf dl)) (conf_Peer (d_conf o))
             | None => false
             end)
          (downloadsOf (c_transfers c)) with
  | Some od =>
      o <- getd od ;;
      setd od (set_d_state "waited_activedl") ;;;
      modify (fun c => set_c_activeDownloadsByPeer
                         (<[Nick (conf_Peer (d_conf o)) := d]>
                            (c_activeDownloadsByPeer c)) c) ;;;
      setd od (fun o => set_d_activeDlChan (S (d_activeDlChan o)) o)
  | None => ret tt
  end ;;;
  modify (fun c => set_c_downloadSlotAvail (c_downloadSlotAvail c + 1) c) ;;;
  c <- get ;;
  match List.find
          (fun od =>
             match c_downloads c !! od with
             | Some o =>
                 negb (d_terminateRequested o) && (d_state o =? "waiting_slot")
             | None => false
             end)
          (downloadsOf (c_transfers c)) with
  | Some od =>
      setd od (set_d_state "waited_slot") ;;;
      modify (fun c => set_c_downloadSlotAvail (c_downloadSlotAvail c - 1) c) ;;;
      setd od (fun o => set_d_slotChan (S (d_slotChan o)) o)
  | None => ret tt
  end ;;;
  c <- get ;;
  match err with
  | None =>
      when (c_OnDownloadSuccessful c)
           (modify (fun c => set_c_events
                               (c_events c ++ [CallOnDownloadSuccessful d]) c))
  | Some _ =>
      when (c_OnDownloadError c)
           (modify (fun c => set_c_events
                               (c_events c ++ [CallOnDownloadError d]) c))
  end.

(** The end of [Download.do]: an error met on the way goes to
    [handleExit]. *)
Definition Download_do_return (d : nat) (err : option error) : M Client unit :=
  match err with
  | Some e => Download_handleExit d (Some e)
  | None => ret tt
  end.

(** ** Peer connections: [conn_peer.go] *)

(** [connPeer.terminate] *)
Definition connPeer_terminate : M connPeer unit :=
  fun p =>
    if p_state p =? "terminated" then ret tt p
    else
      ((if (p_state p =? "pre_connecting") || (p_state p =? "pre_connected")
        then ret tt
        else if p_state p =? "connecting" then wakeUp_send
        else if p_state p =? "connected" then conn_do protocol_Terminate
        else panic ("terminate() unsupported in state '" +:+ p_state p +:+ "'")) ;;;
       modify (set_p_state "terminated")) p.

(** [strings.ToLower] on the ASCII letters. *)
Definition ascii_ToLower (a : ascii) : ascii :=
  let n := nat_of_ascii a in
  if (65 <=? n)%nat && (n <=? 90)%nat then ascii_of_nat (n + 32) else a.

Fixpoint ToLower (s : string) : string :=
  match s with
  | EmptyString => EmptyString
  | String a s' => String (ascii_ToLower a) (ToLower s')
  end.

Definition errorDuplicate : error :=
  Errorf "a connection with this peer and direction already exists".

(** [p.peer], read through: a nil peer panics. *)
Definition thePeer (p : nat) : M Client Peer :=
  pc <- getp p ;;
  match p_peer pc with
  | Some peer => ret peer
  | None => nilDeref
  end.

(** The handover of a connection to the download that waits for it, at
    the end of both handshakes; [dl.wakeUp] of [conn_peer.go] is the
    channel [peerChan] of the download. *)
Definition delegate_download (p dl : nat) : M Client unit :=
  setp p (set_p_protoState "wait_download") ;;;
  setp p (set_p_state "delegated_download") ;;;
  setp p (set_p_transfer (Some (TDownload dl))) ;;;
  setd dl (set_d_pconn (Some p)) ;;;
  setd dl (set_d_state "waited_peer") ;;;
  setd dl (fun o => set_d_peerChan (S (d_peerChan o)) o).

(** The election of the direction in the [msgNmdcKey] case. *)
Definition electDirection (p : nat) : M Client string :=
  pc <- getp p ;;
  if (p_localDirection pc =? "upload") && (p_remoteDirection pc =? "download")
  then ret "upload"
  else if (p_localDirection pc =? "download")
          && (p_remoteDirection pc =? "upload")
  then ret "download"
  else if (p_localDirection pc =? "download")
          && (p_remoteDirection pc =? "download")
  then
    if (p_localBet pc >? p_remoteBet pc)%Z then ret "download"
    else if (p_localBet pc <? p_remoteBet pc)%Z then
      peer <- thePeer p ;;
      c <- get ;;
      match downloadPendingByPeer c peer with
      | Some dl =>
          o <- getd dl ;;
          peerRequestConnection (conf_Peer (d_conf o)) ""
      | None => ret tt
      end ;;;
      ret "upload"
    else fail (Errorf "equal random numbers")
  else fail (Errorf "double upload request").

(** The end of the [msgNmdcKey] case: the connection enters the index
    of the client under its peer and the direction elected. *)
Definition registerDirection (p : nat) (direction : string) : M Client unit :=
  peer <- thePeer p ;;
  c <- get ;;
  match c_connPeersByKey c !! (Nick peer, direction) with
  | Some _ => fail errorDuplicate
  | None =>
      modify (fun c => set_c_connPeersByKey
                         (<[(Nick peer, direction) := p]>
                            (c_connPeersByKey c)) c) ;;;
      setp p (set_p_direction direction) ;;;
      if direction =? "upload" then setp p (set_p_protoState "wait_upload")
      else
        c' <- get ;;
        match downloadPendingByPeer c' peer with
        | Some dl => delegate_download p dl
        | None => fail (Errorf "download connection but cannot find download")
        end
  end.

(** The end of the [msgAdcCInfos] case: the direction is download when a
    download waits for the token of the connection. *)
Definition registerAdcDirection (p : nat) (peer : Peer) : M Client unit :=
  pc <- getp p ;;
  c <- get ;;
  match downloadByAdcToken c (p_adcToken pc) with
  | Some dl =>
      match c_connPeersByKey c !! (Nick peer, "download") with
      | Some _ => fail errorDuplicate
      | None =>
          modify (fun c => set_c_connPeersByKey
                             (<[(Nick peer, "download") := p]>
                                (c_connPeersByKey c)) c) ;;;
          setp p (set_p_direction "download") ;;;
          delegate_download p dl
      end
  | None =>
      match c_connPeersByKey c !! (Nick peer, "upload") with
      | Some _ => fail errorDuplicate
      | None =>
          modify (fun c => set_c_connPeersByKey
                             (<[(Nick peer, "upload") := p]>
                                (c_connPeersByKey c)) c) ;;;
          setp p (set_p_direction "upload") ;;;
          setp p (set_p_protoState "wait_upload")
      end
  end.

(** [connPeer.handleMessage]; [rnd] is what [randomInt(1, 0x7FFF)]
    returns when it is called. *)
Definition handleMessage (ext : Externals) (p : nat) (rnd : Z) (msgi : msg) :
    M Client unit :=
  pc <- getp p ;;
  c <- get ;;
  match msgi with
  | msgAdcCStatus type code text =>
      if negb (type =? adcStatusOk ext)%Z
      then fail (Errorf ("error (" +:+ pretty code +:+ "): " +:+ text))
      else ret tt

  | msgAdcCSupports _ =>
      if negb (p_protoState pc =? "connected") then
        fail (Errorf ("[Supports] invalid state: " +:+ p_protoState pc))
      else
        setp p (set_p_protoState "supports") ;;;
        if p_isActive pc then conn_Write p (msgAdcCSupports adcFeatures)
        else conn_Write p
               (msgAdcCInfos
                  (<[adcFieldToken ext := p_adcToken pc]>
                     {[adcFieldClientId ext :=
                         dcBase32Encode ext (c_clientId c)]}))

  | msgAdcCInfos fields =>
      if negb (p_protoState pc =? "supports") then
        fail (Errorf ("[Infos] invalid state: " +:+ p_protoState pc))
      else
        setp p (set_p_protoState "infos") ;;;
        match fields !! adcFieldClientId ext with
        | None => fail (Errorf "client id not provided")
        | Some clientId =>
            setp p (set_p_peer
                      (peerByClientId c (dcBase32Decode ext clientId))) ;;;
            match peerByClientId c (dcBase32Decode ext clientId) with
            | None => fail (Errorf ("unknown client id (" +:+ clientId +:+ ")"))
            | Some peer =>
                (if p_isActive pc then
                   match fields !! adcFieldToken ext with
                   | None => fail (Errorf "token not provided")
                   | Some token =>
                       setp p (set_p_adcToken token) ;;;
                       conn_Write p
                         (msgAdcCInfos
                            {[adcFieldClientId ext :=
                                dcBase32Encode ext (c_clientId c)]})
                   end
                 else if c_protoIsAdc c && p_isEncrypted pc
                         && negb (peer_adcFingerprint peer =? "") then
                   match p_tlsConn pc with
                   | None => nilDeref
                   | Some [] => panic "index out of range"
                   | Some (cert :: _) =>
                       if negb (adcCertificateFingerprint ext cert
                                =? peer_adcFingerprint peer)
                       then fail (Errorf
                                    ("unable to validate peer fingerprint ("
                                     +:+ adcCertificateFingerprint ext cert
                                     +:+ " vs " +:+ peer_adcFingerprint peer
                                     +:+ ")"))
                       else ret tt
                   end
                 else ret tt) ;;;
                registerAdcDirection p peer
            end
        end

  | msgAdcCGetFile q s l z =>
      if negb (p_protoState pc =? "wait_upload") then
        fail (Errorf ("[AdcGet] invalid state: " +:+ p_protoState pc))
      else _ <- newUpload ext p q s l z ;; ret tt

  | msgNmdcMyNick nick =>
      if negb (p_protoState pc =? "connected") then
        fail (Errorf ("[MyNick] invalid state: " +:+ p_protoState pc))
      else
        setp p (set_p_protoState "mynick") ;;;
        setp p (set_p_peer (peerByNick c nick)) ;;;
        match peerByNick c nick with
        | None => fail (Errorf ("peer not connected to hub (" +:+ nick +:+ ")"))
        | Some _ => ret tt
        end

  | msgNmdcLock lock _ _ =>
      if negb (p_protoState pc =? "mynick") then
        fail (Errorf ("[Lock] invalid state: " +:+ p_protoState pc))
      else
        setp p (set_p_protoState "lock") ;;;
        setp p (set_p_remoteLock (list_byte_of_string lock)) ;;;
        when (p_isActive pc)
             (conn_Write p (msgNmdcMyNick (conf_Nick (c_conf c))) ;;;
              conn_Write p (msgNmdcLock "EXTENDEDPROTOCOLABCABCABCABCABCABC"
                              (conf_PkValue (c_conf c)) "")) ;;;
        conn_Write p
          (msgNmdcSupports
             (if conf_PeerDisableCompression (c_conf c) then nmdcFeatures
              else nmdcFeatures ++ [nmdcFeatureZlibGet])) ;;;
        setp p (set_p_localBet rnd) ;;;
        peer <- thePeer p ;;
        match downloadPendingByPeer c peer with
        | Some _ =>
            setp p (set_p_localDirection "download") ;;;
            conn_Write p (msgNmdcDirection "Download" rnd)
        | None =>
            setp p (set_p_localDirection "upload") ;;;
            conn_Write p (msgNmdcDirection "Upload" rnd)
        end ;;;
        conn_Write p (msgNmdcKey (nmdcComputeKey ext (list_byte_of_string lock)))

  | msgNmdcSupports _ =>
      if negb (p_protoState pc =? "lock") then
        fail (Errorf ("[Supports] invalid state: " +:+ p_protoState pc))
      else setp p (set_p_protoState "supports")

  | msgNmdcDirection direction bet =>
      if negb (p_protoState pc =? "supports") then
        fail (Errorf ("[Direction] invalid state: " +:+ p_protoState pc))
      else
        setp p (set_p_protoState "direction") ;;;
        setp p (set_p_remoteDirection (ToLower direction)) ;;;
        setp p (set_p_remoteBet bet)

  | msgNmdcKey _ =>
      if negb (p_protoState pc =? "direction") then
        fail (Errorf ("[Key] invalid state: " +:+ p_protoState pc))
      else
        setp p (set_p_protoState "key") ;;;
        direction <- electDirection p ;;
        registerDirection p direction

  | msgNmdcGetFile q s l z =>
      if negb (p_protoState pc =? "wait_upload") then
        fail (Errorf ("[AdcGet] invalid state: " +:+ p_protoState pc))
      else _ <- newUpload ext p q s l z ;; ret tt

  | _ => fail (Errorf "unhandled")
  end.

(** The block of the loop of [connPeer.do] that runs under the mutex, on
    the message read last; it returns [safeState]. *)
Definition connPeer_do_locked (ext : Externals) (p : nat) (rnd : Z) (m : msg) :
    M Client string :=
  pc <- getp p ;;
  (if p_state pc =? "terminated" then fail errorTerminated
   else if p_state pc =? "pre_connecting" then setp p (set_p_state "connecting")
   else if (p_state pc =? "connecting") || (p_state pc =? "pre_connected") then
     setp p (set_p_state "connected") ;;;
     setp p (set_p_protoState "connected")
   else if p_state pc =? "connected" then handleMessage ext p rnd m
   else if p_state pc =? "delegated_upload" then
     match p_transfer pc with
     | Some (TUpload u) =>
         setp p (set_p_transfer None) ;;;
         setp p (set_p_state "connected") ;;;
         setu u (set_u_state "success") ;;;
         upload_handleExit u None
     | _ => panic "interface conversion"
     end
   else if p_state pc =? "delegated_download" then
     match p_transfer pc with
     | Some (TDownload d) =>
         catch (Download_handleDownload ext d m)
               (fun err =>
                  match err with
                  | errorTerminated =>
                      setp p (set_p_transfer None) ;;;
                      setp p (set_p_state "connected") ;;;
                      setd d (set_d_state "success") ;;;
                      Download_handleExit d None
                  | _ => fail err
                  end)
     | _ => panic "interface conversion"
     end
   else ret tt) ;;;
  pc' <- getp p ;;
  ret (p_state pc').

(** The block [connPeer.do] runs under the mutex when its loop has
    returned [err]. *)
Definition connPeer_do_exit (p : nat) (err : error) : M Client unit :=
  pc <- getp p ;;
  (if p_state pc =? "delegated_upload" then
     match p_transfer pc with
     | Some (TUpload u) => upload_handleExit u (Some err)
     | _ => panic "interface conversion"
     end
   else if p_state pc =? "delegated_download" then
     match p_transfer pc with
     | Some (TDownload d) => Download_handleExit d (Some err)
     | _ => panic "interface conversion"
     end
   else ret tt) ;;;
  pc' <- getp p ;;
  when (bool_decide (p_conn pc' <> None)) (onp p (conn_do protocol_Terminate)) ;;;
  modify (fun c => set_c_connPeers (c_connPeers c ∖ {[p]}) c) ;;;
  match p_peer pc' with
  | Some peer =>
      when (negb (p_direction pc' =? ""))
           (modify (fun c => set_c_connPeersByKey
                               (delete (Nick peer, p_direction pc')
                                  (c_connPeersByKey c)) c))
  | None => ret tt
  end.

(** ** Runs of the client

    What the goroutines of the client do to its state, one block under
    the mutex at a time. *)
Inductive action : Type :=
| ActDownloadFile (conf : DownloadConf)
| ActDownloadClose (d : nat)
| ActDoActiveDl (d : nat)
| ActDoSlot (d : nat)
| ActDoPeer (d : nat) (token : string)
| ActDoSelect (d : nat) (w : waitFor) (by_ : wakeup)
| ActDoProcess (d : nat)
| ActDoReturn (d : nat) (err : error)
| ActUploadClose (u : nat)
| ActConnTerminate (p : nat)
| ActConnLocked (p : nat) (rnd : Z) (m : msg)
| ActConnExit (p : nat) (err : error).

(** The state a computation leaves. *)
Definition exec {A} (m : M Client A) (c : Client) : Client := fst (m c).

Definition step (ext : Externals) (a : action) (c : Client) : Client :=
  match a with
  | ActDownloadFile conf => exec (DownloadFile ext conf) c
  | ActDownloadClose d => exec (Download_Close d) c
  | ActDoActiveDl d => exec (Download_do_activedl d) c
  | ActDoSlot d => exec (Download_do_slot d) c
  | ActDoPeer d token => exec (Download_do_peer d token) c
  | ActDoSelect d w by_ => exec (Download_do_select d w by_) c
  | ActDoProcess d => exec (Download_do_process d) c
  | ActDoReturn d err => exec (Download_do_return d (Some err)) c
  | ActUploadClose u => exec (upload_Close u) c
  | ActConnTerminate p => exec (onp p connPeer_terminate) c
  | ActConnLocked p rnd m => exec (connPeer_do_locked ext p rnd m) c
  | ActConnExit p err => exec (connPeer_do_exit p err) c
  end.

Definition run (ext : Externals) (l : list action) (c : Client) : Client :=
  fold_left (fun c a => step ext a c) l c.

(** ** Reasoning about computations *)

(** [wp m Q s]: the outcome of [m] from [s] and the state it leaves
    satisfy [Q]. *)
Definition wp {S A} (m : M S A) (Q : res A -> S -> Prop) (s : S) : Prop :=
  Q (snd (m s)) (fst (m s)).

(** The outcome a failed step hands to the rest of a computation. *)
Definition passes {A B} (r : res A) : res B :=
  match r with
  | Ret _ => Blocks
  | Fail e => Fail e
  | Panic t => Panic t
  | Blocks => Blocks
  end.

(** ** States used in the examples *)

(** Stand-ins for what the rest of the repository provides: the hash of
    a content is the content, a hash is written as its 39 characters. *)
Definition ext0 : Externals :=
  mkExternals 0 1 53 51 "ID" "TO"
    (fun lock => lock) string_of_list_byte list_byte_of_string
    string_of_list_byte
    (fun s => if (String.length s =? 39)%nat
              then Some (list_byte_of_string s) else None)
    string_of_list_byte
    (fun content => content)
    (fun packed => Some packed).

Definition alice : Peer := mkPeer 1 "alice" [] "".

(** A connection with alice in a given state, with an open socket. *)
Definition connPeer_in (state protoState : string) : connPeer :=
  mkConnPeer false true 0 state protoState (Some newProtocol) None "" "" 0
    (Some alice) [] "" 0 "" 0 "" None.

(** A connection in its NMDC handshake, with the two wishes and bets. *)
Definition connPeer_elect (localDirection : string) (localBet : Z)
    (remoteDirection : string) (remoteBet : Z) : connPeer :=
  set_p_remoteBet remoteBet
    (set_p_remoteDirection remoteDirection
       (set_p_localBet localBet
          (set_p_localDirection localDirection
             (connPeer_in "connected" "direction")))).

Definition tthA : TigerHash :=
  list_byte_of_string "AAAAAAAAAAAAAAAAAAAAAAAAAAAAAAAAAAAAAAA".

(** A download of a whole file from alice, to a path or to memory,
    handed to the connection 0. *)
Definition download_ex (tth : TigerHash) (path : string) (state : string) :
    Download :=
  mkDownload (mkDownloadConf alice tth 0 (-1) path false false) false 0 state
    0 0 0 (Some 0%nat) ("file TTH/" +:+ TigerHash_String ext0 tth) "" None false
    [] 0 0.

(** A client with both slot counters at [slots], the connection 0 and
    the download 0. *)
Definition client_ex (slots : Z) (fs : filesystem) (pc : connPeer)
    (dl : Download) (index : gmap (string * string) nat) : Client :=
  mkClient (mkClientConf "me" "" false) false [] "10.0.0.1" 411
    {["alice" := alice]} {[0%nat]} index [TDownload 0] ∅ slots slots [] []
    true true {[0%nat := pc]} {[0%nat := dl]} ∅ [] [] fs.


(** A client whose connection 0 carries the download 0. *)
Definition client_downloading (fs : filesystem) (dl : Download) : Client :=
  client_ex 1 fs
    (set_p_transfer (Some (TDownload 0))
       (connPeer_in "delegated_download" "wait_download"))
    dl ∅.

(** ** Statements about the client *)

(** A computation leaves a component [f] of the client as it was. *)
Definition keeps {X A} (f : Client -> X) (m : M Client A) : Prop :=
  forall c, f (fst (m c)) = f c.

(** A computation preserves a property of the client, whatever its
    outcome. *)
Definition stable {A} (I : Client -> Prop) (m : M Client A) : Prop :=
  forall c, I c -> I (fst (m c)).

(** No slot counter is negative. *)
Definition slots_ok (c : Client) : Prop :=
  0 <= c_downloadSlotAvail c /\ 0 <= c_uploadSlotAvail c.

Definition slots (c : Client) : Z * Z :=
  (c_downloadSlotAvail c, c_uploadSlotAvail c).

(** The client after a message has been written on a connection. *)
Definition replied (c : Client) (p : nat) (m : msg) : Client :=
  set_c_conns
    (alter (fun pc => set_p_conn (protocol_Write m <$> p_conn pc) pc) p
       (c_conns c)) c.

(** A file is somewhere in a directory of the share. *)
Inductive file_in (file : shareFile) : shareDirectory -> Prop :=
| file_in_here files dirs :
    file ∈ files -> file_in file (mkShareDirectory files dirs)
| file_in_sub files dirs dir :
    dir ∈ dirs -> file_in file dir -> file_in file (mkShareDirectory files dirs).

(** No file of the share tree has the hash. *)
Definition not_shared (c : Client) (tth : TigerHash) : Prop :=
  forall dir file, dir ∈ c_shareTree c -> file_in file dir -> sf_tth file <> tth.

(** Induction on a directory, with the property for its subdirectories. *)
Fixpoint shareDirectory_rect' (P : shareDirectory -> Prop)
    (H : forall files dirs, Forall P dirs -> P (mkShareDirectory files dirs))
    (dir : shareDirectory) : P dir :=
  match dir with
  | mkShareDirectory files dirs =>
      H files dirs
        ((fix go (ds : list shareDirectory) : Forall P ds :=
            match ds with
            | [] => @List.Forall_nil _ P
            | d :: ds' => @List.Forall_cons _ P d ds' (shareDirectory_rect' P H d) (go ds')
            end) dirs)
  end.

(** The replies of [newUpload] that refuse a request. *)
Definition replySlotsFull (ext : Externals) (c : Client) : msg :=
  if c_protoIsAdc c
  then msgAdcCStatus (adcStatusWarning ext) (adcCodeSlotsFull ext) "Slots full"
  else msgNmdcMaxedOut.

Definition replyFileNotAvailable (ext : Externals) (c : Client) : msg :=
  if c_protoIsAdc c
  then msgAdcCStatus (adcStatusWarning ext) (adcCodeFileNotAvailable ext)
         "File Not Available"
  else msgNmdcError "File Not Available".

(** The upload [newUpload] starts from. *)
Definition upload_init (c : Client) (p : nat) (reqQuery : string) (reqStart : Z)
    (reqCompressed : bool) : upload :=
  mkUpload false "processing" p None false
    (negb (conf_PeerDisableCompression (c_conf c)) && reqCompressed)
    reqQuery reqStart 0 0.

(** A connection that has gone through its handshake: it is in the
    store, knows its peer and has a socket. *)
Definition handshaken (c : Client) (p : nat) : Prop :=
  exists pc, c_conns c !! p = Some pc /\ is_Some (p_peer pc) /\ is_Some (p_conn pc).

(** The direction a connection of the store has. *)
Definition conn_direction (c : Client) (p : nat) : option string :=
  p_direction <$> c_conns c !! p.

(** The client once the handler of [msgNmdcKey] has noted the message. *)
Definition keyed (c : Client) (p : nat) (pc : connPeer) : Client :=
  set_c_conns (<[p := set_p_protoState "key" pc]> (c_conns c)) c.

(** Whether the socket of a connection of the store is closed. *)
Definition conn_closed (c : Client) (p : nat) : option bool :=
  match c_conns c !! p with
  | Some pc => closed <$> p_conn pc
  | None => None
  end.

(** A handler has refused a connection as a duplicate: it fails with the
    error, the index is as before, and the block the goroutine of the
    connection runs on the error closes the socket, takes the connection
    out of [connPeers] and leaves the index alone. *)
Definition refused_duplicate (c : Client) (p : nat) (out : Client * res unit) :
    Prop :=
  snd out = Fail errorDuplicate
  /\ c_connPeersByKey (fst out) = c_connPeersByKey c
  /\ let c' := fst (connPeer_do_exit p errorDuplicate (fst out)) in
     c_connPeersByKey c' = c_connPeersByKey c
     /\ (p ∉ c_connPeers c')
     /\ conn_closed c' p = Some true.

(** The token a connection has once the [msgAdcCInfos] message is read:
    the active side takes the one of the message. *)
Definition adcTokenAfter (ext : Externals) (pc : connPeer)
    (fields : gmap string string) : string :=
  if p_isActive pc then default "" (fields !! adcFieldToken ext)
  else p_adcToken pc.

(** The checks of the [msgAdcCInfos] case that come before the index is
    looked up: the token on the active side, the fingerprint on the
    other. *)
Definition adcInfosChecked (ext : Externals) (c : Client) (pc : connPeer)
    (peer : Peer) (fields : gmap string string) : Prop :=
  if p_isActive pc then is_Some (fields !! adcFieldToken ext)
  else
    c_protoIsAdc c && p_isEncrypted pc && negb (peer_adcFingerprint peer =? "")
    = true ->
    exists cert rest,
      p_tlsConn pc = Some (cert :: rest)
      /\ adcCertificateFingerprint ext cert = peer_adcFingerprint peer.

(** The direction the [msgAdcCInfos] case gives a connection with a
    token: download when a download waits for the token. *)
Definition adcDirection (c : Client) (adcToken : string) : string :=
  match downloadByAdcToken c adcToken with
  | Some _ => "download"
  | None => "upload"
  end.


(** The chunks of a transfer, handled one after the other until one of
    them ends the transfer or fails. *)
Fixpoint Download_receive (ext : Externals) (d : nat) (chunks : list bytes) :
    M Client unit :=
  match chunks with
  | [] => ret tt
  | chunk :: rest =>
      Download_handleDownload ext d (msgBinary chunk) ;;;
      Download_receive ext d rest
  end.

(** The number of bytes the writer of a download has taken: the size of
    the file it writes, or the place it has reached in the buffer. *)
Definition writtenBytes (c : Client) (d : nat) : option Z :=
  match c_downloads c !! d with
  | Some dl =>
      match d_writer dl with
      | Some (FileWriter path) =>
          (fun content => Z.of_nat (length content)) <$> fs_files (c_fs c) !! path
      | Some (BytesWriter off) => Some (Z.of_nat off)
      | None => None
      end
  | None => None
  end.

(** The offset of a download lies within its declared length [L]. *)
Definition offset_within (c : Client) (d : nat) (L : Z) : Prop :=
  exists dl, c_downloads c !! d = Some dl
             /\ d_length dl = L /\ 0 <= d_offset dl <= L.

(** A download is streaming a transfer of declared length [L]: its
    offset is within the length and counts the bytes its writer has
    taken; a file it writes can be written, a buffer has the declared
    length. *)
Definition streaming (c : Client) (d : nat) (L : Z) : Prop :=
  exists dl,
    c_downloads c !! d = Some dl
    /\ d_length dl = L /\ 0 <= d_offset dl <= L
    /\ writtenBytes c d = Some (d_offset dl)
    /\ match d_writer dl with
       | Some (FileWriter path) => path ∉ fs_denied (c_fs c)
       | Some (BytesWriter _) => Z.of_nat (length (d_content dl)) = L
       | None => False
       end.

(** A computation never returns normally. *)
Definition never_returns {S A} (m : M S A) : Prop :=
  forall s a, snd (m s) <> Ret a.

(** A file system with an empty [/dl/file.tmp]. *)
Definition fresh_fs : filesystem := mkFs {["/dl/file.tmp" := []]} ∅.

(** The download 0 once a reply of length [len] is accepted: to the file
    [/dl/file.tmp], or to memory. *)
Definition download_to_file (len : Z) : Download :=
  set_d_length len
    (set_d_writer (Some (FileWriter "/dl/file.tmp"))
       (download_ex tthA "/dl/file" "waited_peer")).

Definition download_to_memory (tth : TigerHash) (content : bytes) : Download :=
  set_d_length (Z.of_nat (length content))
    (set_d_offset (Z.of_nat (length content))
       (set_d_content content
          (set_d_writer (Some (BytesWriter (length content)))
             (download_ex tth "" "waited_peer")))).

(** A client that has no connection and no transfer yet. *)
Definition client_idle (slots : Z) : Client :=
  mkClient (mkClientConf "me" "" false) false [] "10.0.0.1" 411
    {["alice" := alice]} ∅ ∅ [] ∅ slots slots [] [] true true ∅ ∅ ∅ [] []
    fresh_fs.

(** A download is asked while no slot is free, waits for one, and is
    closed by the embedder; its goroutine leaves the wait. *)
Definition close_while_waiting : list action :=
  [ActDownloadFile (mkDownloadConf alice tthA 0 0 "" false false);
   ActDoActiveDl 0;
   ActDoSlot 0;
   ActDownloadClose 0;
   ActDoSelect 0 WaitSlot WokenTerminate;
   ActDoReturn 0 errorTerminated].

(** A client whose connection 0, with alice, has ended its handshake as
    the uploading side. *)
Definition client_serving (slots : Z) : Client :=
  client_ex slots fresh_fs (connPeer_in "connected" "wait_upload")
    (download_ex tthA "" "uninitialized") ∅.

(** ** The order of the handshake *)

(** The [protoState] in which [handleMessage] accepts a message, for the
    messages it accepts in one state only. *)
Definition expectedProtoState (m : msg) : option string :=
  match m with
  | msgAdcCSupports _ => Some "connected"
  | msgAdcCInfos _ => Some "supports"
  | msgAdcCGetFile _ _ _ _ => Some "wait_upload"
  | msgNmdcMyNick _ => Some "connected"
  | msgNmdcLock _ _ _ => Some "mynick"
  | msgNmdcSupports _ => Some "lock"
  | msgNmdcDirection _ _ => Some "supports"
  | msgNmdcKey _ => Some "direction"
  | msgNmdcGetFile _ _ _ _ => Some "wait_upload"
  | _ => None
  end.

(** The name under which [handleMessage] reports a message that comes in
    the wrong state; both requests for a file are reported as AdcGet. *)
Definition reportedName (m : msg) : string :=
  match m with
  | msgAdcCSupports _ | msgNmdcSupports _ => "[Supports]"
  | msgAdcCInfos _ => "[Infos]"
  | msgAdcCGetFile _ _ _ _ | msgNmdcGetFile _ _ _ _ => "[AdcGet]"
  | msgNmdcMyNick _ => "[MyNick]"
  | msgNmdcLock _ _ _ => "[Lock]"
  | msgNmdcDirection _ _ => "[Direction]"
  | msgNmdcKey _ => "[Key]"
  | _ => ""
  end.

(** The messages [handleMessage] has no case for: they belong to a
    transfer, or are unknown to the codec. *)
Definition noCase (m : msg) : bool :=
  match m with
  | msgAdcCSendFile _ _ _ _ | msgNmdcSendFile _ _ _ _ | msgNmdcMaxedOut
  | msgNmdcError _ | msgBinary _ | msgUnhandled _ => true
  | _ => false
  end.

(** The messages of a handshake, handled one after the other as the loop
    of [connPeer.do] hands them to [handleMessage] while the connection
    is in state [connected]; the first error ends the loop. *)
Fixpoint handleMessages (ext : Externals) (p : nat) (rnd : Z) (ms : list msg) :
    M Client unit :=
  match ms with
  | [] => ret tt
  | m :: rest => handleMessage ext p rnd m ;;; handleMessages ext p rnd rest
  end.

(** What a connection wishes when the [msgNmdcLock] message is handled:
    to download when a download is pending for the peer. *)
Definition wishedDirection (c : Client) (peer : Peer) : string :=
  match downloadPendingByPeer c peer with
  | Some _ => "Download"
  | None => "Upload"
  end.

(** The messages the [msgNmdcLock] case writes, in order. *)
Definition lockReply (ext : Externals) (c : Client) (pc : connPeer)
    (peer : Peer) (rnd : Z) (lock : string) : list msg :=
  (if p_isActive pc
   then [msgNmdcMyNick (conf_Nick (c_conf c));
         msgNmdcLock "EXTENDEDPROTOCOLABCABCABCABCABCABC"
           (conf_PkValue (c_conf c)) ""]
   else [])
  ++ [msgNmdcSupports
        (if conf_PeerDisableCompression (c_conf c) then nmdcFeatures
         else nmdcFeatures ++ [nmdcFeatureZlibGet]);
      msgNmdcDirection (wishedDirection c peer) rnd;
      msgNmdcKey (nmdcComputeKey ext (list_byte_of_string lock))].

(** The messages a connection of the store has written. *)
Definition conn_written (c : Client) (p : nat) : option (list msg) :=
  match c_conns c !! p with
  | Some pc => written <$> p_conn pc
  | None => None
  end.

(** The request for a file [Download.do] writes once it has a
    connection. *)
Definition getFileRequest (c : Client) (dl : Download) : msg :=
  let compressed :=
    negb (conf_PeerDisableCompression (c_conf c)) &&
    ((Length (d_conf dl) <=? 0)%Z || (Length (d_conf dl) >=? 1024 * 10)%Z) in
  if c_protoIsAdc c
  then msgAdcCGetFile (d_query dl) (Start (d_conf dl)) (Length (d_conf dl))
         compressed
  else msgNmdcGetFile (d_query dl) (Start (d_conf dl)) (Length (d_conf dl))
         compressed.

(** The messages the two cases of the ADC handshake write: the side that
    accepted the connection answers Supports and sends its client-id after
    the Infos of the other side; the side that dialled sends its client-id
    and its token when it receives Supports. *)
Definition adcReply (ext : Externals) (c : Client) (pc : connPeer) : list msg :=
  if p_isActive pc
  then [msgAdcCSupports adcFeatures;
        msgAdcCInfos {[adcFieldClientId ext := dcBase32Encode ext (c_clientId c)]}]
  else [msgAdcCInfos (<[adcFieldToken ext := p_adcToken pc]>
                        {[adcFieldClientId ext :=
                            dcBase32Encode ext (c_clientId c)]})].

(** ** More of [download.go] *)

(** [Client.DownloadCount] *)
Definition DownloadCount (c : Client) : nat :=
  length (downloadsOf (c_transfers c)).

(** The transfers of the client point into its stores: a key of the map
    of transfers is the address of a download or of an upload that
    exists. *)
Definition transfers_wf (c : Client) : Prop :=
  forall t, t ∈ c_transfers c ->
    match t with
    | TDownload d => is_Some (c_downloads c !! d)
    | TUpload u => is_Some (c_uploads c !! u)
    end.

(** The configuration [DownloadFile] keeps: a length that is not
    positive asks for the whole file. *)
Definition normalConf (conf : DownloadConf) : DownloadConf :=
  mkDownloadConf (conf_Peer conf) (TTH conf) (Start conf)
    (if (Length conf <=? 0)%Z then -1 else Length conf)
    (SavePath conf) (SkipValidation conf) (isFilelist conf).

(** The download [handleExit] passes the slot to: the first, in the order
    of [range], of the other downloads that wait for a slot and were not
    closed. *)
Definition slotWaiter (c : Client) (d : nat) : option nat :=
  List.find
    (fun od =>
       match c_downloads c !! od with
       | Some o => negb (d_terminateRequested o) && (d_state o =? "waiting_slot")
       | None => false
       end)
    (downloadsOf (transfers_delete (TDownload d) (c_transfers c))).

(** The download [handleExit] wakes because it waits for the peer of the
    download that exits. *)
Definition activeDlWaiter (c : Client) (d : nat) (dl : Download) : option nat :=
  List.find
    (fun od =>
       match c_downloads c !! od with
       | Some o =>
           negb (d_terminateRequested o)
           && (d_state o =? "waiting_activedl")
           && Peer_ptr_eqb (conf_Peer (d_conf dl)) (conf_Peer (d_conf o))
       | None => false
       end)
    (downloadsOf (transfers_delete (TDownload d) (c_transfers c))).

(** The callback [handleExit] calls, when it is set. *)
Definition handleExit_events (c : Client) (d : nat) (err : option error) :
    list event :=
  match err with
  | None => if c_OnDownloadSuccessful c then [CallOnDownloadSuccessful d] else []
  | Some _ => if c_OnDownloadError c then [CallOnDownloadError d] else []
  end.

(** * Properties *)

(** ** The rules of [wp] *)

Lemma wp_ret {S A} (a : A) (Q : res A -> S -> Prop) s :
  Q (Ret a) s -> wp (ret a) Q s.
Proof. done. Qed.

Lemma wp_fail {S A} e (Q : res A -> S -> Prop) s :
  Q (Fail e) s -> wp (fail e) Q s.
Proof. done. Qed.

Lemma wp_panic {S A} t (Q : res A -> S -> Prop) s :
  Q (Panic t) s -> wp (panic t) Q s.
Proof. done. Qed.

Lemma wp_nilDeref {S A} (Q : res A -> S -> Prop) s :
  Q (Panic "invalid memory address or nil pointer dereference") s ->
  wp nilDeref Q s.
Proof. done. Qed.

Lemma wp_blocks {S A} (Q : res A -> S -> Prop) (s : S) :
  Q Blocks s -> wp (fun s => (s, Blocks)) Q s.
Proof. done. Qed.

Lemma wp_get {S} (Q : res S -> S -> Prop) s : Q (Ret s) s -> wp get Q s.
Proof. done. Qed.

Lemma wp_modify {S} (f : S -> S) (Q : res unit -> S -> Prop) s :
  Q (Ret tt) (f s) -> wp (modify f) Q s.
Proof. done. Qed.

Lemma wp_bind {S A B} (m : M S A) (k : A -> M S B) (Q : res B -> S -> Prop) s :
  wp m (fun r s' => match r with
                    | Ret a => wp (k a) Q s'
                    | _ => Q (passes r) s'
                    end) s ->
  wp (bind m k) Q s.
Proof.
  unfold wp, bind. destruct (m s) as [s' [a|e|t|]]; simpl; auto.
Qed.

Lemma wp_catch {S A} (m : M S A) (h : error -> M S A) (Q : res A -> S -> Prop) s :
  wp m (fun r s' => match r with
                    | Fail e => wp (h e) Q s'
                    | _ => Q r s'
                    end) s ->
  wp (catch m h) Q s.
Proof.
  unfold wp, catch. destruct (m s) as [s' [a|e|t|]]; simpl; auto.
Qed.

Lemma wp_when {S} (b : bool) (m : M S unit) (Q : res unit -> S -> Prop) s :
  (if b then wp m Q s else Q (Ret tt) s) -> wp (when b m) Q s.
Proof. destruct b; done. Qed.

Lemma wp_mono {S A} (m : M S A) (Q Q' : res A -> S -> Prop) s :
  wp m Q s -> (forall r s', Q r s' -> Q' r s') -> wp m Q' s.
Proof. unfold wp. auto. Qed.

(** ** The rules of [wp] for the stores of the client *)

Lemma wp_eq {S A} (m : M S A) s s' r :
  wp m (fun r0 s0 => s0 = s' /\ r0 = r) s -> m s = (s', r).
Proof. unfold wp. destruct (m s). simpl. by intros [-> ->]. Qed.

Lemma wp_getp c p pc (Q : res connPeer -> Client -> Prop) :
  c_conns c !! p = Some pc -> Q (Ret pc) c -> wp (getp p) Q c.
Proof. intros H HQ. unfold wp, getp. by rewrite H. Qed.

Lemma wp_onp {A} c p pc (m : M connPeer A) (Q : res A -> Client -> Prop) :
  c_conns c !! p = Some pc ->
  Q (snd (m pc)) (set_c_conns (<[p := fst (m pc)]> (c_conns c)) c) ->
  wp (onp p m) Q c.
Proof. intros H HQ. unfold wp, onp. rewrite H. by destruct (m pc). Qed.

Lemma wp_setp c p pc f (Q : res unit -> Client -> Prop) :
  c_conns c !! p = Some pc ->
  Q (Ret tt) (set_c_conns (<[p := f pc]> (c_conns c)) c) ->
  wp (setp p f) Q c.
Proof. intros H HQ. by eapply wp_onp. Qed.

Lemma wp_conn c p pc cn f (Q : res unit -> Client -> Prop) :
  c_conns c !! p = Some pc -> p_conn pc = Some cn ->
  Q (Ret tt) (set_c_conns (<[p := set_p_conn (Some (f cn)) pc]> (c_conns c)) c) ->
  wp (onp p (conn_do f)) Q c.
Proof.
  intros H Hc HQ. eapply wp_onp; [done|]. unfold conn_do. by rewrite Hc.
Qed.

Lemma wp_getd c d dl (Q : res Download -> Client -> Prop) :
  c_downloads c !! d = Some dl -> Q (Ret dl) c -> wp (getd d) Q c.
Proof. intros H HQ. unfold wp, getd. by rewrite H. Qed.

Lemma wp_setd c d dl f (Q : res unit -> Client -> Prop) :
  c_downloads c !! d = Some dl ->
  Q (Ret tt) (set_c_downloads (<[d := f dl]> (c_downloads c)) c) ->
  wp (setd d f) Q c.
Proof. intros H HQ. unfold wp, setd. by rewrite H. Qed.

Lemma wp_getu c u ul (Q : res upload -> Client -> Prop) :
  c_uploads c !! u = Some ul -> Q (Ret ul) c -> wp (getu u) Q c.
Proof. intros H HQ. unfold wp, getu. by rewrite H. Qed.

Lemma wp_setu c u ul f (Q : res unit -> Client -> Prop) :
  c_uploads c !! u = Some ul ->
  Q (Ret tt) (set_c_uploads (<[u := f ul]> (c_uploads c)) c) ->
  wp (setu u f) Q c.
Proof. intros H HQ. unfold wp, setu. by rewrite H. Qed.

Lemma wp_onfs {A} c (m : M filesystem A) (Q : res A -> Client -> Prop) :
  Q (snd (m (c_fs c))) (set_c_fs (fst (m (c_fs c))) c) -> wp (onfs m) Q c.
Proof. unfold wp, onfs. by destruct (m (c_fs c)). Qed.

Lemma wp_peerNick c p pc peer (Q : res string -> Client -> Prop) :
  c_conns c !! p = Some pc -> p_peer pc = Some peer ->
  Q (Ret (Nick peer)) c -> wp (peerNick p) Q c.
Proof. intros H Hp HQ. unfold wp, peerNick, bind, getp. rewrite H, Hp. done. Qed.

Lemma wp_thePeer c p pc peer (Q : res Peer -> Client -> Prop) :
  c_conns c !! p = Some pc -> p_peer pc = Some peer ->
  Q (Ret peer) c -> wp (thePeer p) Q c.
Proof. intros H Hp HQ. unfold wp, thePeer, bind, getp. rewrite H, Hp. done. Qed.

(** A side condition of a rule: a lookup in a store, or a field of a
    record. *)
Ltac wp_side :=
  simpl; first [eassumption | reflexivity | by simplify_map_eq | done].

(** The state of the client, with the fields read through the updates. *)
Ltac norm_state :=
  cbn [p_isEncrypted p_isActive p_wakeUp p_state p_protoState p_conn
       p_tlsConn p_adcToken p_passiveIp p_passivePort p_peer p_remoteLock
       p_localDirection p_localBet p_remoteDirection p_remoteBet
       p_direction p_transfer d_conf d_terminateRequested d_terminate
       d_state d_activeDlChan d_slotChan d_peerChan d_pconn d_query
       d_adcToken d_writer d_writerClosed d_content d_offset d_length
       u_terminateRequested u_state u_pconn u_reader u_readerClosed
       u_isCompressed u_query u_start u_length u_offset c_conf c_protoIsAdc
       c_clientId c_hubSolvedIp c_hubPort c_peers c_connPeers
       c_connPeersByKey c_transfers c_activeDownloadsByPeer
       c_downloadSlotAvail c_uploadSlotAvail c_fileList c_shareTree
       c_OnDownloadSuccessful c_OnDownloadError c_conns c_downloads
       c_uploads c_requests c_events c_fs set_p_wakeUp set_p_state
       set_p_protoState set_p_conn set_p_adcToken set_p_peer
       set_p_remoteLock set_p_localDirection set_p_localBet
       set_p_remoteDirection set_p_remoteBet set_p_direction set_p_transfer
       set_d_terminateRequested set_d_terminate set_d_state
       set_d_activeDlChan set_d_slotChan set_d_peerChan set_d_pconn
       set_d_adcToken set_d_writer set_d_writerClosed set_d_content
       set_d_offset set_d_length set_u_terminateRequested set_u_state
       set_u_reader set_u_readerClosed set_u_length set_c_connPeers
       set_c_connPeersByKey set_c_transfers set_c_activeDownloadsByPeer
       set_c_downloadSlotAvail set_c_uploadSlotAvail set_c_conns
       set_c_downloads set_c_uploads set_c_requests set_c_events set_c_fs
       fs_files fs_denied written readBinary readerZlib closed
       protocol_Write protocol_SetReadBinary protocol_ReaderEnableZlib
       protocol_Terminate conf_Peer TTH Start Length SavePath
       SkipValidation isFilelist conf_Nick conf_PkValue
       conf_PeerDisableCompression fst snd].

(** One step of the symbolic run of a computation. *)
Ltac wp_run_step :=
  lazy beta iota zeta; norm_state;
  match goal with
  | |- wp (bind _ _) _ _ => apply wp_bind
  | |- wp (catch _ _) _ _ => apply wp_catch
  | |- wp (when _ _) _ _ => apply wp_when
  | |- wp (ret _) _ _ => apply wp_ret
  | |- wp (fail _) _ _ => apply wp_fail
  | |- wp (panic _) _ _ => apply wp_panic
  | |- wp nilDeref _ _ => apply wp_nilDeref
  | |- wp get _ _ => apply wp_get
  | |- wp (modify _) _ _ => apply wp_modify
  | |- wp (getp _) _ _ => eapply wp_getp; [wp_side|]
  | |- wp (setp _ _) _ _ => eapply wp_setp; [wp_side|]
  | |- wp (onp _ (conn_do _)) _ _ => eapply wp_conn; [wp_side|wp_side|]
  | |- wp (conn_Write _ _) _ _ => eapply wp_conn; [wp_side|wp_side|]
  | |- wp (connPeer_close _) _ _ => eapply wp_conn; [wp_side|wp_side|]
  | |- wp (getd _) _ _ => eapply wp_getd; [wp_side|]
  | |- wp (setd _ _) _ _ => eapply wp_setd; [wp_side|]
  | |- wp (getu _) _ _ => eapply wp_getu; [wp_side|]
  | |- wp (setu _ _) _ _ => eapply wp_setu; [wp_side|]
  | |- wp (onfs _) _ _ => apply wp_onfs
  | |- wp (peerNick _) _ _ => eapply wp_peerNick; [wp_side|wp_side|]
  | |- wp (thePeer _) _ _ => eapply wp_thePeer; [wp_side|wp_side|]
  | |- wp (fun s => (s, Blocks)) _ _ => apply wp_blocks
  | |- wp (if ?b then _ else _) _ _ =>
      match goal with H : b = _ |- _ => rewrite H end
  | |- wp (match ?x with _ => _ end) _ _ =>
      match goal with H : x = _ |- _ => rewrite H end
  | H : ?t = true |- wp (if ?b then _ else _) _ _ =>
      match b with context [t] => rewrite H end
  | H : ?t = false |- wp (if ?b then _ else _) _ _ =>
      match b with context [t] => rewrite H end
  | |- wp (if ?b then _ else _) _ _ =>
      let b' := eval cbn in b in progress change b with b'
  | |- wp (match ?x with _ => _ end) _ _ =>
      let x' := eval cbn in x in progress change x with x'
  | H : ?t = true |- (if ?b then _ else _) =>
      match b with context [t] => rewrite H end
  | H : ?t = false |- (if ?b then _ else _) =>
      match b with context [t] => rewrite H end
  | |- (if ?b then _ else _) =>
      let b' := eval cbn in b in progress change b with b'
  end.

Ltac wp_run := repeat wp_run_step; lazy beta iota zeta; norm_state.

(** ** [connPeer.terminate] *)

(** C8, as the specification states it, fails: a connection that holds a
    download, in state [delegated_download], makes [terminate] panic; the
    state stays what it was, the transfer is kept and the socket stays
    open. *)
Lemma terminate_delegated_download_panics :
  let p := set_p_transfer (Some (TDownload 0))
             (connPeer_in "delegated_download" "wait_download") in
  connPeer_terminate p
  = (p, Panic "terminate() unsupported in state 'delegated_download'")
  /\ p_state (fst (connPeer_terminate p)) <> "terminated"
  /\ p_transfer (fst (connPeer_terminate p)) = Some (TDownload 0)
  /\ (closed <$> p_conn (fst (connPeer_terminate p))) = Some false.
Proof. vm_compute. repeat split; congruence. Qed.

(** C8, amended: [terminate] is permitted in the states [pre_connecting],
    [connecting], [pre_connected], [connected] and [terminated], where it
    returns with the connection in state [terminated] and the transfer
    field as it was; in state [connected] it closes the socket, in state
    [connecting] it wakes the dialling goroutine; in the states
    [delegated_upload] and [delegated_download] it panics and changes
    nothing. *)
Theorem terminate_permitted (p : connPeer) :
  (p_state p ∈ ["pre_connecting"; "connecting"; "pre_connected"; "connected";
                "terminated"] ->
   (p_state p = "connecting" -> p_wakeUp p = 0%nat) ->
   (p_state p = "connected" -> is_Some (p_conn p)) ->
   exists p',
     connPeer_terminate p = (p', Ret tt)
     /\ p_state p' = "terminated"
     /\ p_transfer p' = p_transfer p
     /\ (p_state p = "connected" -> (closed <$> p_conn p') = Some true)
     /\ (p_state p = "connecting" -> p_wakeUp p' = 1%nat)
     /\ (p_state p = "terminated" -> p' = p))
  /\ (p_state p ∈ ["delegated_upload"; "delegated_download"] ->
      connPeer_terminate p
      = (p, Panic ("terminate() unsupported in state '" +:+ p_state p +:+ "'"))).
Proof.
  split.
  - intros Hin Hwake Hconn. unfold connPeer_terminate.
    rewrite !elem_of_cons, elem_of_nil in Hin.
    destruct Hin as [H|[H|[H|[H|[H|[]]]]]]; rewrite H in *; simpl.
    + eexists; repeat split; simpl; try done.
    + unfold bind, wakeUp_send. rewrite (Hwake eq_refl). simpl.
      eexists; repeat split; simpl; try done.
    + eexists; repeat split; simpl; try done.
    + destruct (Hconn eq_refl) as [c Hc].
      unfold bind, conn_do. rewrite Hc. simpl.
      eexists; repeat split; simpl; try done.
    + exists p. repeat split; try done.
  - intros Hin. unfold connPeer_terminate.
    rewrite !elem_of_cons, elem_of_nil in Hin.
    destruct Hin as [H|[H|[]]]; rewrite H; reflexivity.
Qed.

Lemma terminate_permitted_witness :
  exists p',
    connPeer_terminate (connPeer_in "connected" "key") = (p', Ret tt)
    /\ p_state p' = "terminated"
    /\ (closed <$> p_conn p') = Some true.
Proof.
  destruct (proj1 (terminate_permitted (connPeer_in "connected" "key")))
    as (p' & H1 & H2 & _ & H4 & _).
  - simpl. do 3 apply list_elem_of_further. apply list_elem_of_here.
  - vm_compute. congruence.
  - intros _. vm_compute. eauto.
  - exists p'. repeat split; [exact H1 | exact H2 | apply H4; reflexivity].
Defined.

(** ** Components a computation leaves alone *)

Section Keeps.
Context {X : Type} (f : Client -> X).

Lemma keeps_ret {A} (a : A) : keeps f (ret a).
Proof. done. Qed.

Lemma keeps_fail {A} e : keeps f (@fail Client A e).
Proof. done. Qed.

Lemma keeps_panic {A} t : keeps f (@panic Client A t).
Proof. done. Qed.

Lemma keeps_nilDeref {A} : keeps f (@nilDeref Client A).
Proof. done. Qed.

Lemma keeps_blocks {A} : keeps f (fun s : Client => (s, @Blocks A)).
Proof. done. Qed.

Lemma keeps_get : keeps f get.
Proof. done. Qed.

Lemma keeps_bind {A B} (m : M Client A) (k : A -> M Client B) :
  keeps f m -> (forall a, keeps f (k a)) -> keeps f (bind m k).
Proof.
  intros Hm Hk c. unfold bind. specialize (Hm c).
  destruct (m c) as [c' [a| | |]]; simpl in *; try done.
  rewrite Hk. done.
Qed.

Lemma keeps_catch {A} (m : M Client A) (h : error -> M Client A) :
  keeps f m -> (forall e, keeps f (h e)) -> keeps f (catch m h).
Proof.
  intros Hm Hh c. unfold catch. specialize (Hm c).
  destruct (m c) as [c' [a|e| |]]; simpl in *; try done.
  rewrite Hh. done.
Qed.

Lemma keeps_when (b : bool) (m : M Client unit) :
  keeps f m -> keeps f (when b m).
Proof. destruct b; [done | intros _ c; done]. Qed.

Lemma keeps_modify (g : Client -> Client) :
  (forall c, f (g c) = f c) -> keeps f (modify g).
Proof. intros H c. apply H. Qed.

Lemma keeps_getp p : keeps f (getp p).
Proof. intros c. unfold getp. by destruct (c_conns c !! p). Qed.

Lemma keeps_getd d : keeps f (getd d).
Proof. intros c. unfold getd. by destruct (c_downloads c !! d). Qed.

Lemma keeps_getu u : keeps f (getu u).
Proof. intros c. unfold getu. by destruct (c_uploads c !! u). Qed.

Lemma keeps_onp {A} p (m : M connPeer A) :
  (forall v c, f (set_c_conns v c) = f c) -> keeps f (onp p m).
Proof.
  intros H c. unfold onp. destruct (c_conns c !! p) as [x|]; [|done].
  destruct (m x). simpl. apply H.
Qed.

Lemma keeps_setp p g :
  (forall v c, f (set_c_conns v c) = f c) -> keeps f (setp p g).
Proof. apply keeps_onp. Qed.

Lemma keeps_conn_Write p m :
  (forall v c, f (set_c_conns v c) = f c) -> keeps f (conn_Write p m).
Proof. apply keeps_onp. Qed.

Lemma keeps_connPeer_close p :
  (forall v c, f (set_c_conns v c) = f c) -> keeps f (connPeer_close p).
Proof. apply keeps_onp. Qed.

Lemma keeps_setd d g :
  (forall v c, f (set_c_downloads v c) = f c) -> keeps f (setd d g).
Proof.
  intros H c. unfold setd. destruct (c_downloads c !! d); [apply H | done].
Qed.

Lemma keeps_setu u g :
  (forall v c, f (set_c_uploads v c) = f c) -> keeps f (setu u g).
Proof.
  intros H c. unfold setu. destruct (c_uploads c !! u); [apply H | done].
Qed.

Lemma keeps_onfs {A} (m : M filesystem A) :
  (forall v c, f (set_c_fs v c) = f c) -> keeps f (onfs m).
Proof. intros H c. unfold onfs. destruct (m (c_fs c)). apply H. Qed.

Lemma keeps_peerRequestConnection peer token :
  (forall v c, f (set_c_requests v c) = f c) ->
  keeps f (peerRequestConnection peer token).
Proof. intros H c. apply H. Qed.
End Keeps.

Create HintDb keeps discriminated.

(** One step of the proof that a computation keeps a component: the rule
    of the head of the computation, or a case analysis on what it
    branches on. *)
Ltac keeps_step :=
  match goal with
  | |- keeps _ (bind _ _) => apply keeps_bind; [| intros ?]
  | |- keeps _ (catch _ _) => apply keeps_catch; [| intros ?]
  | |- keeps _ (when _ _) => apply keeps_when
  | |- keeps _ (ret _) => apply keeps_ret
  | |- keeps _ (fail _) => apply keeps_fail
  | |- keeps _ (panic _) => apply keeps_panic
  | |- keeps _ nilDeref => apply keeps_nilDeref
  | |- keeps _ get => apply keeps_get
  | |- keeps _ (getp _) => apply keeps_getp
  | |- keeps _ (getd _) => apply keeps_getd
  | |- keeps _ (getu _) => apply keeps_getu
  | |- keeps _ (setp _ _) => apply keeps_setp; reflexivity
  | |- keeps _ (onp _ _) => apply keeps_onp; reflexivity
  | |- keeps _ (conn_Write _ _) => apply keeps_conn_Write; reflexivity
  | |- keeps _ (connPeer_close _) => apply keeps_connPeer_close; reflexivity
  | |- keeps _ (setd _ _) => apply keeps_setd; reflexivity
  | |- keeps _ (setu _ _) => apply keeps_setu; reflexivity
  | |- keeps _ (onfs _) => apply keeps_onfs; reflexivity
  | |- keeps _ (peerRequestConnection _ _) =>
      apply keeps_peerRequestConnection; reflexivity
  | |- keeps _ (modify _) => apply keeps_modify; reflexivity
  | |- keeps _ (fun s => (s, Blocks)) => apply keeps_blocks
  | |- keeps _ (if ?b then _ else _) => destruct b
  | |- keeps _ (match ?x with _ => _ end) => destruct x
  | |- keeps _ (let (_, _) := ?x in _) => destruct x
  | |- keeps _ _ => solve [auto with keeps nocore]
  end.

Ltac keeps_auto := repeat keeps_step.

(** ** The slot counters *)

Lemma keeps_stable {A} (m : M Client A) :
  keeps slots m -> stable slots_ok m.
Proof.
  intros Hm c [Hd Hu]. specialize (Hm c). unfold slots in Hm.
  injection Hm as Hd' Hu'. unfold slots_ok. rewrite Hd', Hu'. done.
Qed.

Lemma stable_bind {A B} I (m : M Client A) (k : A -> M Client B) :
  stable I m -> (forall a, stable I (k a)) -> stable I (bind m k).
Proof.
  intros Hm Hk c Hc. unfold bind. specialize (Hm c Hc).
  destruct (m c) as [c' [a| | |]]; simpl in *; try done.
  by apply Hk.
Qed.

Lemma stable_catch {A} I (m : M Client A) (h : error -> M Client A) :
  stable I m -> (forall e, stable I (h e)) -> stable I (catch m h).
Proof.
  intros Hm Hh c Hc. unfold catch. specialize (Hm c Hc).
  destruct (m c) as [c' [a|e| |]]; simpl in *; try done.
  by apply Hh.
Qed.

Lemma keeps_peerNick p : keeps slots (peerNick p).
Proof. unfold peerNick. keeps_auto. Qed.

Lemma keeps_thePeer p : keeps slots (thePeer p).
Proof. unfold thePeer. keeps_auto. Qed.

#[local] Hint Resolve keeps_peerNick keeps_thePeer : keeps.

Lemma keeps_upload_Close u : keeps slots (upload_Close u).
Proof. unfold upload_Close. keeps_auto. Qed.

Lemma keeps_DownloadFile ext conf : keeps slots (DownloadFile ext conf).
Proof. unfold DownloadFile. keeps_auto. Qed.

Lemma keeps_Download_Close d : keeps slots (Download_Close d).
Proof. unfold Download_Close. keeps_auto. Qed.

Lemma keeps_Download_do_activedl d : keeps slots (Download_do_activedl d).
Proof. unfold Download_do_activedl. keeps_auto. Qed.

Lemma keeps_Download_do_peer d token : keeps slots (Download_do_peer d token).
Proof. unfold Download_do_peer. keeps_auto. Qed.

Lemma keeps_Download_do_select d w b : keeps slots (Download_do_select d w b).
Proof. unfold Download_do_select. keeps_auto. Qed.

Lemma keeps_Download_do_process d : keeps slots (Download_do_process d).
Proof. unfold Download_do_process. keeps_auto. Qed.

Lemma keeps_Download_handleSendFile d q s l z :
  keeps slots (Download_handleSendFile d q s l z).
Proof. unfold Download_handleSendFile. keeps_auto. Qed.

Lemma keeps_writer_Write d chunk : keeps slots (writer_Write d chunk).
Proof. unfold writer_Write. keeps_auto. Qed.

Lemma keeps_writer_Close d : keeps slots (writer_Close d).
Proof. unfold writer_Close. keeps_auto. Qed.

Lemma keeps_TTHFromFile ext path : keeps slots (TTHFromFile ext path).
Proof. unfold TTHFromFile. keeps_auto. Qed.

#[local] Hint Resolve keeps_writer_Write keeps_writer_Close keeps_TTHFromFile
  keeps_Download_handleSendFile : keeps.

Lemma keeps_Download_finish ext d : keeps slots (Download_finish ext d).
Proof. unfold Download_finish. keeps_auto. Qed.

#[local] Hint Resolve keeps_Download_finish : keeps.

Lemma keeps_Download_handleDownload ext d m :
  keeps slots (Download_handleDownload ext d m).
Proof. unfold Download_handleDownload. keeps_auto. Qed.

Lemma keeps_delegate_download p dl : keeps slots (delegate_download p dl).
Proof. unfold delegate_download. keeps_auto. Qed.

Lemma keeps_electDirection p : keeps slots (electDirection p).
Proof. unfold electDirection. keeps_auto. Qed.

Lemma keeps_terminate p : keeps slots (onp p connPeer_terminate).
Proof. keeps_auto. Qed.

Lemma wp_keeps {X A} (f : Client -> X) (m : M Client A)
    (Q : res A -> Client -> Prop) c :
  keeps f m -> (forall r c', f c' = f c -> Q r c') -> wp m Q c.
Proof. intros Hm HQ. apply HQ, Hm. Qed.

(** One step of a proof by [wp] about the slot counters: the steps that
    leave the counters alone are passed by [wp_keeps]. *)
Ltac wp_slots_step :=
  lazy beta iota;
  match goal with
  | |- wp (bind _ _) _ _ => apply wp_bind
  | |- wp (ret _) _ _ => apply wp_ret
  | |- wp get _ _ => apply wp_get
  | |- wp (modify (fun c => set_c_downloadSlotAvail _ c)) _ _ => apply wp_modify
  | |- wp (modify (fun c => set_c_uploadSlotAvail _ c)) _ _ => apply wp_modify
  | |- wp (if ?b then _ else _) _ _ => destruct b eqn:?
  | |- wp (match ?x with _ => _ end) _ _ => destruct x eqn:?
  | |- wp ?m _ _ =>
      apply (wp_keeps slots m);
      [solve [keeps_auto] | intros [?| | |] ? ?]
  end.

Ltac slots_done :=
  unfold slots_ok, slots in *; simpl in *; simplify_eq; lia.

Lemma Download_handleExit_slots d err c :
  wp (Download_handleExit d err)
     (fun _ c' => c_downloadSlotAvail c <= c_downloadSlotAvail c'
                  /\ c_uploadSlotAvail c' = c_uploadSlotAvail c) c.
Proof.
  unfold Download_handleExit.
  repeat wp_slots_step; slots_done.
Qed.

Lemma upload_handleExit_slots u err c :
  wp (upload_handleExit u err)
     (fun _ c' => c_downloadSlotAvail c' = c_downloadSlotAvail c
                  /\ c_uploadSlotAvail c <= c_uploadSlotAvail c') c.
Proof.
  unfold upload_handleExit.
  repeat wp_slots_step; slots_done.
Qed.

Lemma Download_do_slot_slots d c :
  wp (Download_do_slot d)
     (fun _ c' => c_uploadSlotAvail c' = c_uploadSlotAvail c
                  /\ (c_downloadSlotAvail c' = c_downloadSlotAvail c
                      \/ 0 < c_downloadSlotAvail c
                         /\ c_downloadSlotAvail c'
                            = c_downloadSlotAvail c - 1)) c.
Proof.
  unfold Download_do_slot.
  repeat wp_slots_step; slots_done.
Qed.

(** The closure of [newUpload] succeeds only with a free slot. *)
Lemma newUpload_open_slot ext c u l u' :
  newUpload_open ext c u l = Ret u' -> 0 < c_uploadSlotAvail c.
Proof.
  unfold newUpload_open. destruct (Z.leb_spec (c_uploadSlotAvail c) 0); [done|].
  done.
Qed.

Lemma newUpload_slots ext p q s l z c :
  wp (newUpload ext p q s l z)
     (fun _ c' => c_downloadSlotAvail c' = c_downloadSlotAvail c
                  /\ (c_uploadSlotAvail c' = c_uploadSlotAvail c
                      \/ 0 < c_uploadSlotAvail c
                         /\ c_uploadSlotAvail c'
                            = c_uploadSlotAvail c - 1)) c.
Proof.
  unfold newUpload.
  repeat wp_slots_step;
    try match goal with
        | H : newUpload_open _ _ _ _ = Ret _ |- _ =>
            apply newUpload_open_slot in H
        end;
    slots_done.
Qed.

Lemma stable_Download_handleExit d err : stable slots_ok (Download_handleExit d err).
Proof.
  intros c Hc. pose proof (Download_handleExit_slots d err c) as H.
  unfold wp in H. slots_done.
Qed.

Lemma stable_upload_handleExit u err : stable slots_ok (upload_handleExit u err).
Proof.
  intros c Hc. pose proof (upload_handleExit_slots u err c) as H.
  unfold wp in H. slots_done.
Qed.

Lemma stable_Download_do_slot d : stable slots_ok (Download_do_slot d).
Proof.
  intros c Hc. pose proof (Download_do_slot_slots d c) as H.
  unfold wp in H. slots_done.
Qed.

Lemma stable_newUpload ext p q s l z : stable slots_ok (newUpload ext p q s l z).
Proof.
  intros c Hc. pose proof (newUpload_slots ext p q s l z c) as H.
  unfold wp in H. slots_done.
Qed.

Create HintDb stable discriminated.

#[local] Hint Resolve stable_Download_handleExit stable_upload_handleExit
  stable_Download_do_slot stable_newUpload : stable.

#[local] Hint Resolve keeps_Download_handleDownload keeps_delegate_download
  keeps_electDirection keeps_upload_Close keeps_DownloadFile
  keeps_Download_Close keeps_Download_do_activedl keeps_Download_do_peer
  keeps_Download_do_select keeps_Download_do_process keeps_terminate : keeps.

Ltac stable_step :=
  match goal with
  | |- stable _ (bind _ _) => apply stable_bind; [| intros ?]
  | |- stable _ (catch _ _) => apply stable_catch; [| intros ?]
  | |- stable _ (if ?b then _ else _) => destruct b
  | |- stable _ (match ?x with _ => _ end) => destruct x
  | |- stable slots_ok _ =>
      first [ solve [auto with stable nocore]
            | apply keeps_stable; solve [keeps_auto] ]
  end.

Lemma keeps_registerDirection p dir : keeps slots (registerDirection p dir).
Proof. unfold registerDirection. keeps_auto. Qed.

Lemma keeps_registerAdcDirection p peer : keeps slots (registerAdcDirection p peer).
Proof. unfold registerAdcDirection. keeps_auto. Qed.

#[local] Hint Resolve keeps_registerDirection keeps_registerAdcDirection : keeps.

Lemma stable_handleMessage ext p rnd m : stable slots_ok (handleMessage ext p rnd m).
Proof. unfold handleMessage. repeat stable_step. Qed.

#[local] Hint Resolve stable_handleMessage : stable.

Lemma stable_connPeer_do_locked ext p rnd m :
  stable slots_ok (connPeer_do_locked ext p rnd m).
Proof. unfold connPeer_do_locked. repeat stable_step. Qed.

Lemma stable_connPeer_do_exit p err : stable slots_ok (connPeer_do_exit p err).
Proof. unfold connPeer_do_exit. repeat stable_step. Qed.

Lemma stable_step_action ext a c : slots_ok c -> slots_ok (step ext a c).
Proof.
  intros Hc. destruct a; simpl; unfold exec.
  - by apply (keeps_stable _ (keeps_DownloadFile ext conf)).
  - by apply (keeps_stable _ (keeps_Download_Close d)).
  - by apply (keeps_stable _ (keeps_Download_do_activedl d)).
  - by apply stable_Download_do_slot.
  - by apply (keeps_stable _ (keeps_Download_do_peer d token)).
  - by apply (keeps_stable _ (keeps_Download_do_select d w by_)).
  - by apply (keeps_stable _ (keeps_Download_do_process d)).
  - by apply stable_Download_handleExit.
  - by apply (keeps_stable _ (keeps_upload_Close u)).
  - by apply (keeps_stable _ (keeps_terminate p)).
  - by apply stable_connPeer_do_locked.
  - by apply stable_connPeer_do_exit.
Qed.

(** C7: across every sequence of blocks of the goroutines of the client
    (downloads and uploads started, completed, failed or closed, messages
    handled, connections terminated), the counters [downloadSlotAvail]
    and [uploadSlotAvail] stay non-negative; a counter goes down by one
    only when it was positive ([Download.do], [newUpload]) or, in
    [Download.handleExit], right after it went up by one. *)
Theorem slots_never_negative ext (l : list action) (c : Client) :
  slots_ok c ->
  slots_ok (run ext l c)
  /\ (forall d, wp (Download_do_slot d)
                  (fun _ c' => c_downloadSlotAvail c' < c_downloadSlotAvail c
                               -> 0 < c_downloadSlotAvail c) c)
  /\ (forall p q s n z,
        wp (newUpload ext p q s n z)
           (fun _ c' => c_uploadSlotAvail c' < c_uploadSlotAvail c
                        -> 0 < c_uploadSlotAvail c) c)
  /\ (forall d err,
        wp (Download_handleExit d err)
           (fun _ c' => c_downloadSlotAvail c <= c_downloadSlotAvail c') c).
Proof.
  intros Hc. split; [|split; [|split]].
  - revert c Hc. unfold run. induction l as [|a l IH]; intros c Hc; simpl.
    + done.
    + apply IH. by apply stable_step_action.
  - intros d. pose proof (Download_do_slot_slots d c) as H.
    unfold wp in *. lia.
  - intros p q s n z. pose proof (newUpload_slots ext p q s n z c) as H.
    unfold wp in *. lia.
  - intros d err. pose proof (Download_handleExit_slots d err c) as H.
    unfold wp in *. lia.
Qed.

(** ** [newUpload] *)

Lemma first_some_None {A B} (f : A -> option B) (l : list A) :
  first_some f l = None <-> Forall (fun a => f a = None) l.
Proof.
  induction l as [|a l IH]; simpl.
  - split; [constructor | done].
  - destruct (f a) eqn:E.
    + split; [done | intros H; inversion H; congruence].
    + rewrite IH. split; [by constructor | by inversion 1].
Qed.

Lemma find_tth_None tth (files : list shareFile) :
  List.find (fun file => bool_decide (sf_tth file = tth)) files = None
  <-> forall file, file ∈ files -> sf_tth file <> tth.
Proof.
  induction files as [|x files IH]; simpl.
  - split; [intros _ file H; inversion H | done].
  - case_bool_decide as Hx.
    + split; [done | intros H; exfalso; apply (H x); [left | done]].
    + rewrite IH. split.
      * intros H file Hin. inversion Hin; subst; auto.
      * intros H file Hin. apply H. by right.
Qed.

(** [scanDir] finds nothing exactly when no file of the directory tree
    has the hash. *)
Lemma scanDir_None tth dir :
  scanDir tth dir = None <-> forall file, file_in file dir -> sf_tth file <> tth.
Proof.
  induction dir as [files dirs IH] using shareDirectory_rect'. simpl.
  destruct (List.find _ files) as [x|] eqn:Hfind.
  - split; [done|]. intros H. exfalso.
    apply find_some in Hfind as [Hin Hx].
    apply bool_decide_eq_true in Hx.
    apply (H x); [|done]. constructor. by apply list_elem_of_In.
  - rewrite find_tth_None in Hfind. rewrite first_some_None. split.
    + intros Hall file Hin. inversion Hin; subst; [by apply Hfind|].
      rewrite Forall_forall in Hall, IH.
      eapply IH; eauto.
    + intros H. rewrite Forall_forall in IH |- *. intros d Hd.
      apply IH; [done|]. intros file Hfile. apply H.
      by eapply file_in_sub.
Qed.

Lemma scanTree_None c tth :
  first_some (scanDir tth) (c_shareTree c) = None <-> not_shared c tth.
Proof.
  rewrite first_some_None, Forall_forall. unfold not_shared. split.
  - intros H dir file Hdir. by apply scanDir_None, H.
  - intros H dir Hdir. apply scanDir_None. intros file. by apply H.
Qed.

Lemma conn_Write_replied c p pc cn m :
  c_conns c !! p = Some pc -> p_conn pc = Some cn ->
  conn_Write p m c = (replied c p m, Ret tt).
Proof.
  intros Hp Hc. unfold conn_Write, onp, conn_do, replied. rewrite Hp, Hc. simpl.
  do 2 f_equal. apply map_eq. intros i.
  rewrite lookup_alter. destruct (decide (p = i)) as [->|Hne].
  - rewrite lookup_insert_eq, Hp. simpl. by rewrite Hc.
  - by rewrite lookup_insert_ne.
Qed.

Lemma newUpload_refuses ext c p q s l z err :
  handshaken c p ->
  newUpload_open ext c (upload_init c p q s z) l = Fail err ->
  newUpload ext p q s l z c
  = (replied c p (if errorIsNoSlots err then replySlotsFull ext c
                  else replyFileNotAvailable ext c), Ret false).
Proof.
  intros (pc & Hp & [peer Hpeer] & [cn Hcn]) Hopen.
  apply wp_eq. unfold newUpload. wp_run.
  fold (upload_init c p q s z). rewrite Hopen.
  wp_run. unfold replySlotsFull, replyFileNotAvailable.
  destruct (errorIsNoSlots err), (c_protoIsAdc c);
    unfold wp at 1; erewrite conn_Write_replied by eassumption; by simpl.
Qed.
Lemma substring_all s : substring 0 (String.length s) s = s.
Proof. induction s as [|a s IH]; simpl; [done | by rewrite IH]. Qed.



(** The closure on a query by hash. *)
Lemma newUpload_open_tth ext c u l (kind b32 : string) :
  0 < c_uploadSlotAvail c ->
  u_query u = kind +:+ b32 ->
  kind = "file TTH/" \/ kind = "tthl TTH/" ->
  newUpload_open ext c u l
  = match TigerHashFromBase32 ext b32 with
    | None => Fail (errorExt "invalid TTH")
    | Some tth =>
        match first_some (scanDir tth) (c_shareTree c) with
        | None => Fail (Errorf "file does not exists")
        | Some sfile =>
            if String.prefix "tthl" kind then
              if negb (u_start u =? 0)%Z || negb (l =? -1)%Z
              then Fail (Errorf "tthl seeking is not supported")
              else Ret (set_u_length (Z.of_nat (length (concat (sf_tthl sfile))))
                          (set_u_reader
                             (Some (BytesReader (concat (sf_tthl sfile)))) u))
            else
              match snd (os_Open (sf_realPath sfile) (c_fs c)) with
              | Ret _ =>
                  match file_Seek (int64 (u_start u)) with
                  | Ret _ =>
                      let f := FileReader (sf_realPath sfile) (u_start u) in
                      let maxLength := uint64 (sf_size sfile - u_start u) in
                      if negb (l =? -1)%Z then
                        if (uint64 l >? maxLength)%Z
                        then Fail (Errorf "length too big")
                        else Ret (set_u_reader (Some f)
                                    (set_u_length (uint64 l) u))
                      else Ret (set_u_reader (Some f) (set_u_length maxLength u))
                  | Fail e => Fail e
                  | Panic t => Panic t
                  | Blocks => Blocks
                  end
              | Fail e => Fail e
              | Panic t => Panic t
              | Blocks => Blocks
              end
        end
    end.
Proof.
  intros Hslot Hq Hkind. unfold newUpload_open.
  destruct (Z.leb_spec (c_uploadSlotAvail c) 0); [lia|].
  rewrite Hq.
  destruct Hkind as [-> | ->]; simpl; rewrite Nat.sub_0_r, substring_all; done.
Qed.

(** C6: a request that arrives when no upload slot is left is answered
    with MaxedOut (NMDC) or the ADC warning "Slots full"; a request for a
    hash that no file of the share tree has, with a slot left, is
    answered with Error "File Not Available" (NMDC) or the ADC warning
    with the code file-not-available.  In both cases [newUpload] returns
    false and the client is as before but for the reply written on the
    connection: no slot is taken, no transfer registered, the connection
    keeps its state, and the reply is the only message sent. *)
Theorem newUpload_refusals ext c p q s l z :
  handshaken c p ->
  (c_uploadSlotAvail c <= 0 ->
   newUpload ext p q s l z c = (replied c p (replySlotsFull ext c), Ret false))
  /\ (forall b32 tth,
        0 < c_uploadSlotAvail c ->
        q = "file TTH/" +:+ b32 \/ q = "tthl TTH/" +:+ b32 ->
        TigerHashFromBase32 ext b32 = Some tth ->
        not_shared c tth ->
        newUpload ext p q s l z c
        = (replied c p (replyFileNotAvailable ext c), Ret false))
  /\ (forall m,
        let c' := replied c p m in
        c_uploadSlotAvail c' = c_uploadSlotAvail c
        /\ c_transfers c' = c_transfers c
        /\ c_uploads c' = c_uploads c
        /\ forall pc cn,
             c_conns c !! p = Some pc -> p_conn pc = Some cn ->
             exists pc',
               c_conns c' !! p = Some pc'
               /\ p_state pc' = p_state pc
               /\ p_transfer pc' = p_transfer pc
               /\ (written <$> p_conn pc') = Some (written cn ++ [m])).
Proof.
  intros Hp. split; [|split].
  - intros Hslot.
    rewrite (newUpload_refuses ext c p q s l z errorNoSlots); [done..|].
    unfold newUpload_open. destruct (Z.leb_spec (c_uploadSlotAvail c) 0); [done|lia].
  - intros b32 tth Hslot Hq Htth Hns.
    rewrite (newUpload_refuses ext c p q s l z (Errorf "file does not exists"));
      [done..|].
    assert (exists kind, q = kind +:+ b32
                         /\ (kind = "file TTH/" \/ kind = "tthl TTH/"))
      as (kind & Hk & Hkind) by (destruct Hq; eauto).
    rewrite (newUpload_open_tth ext c _ l kind b32); [|done..].
    rewrite Htth. apply scanTree_None in Hns. by rewrite Hns.
  - intros m c'. subst c'. unfold replied. simpl. repeat split.
    intros pc cn Hpc Hcn. eexists. split.
    + rewrite lookup_alter, decide_True by done. rewrite Hpc. reflexivity.
    + simpl. rewrite Hcn. done.
Qed.

(** ** The NMDC handshake: election of the direction *)

(** What the election returns, from the two wishes and the two bets. *)
Lemma electDirection_eq c p pc :
  c_conns c !! p = Some pc ->
  electDirection p c
  = if (p_localDirection pc =? "upload") && (p_remoteDirection pc =? "download")
    then (c, Ret "upload")
    else if (p_localDirection pc =? "download")
            && (p_remoteDirection pc =? "upload")
    then (c, Ret "download")
    else if (p_localDirection pc =? "download")
            && (p_remoteDirection pc =? "download")
    then
      if (p_localBet pc >? p_remoteBet pc)%Z then (c, Ret "download")
      else if (p_localBet pc <? p_remoteBet pc)%Z then
        match p_peer pc with
        | None => nilDeref c
        | Some peer =>
            match downloadPendingByPeer c peer with
            | Some dl =>
                match c_downloads c !! dl with
                | Some o =>
                    (set_c_requests
                       (c_requests c ++ [(conf_Peer (d_conf o), "")]) c,
                     Ret "upload")
                | None => nilDeref c
                end
            | None => (c, Ret "upload")
            end
        end
      else (c, Fail (Errorf "equal random numbers"))
    else (c, Fail (Errorf "double upload request")).
Proof.
  intros Hp.
  destruct ((p_localDirection pc =? "upload")
            && (p_remoteDirection pc =? "download")) eqn:E1;
    [apply wp_eq; unfold electDirection; wp_run; done|].
  destruct ((p_localDirection pc =? "download")
            && (p_remoteDirection pc =? "upload")) eqn:E2;
    [apply wp_eq; unfold electDirection; wp_run; done|].
  destruct ((p_localDirection pc =? "download")
            && (p_remoteDirection pc =? "download")) eqn:E3;
    [|apply wp_eq; unfold electDirection; wp_run; done].
  destruct (p_localBet pc >? p_remoteBet pc)%Z eqn:E4;
    [apply wp_eq; unfold electDirection; wp_run; done|].
  destruct (p_localBet pc <? p_remoteBet pc)%Z eqn:E5;
    [|apply wp_eq; unfold electDirection; wp_run; done].
  destruct (p_peer pc) as [peer|] eqn:Hpeer.
  - destruct (downloadPendingByPeer c peer) as [dl|] eqn:Hdl.
    + destruct (c_downloads c !! dl) as [o|] eqn:Ho.
      * apply wp_eq; unfold electDirection; wp_run.
        unfold peerRequestConnection. wp_run. done.
      * apply wp_eq; unfold electDirection; wp_run.
        unfold getd, wp. rewrite Ho. done.
    + apply wp_eq; unfold electDirection; wp_run. done.
  - apply wp_eq; unfold electDirection; wp_run.
    unfold thePeer, bind, getp, wp. rewrite Hp, Hpeer. done.
Qed.
Lemma downloadPendingByPeer_Some c peer dl :
  downloadPendingByPeer c peer = Some dl ->
  exists o, c_downloads c !! dl = Some o
            /\ c_activeDownloadsByPeer c !! Nick peer = Some dl
            /\ d_terminateRequested o = false
            /\ d_state o = "waiting_peer".
Proof.
  unfold downloadPendingByPeer.
  destruct (c_activeDownloadsByPeer c !! Nick peer) as [d|] eqn:Ha; [|done].
  destruct (c_downloads c !! d) as [o|] eqn:Ho; [|done].
  destruct (d_terminateRequested o) eqn:Ht; simpl; [done|].
  destruct (String.eqb_spec (d_state o) "waiting_peer"); [|done].
  intros [= ->]. by exists o.
Qed.

Lemma handleMessage_Key ext c p pc rnd k :
  c_conns c !! p = Some pc -> p_protoState pc = "direction" ->
  handleMessage ext p rnd (msgNmdcKey k) c
  = (direction <- electDirection p ;; registerDirection p direction)
      (keyed c p pc).
Proof.
  intros Hp Hproto. unfold handleMessage, bind at 1, getp. rewrite Hp.
  unfold bind at 1, get. rewrite Hproto. simpl.
  unfold bind at 1, setp, onp, modify. rewrite Hp. simpl. done.
Qed.

Lemma registerDirection_taken c p pc peer dir q :
  c_conns c !! p = Some pc -> p_peer pc = Some peer ->
  c_connPeersByKey c !! (Nick peer, dir) = Some q ->
  registerDirection p dir c = (c, Fail errorDuplicate).
Proof.
  intros Hp Hpeer Hq. apply wp_eq. unfold registerDirection. wp_run. done.
Qed.

Lemma registerDirection_free c p pc peer dir :
  c_conns c !! p = Some pc -> p_peer pc = Some peer ->
  c_connPeersByKey c !! (Nick peer, dir) = None ->
  wp (registerDirection p dir)
     (fun r c' => conn_direction c' p = Some dir
                  /\ c_connPeersByKey c' !! (Nick peer, dir) = Some p
                  /\ c_requests c' = c_requests c
                  /\ (dir = "upload" -> r = Ret tt)) c.
Proof.
  intros Hp Hpeer Hq. unfold registerDirection. wp_run.
  destruct (dir =? "upload") eqn:Hdir.
  - wp_run. unfold conn_direction. simpl. by simplify_map_eq.
  - apply String.eqb_neq in Hdir. wp_run.
    match goal with |- context [downloadPendingByPeer ?c' peer] =>
      destruct (downloadPendingByPeer c' peer) as [dl|] eqn:Hdl end.
    + apply downloadPendingByPeer_Some in Hdl as (o & Ho & _). simpl in Ho.
      unfold delegate_download. wp_run.
      unfold conn_direction. simpl. by simplify_map_eq.
    + wp_run. unfold conn_direction. simpl. by simplify_map_eq.
Qed.
Lemma registerDirection_requests c p pc peer dir :
  c_conns c !! p = Some pc -> p_peer pc = Some peer ->
  c_requests (fst (registerDirection p dir c)) = c_requests c.
Proof.
  intros Hp Hpeer.
  destruct (c_connPeersByKey c !! (Nick peer, dir)) as [q|] eqn:Hq.
  - by erewrite registerDirection_taken.
  - pose proof (registerDirection_free c p pc peer dir Hp Hpeer Hq) as H.
    unfold wp in H. tauto.
Qed.

(** C1: when the Key message arrives after the two Direction messages,
    the side that asked for Download against an Upload becomes the
    downloader; when both asked for Download the greater bet wins, the
    loser becomes the uploader and, if it still has a download pending
    for the peer, asks for a new connection; equal bets fail with "equal
    random numbers", and two Uploads with "double upload request".  A
    direction that is elected is recorded in the connection and in the
    index of the client when the index has no connection for it yet. *)
Theorem nmdcKey_direction ext c p pc peer rnd k :
  c_conns c !! p = Some pc ->
  p_protoState pc = "direction" ->
  p_peer pc = Some peer ->
  let out := handleMessage ext p rnd (msgNmdcKey k) c in
  let becomes dir :=
    c_connPeersByKey c !! (Nick peer, dir) = None ->
    conn_direction (fst out) p = Some dir
    /\ c_connPeersByKey (fst out) !! (Nick peer, dir) = Some p in
  (p_localDirection pc = "upload" -> p_remoteDirection pc = "download" ->
   becomes "upload" /\ c_requests (fst out) = c_requests c)
  /\ (p_localDirection pc = "download" -> p_remoteDirection pc = "upload" ->
      becomes "download" /\ c_requests (fst out) = c_requests c)
  /\ (p_localDirection pc = "download" -> p_remoteDirection pc = "download" ->
      p_remoteBet pc < p_localBet pc ->
      becomes "download" /\ c_requests (fst out) = c_requests c)
  /\ (p_localDirection pc = "download" -> p_remoteDirection pc = "download" ->
      p_localBet pc < p_remoteBet pc ->
      becomes "upload"
      /\ match downloadPendingByPeer c peer with
         | Some dl =>
             exists o, c_downloads c !! dl = Some o
                       /\ c_requests (fst out)
                          = c_requests c ++ [(conf_Peer (d_conf o), "")]
         | None => c_requests (fst out) = c_requests c
         end)
  /\ (p_localDirection pc = "download" -> p_remoteDirection pc = "download" ->
      p_localBet pc = p_remoteBet pc ->
      out = (keyed c p pc, Fail (Errorf "equal random numbers")))
  /\ (p_localDirection pc = "upload" -> p_remoteDirection pc = "upload" ->
      out = (keyed c p pc, Fail (Errorf "double upload request"))).
Proof.
  intros Hp Hproto Hpeer out becomes. subst out becomes.
  rewrite (handleMessage_Key ext c p pc rnd k Hp Hproto).
  assert (Hk : c_conns (keyed c p pc) !! p = Some (set_p_protoState "key" pc))
    by (unfold keyed; simpl; apply lookup_insert_eq).
  unfold bind. rewrite (electDirection_eq _ _ _ Hk). simpl.
  assert (Hreg : forall c1 dir,
            c_conns c1 !! p = Some (set_p_protoState "key" pc) ->
            c_connPeersByKey c1 = c_connPeersByKey c ->
            (c_connPeersByKey c !! (Nick peer, dir) = None ->
             conn_direction (fst (registerDirection p dir c1)) p = Some dir
             /\ c_connPeersByKey (fst (registerDirection p dir c1))
                !! (Nick peer, dir) = Some p)
            /\ c_requests (fst (registerDirection p dir c1)) = c_requests c1).
  { intros c1 dir Hc1 Hidx. split.
    - intros Hfree. rewrite <- Hidx in Hfree.
      pose proof (registerDirection_free c1 p _ peer dir Hc1 Hpeer Hfree) as H.
      unfold wp in H. tauto.
    - by eapply registerDirection_requests. }
  split; [|split; [|split; [|split; [|split]]]].
  - intros Hl Hr. rewrite Hl, Hr. simpl.
    destruct (Hreg (keyed c p pc) "upload" Hk eq_refl) as [H1 H2].
    split; [exact H1 | exact H2].
  - intros Hl Hr. rewrite Hl, Hr. simpl.
    destruct (Hreg (keyed c p pc) "download" Hk eq_refl) as [H1 H2].
    split; [exact H1 | exact H2].
  - intros Hl Hr Hbet. rewrite Hl, Hr. simpl.
    rewrite Z.gtb_ltb, (proj2 (Z.ltb_lt _ _) Hbet).
    destruct (Hreg (keyed c p pc) "download" Hk eq_refl) as [H1 H2].
    split; [exact H1 | exact H2].
  - intros Hl Hr Hbet. rewrite Hl, Hr. simpl.
    rewrite Z.gtb_ltb, (proj2 (Z.ltb_ge _ _)) by lia.
    rewrite (proj2 (Z.ltb_lt _ _) Hbet), Hpeer.
    change (downloadPendingByPeer (keyed c p pc) peer)
      with (downloadPendingByPeer c peer).
    destruct (downloadPendingByPeer c peer) as [dl|] eqn:Hdl.
    + apply downloadPendingByPeer_Some in Hdl as (o & Ho & _).
      simpl. rewrite Ho. simpl.
      destruct (Hreg (set_c_requests
                        (c_requests c ++ [(conf_Peer (d_conf o), "")])
                        (keyed c p pc)) "upload" Hk eq_refl) as [H1 H2].
      split; [exact H1|]. exists o. split; [done | exact H2].
    + simpl. destruct (Hreg (keyed c p pc) "upload" Hk eq_refl) as [H1 H2].
      split; [exact H1 | exact H2].
  - intros Hl Hr Hbet. rewrite Hl, Hr, Hbet. simpl.
    by rewrite Z.gtb_ltb, Z.ltb_irrefl.
  - intros Hl Hr. rewrite Hl, Hr. simpl. done.
Qed.

(** ** One connection per nick and direction *)

Lemma exit_after_refusal c p pc err :
  c_conns c !! p = Some pc ->
  p_state pc = "connected" -> p_direction pc = "" -> is_Some (p_conn pc) ->
  let c' := fst (connPeer_do_exit p err c) in
  c_connPeersByKey c' = c_connPeersByKey c
  /\ (p ∉ c_connPeers c')
  /\ conn_closed c' p = Some true.
Proof.
  intros Hp Hstate Hdir [cn Hcn] c'. subst c'.
  change (wp (connPeer_do_exit p err)
             (fun _ c' => c_connPeersByKey c' = c_connPeersByKey c
                          /\ (p ∉ c_connPeers c')
                          /\ conn_closed c' p = Some true)
             c).
  unfold connPeer_do_exit. wp_run. rewrite Hstate. simpl. wp_run.
  rewrite Hcn. simpl. wp_run.
  destruct (p_peer pc) as [peer|]; wp_run.
  - rewrite Hdir. simpl. split; [done|]. split; [apply not_elem_of_difference; right; by apply elem_of_singleton|].
    unfold conn_closed. simpl. by rewrite lookup_insert_eq.
  - split; [done|]. split; [apply not_elem_of_difference; right; by apply elem_of_singleton|].
    unfold conn_closed. simpl. by rewrite lookup_insert_eq.
Qed.

Lemma electDirection_keyed c p pc :
  c_conns c !! p = Some pc ->
  snd (electDirection p (keyed c p pc)) = snd (electDirection p c)
  /\ c_connPeersByKey (fst (electDirection p (keyed c p pc))) = c_connPeersByKey c
  /\ c_conns (fst (electDirection p (keyed c p pc))) = c_conns (keyed c p pc).
Proof.
  intros Hp.
  assert (Hk : c_conns (keyed c p pc) !! p = Some (set_p_protoState "key" pc))
    by (unfold keyed; simpl; apply lookup_insert_eq).
  rewrite (electDirection_eq _ _ _ Hk), (electDirection_eq _ _ _ Hp). simpl.
  change (downloadPendingByPeer (keyed c p pc)) with (downloadPendingByPeer c).
  repeat (case_match; simpl; try done).
Qed.
Lemma handleMessage_Infos_duplicate ext c p pc peer fields clientId q rnd :
  c_conns c !! p = Some pc ->
  p_protoState pc = "supports" ->
  is_Some (p_conn pc) ->
  fields !! adcFieldClientId ext = Some clientId ->
  peerByClientId c (dcBase32Decode ext clientId) = Some peer ->
  adcInfosChecked ext c pc peer fields ->
  c_connPeersByKey c
    !! (Nick peer, adcDirection c (adcTokenAfter ext pc fields)) = Some q ->
  wp (handleMessage ext p rnd (msgAdcCInfos fields))
     (fun r c' =>
        r = Fail errorDuplicate
        /\ c_connPeersByKey c' = c_connPeersByKey c
        /\ exists pc', c_conns c' !! p = Some pc'
                       /\ p_state pc' = p_state pc
                       /\ p_direction pc' = p_direction pc
                       /\ is_Some (p_conn pc')) c.
Proof.
  intros Hp Hproto [cn Hcn] Hid Hpeer Hchk Hq.
  unfold handleMessage. wp_run. rewrite Hproto. simpl. wp_run.
  unfold adcInfosChecked, adcTokenAfter, adcDirection in *.
  assert (Hend : forall c1 pc1,
            c_conns c1 !! p = Some pc1 ->
            c_connPeersByKey c1 = c_connPeersByKey c ->
            downloadByAdcToken c1 (p_adcToken pc1)
            = downloadByAdcToken c
                (if p_isActive pc
                 then default "" (fields !! adcFieldToken ext)
                 else p_adcToken pc) ->
            p_state pc1 = p_state pc -> p_direction pc1 = p_direction pc ->
            is_Some (p_conn pc1) ->
            wp (registerAdcDirection p peer)
               (fun r c' =>
                  r = Fail errorDuplicate
                  /\ c_connPeersByKey c' = c_connPeersByKey c
                  /\ exists pc', c_conns c' !! p = Some pc'
                                 /\ p_state pc' = p_state pc
                                 /\ p_direction pc' = p_direction pc
                                 /\ is_Some (p_conn pc')) c1).
  { intros c1 pc1 Hp1 Hidx Htok Hst Hdir Hconn.
    unfold registerAdcDirection. wp_run. rewrite Hidx.
    destruct (downloadByAdcToken c _); rewrite Hq; wp_run; eauto 10. }
  destruct (p_isActive pc) eqn:Hact.
  - destruct Hchk as [token Htoken]. rewrite Htoken in *.
    wp_run. eapply Hend; simpl; [by simplify_map_eq|done..|eauto].
  - lazy beta iota zeta.
    destruct (c_protoIsAdc c && p_isEncrypted pc
              && negb (peer_adcFingerprint peer =? "")) eqn:Hfp.
    + destruct (Hchk eq_refl) as (cert & rest & Htls & Hcert).
      rewrite Htls, Hcert, String.eqb_refl. simpl. wp_run.
      eapply Hend; simpl; [by simplify_map_eq|done..|eauto].
    + wp_run. eapply Hend; simpl; [by simplify_map_eq|done..|eauto].
Qed.

(** C2: a connection that completes its handshake under a nick and a
    direction the index already has is refused: the handler of the NMDC
    Key message and the handler of the ADC Infos message fail with "a
    connection with this peer and direction already exists", the index
    keeps the entry it had, and the goroutine of the new connection, on
    this error, closes its socket and leaves the index alone. *)
Theorem duplicate_connection_refused ext c p pc peer rnd q :
  c_conns c !! p = Some pc ->
  p_state pc = "connected" ->
  p_direction pc = "" ->
  is_Some (p_conn pc) ->
  (forall k dir,
     p_protoState pc = "direction" ->
     p_peer pc = Some peer ->
     snd (electDirection p c) = Ret dir ->
     c_connPeersByKey c !! (Nick peer, dir) = Some q ->
     refused_duplicate c p (handleMessage ext p rnd (msgNmdcKey k) c))
  /\ (forall fields clientId,
        p_protoState pc = "supports" ->
        fields !! adcFieldClientId ext = Some clientId ->
        peerByClientId c (dcBase32Decode ext clientId) = Some peer ->
        adcInfosChecked ext c pc peer fields ->
        c_connPeersByKey c
          !! (Nick peer, adcDirection c (adcTokenAfter ext pc fields)) = Some q ->
        refused_duplicate c p (handleMessage ext p rnd (msgAdcCInfos fields) c)).
Proof.
  intros Hp Hstate Hdir Hconn. split.
  - intros k dir Hproto Hpeer Helect Hq.
    rewrite (handleMessage_Key ext c p pc rnd k Hp Hproto). unfold bind.
    destruct (electDirection_keyed c p pc Hp) as (Hsnd & Hidx & Hconns).
    rewrite Helect in Hsnd.
    destruct (electDirection p (keyed c p pc)) as [c1 r] eqn:He.
    simpl in Hsnd, Hidx, Hconns. subst r.
    assert (Hp1 : c_conns c1 !! p = Some (set_p_protoState "key" pc))
      by (rewrite Hconns; unfold keyed; simpl; apply lookup_insert_eq).
    rewrite (registerDirection_taken c1 p _ peer dir q Hp1 Hpeer)
      by (by rewrite Hidx).
    unfold refused_duplicate. simpl. split; [done|]. split; [done|].
    rewrite <- Hidx. by apply (exit_after_refusal c1 p _ errorDuplicate Hp1).
  - intros fields clientId Hproto Hid Hpeer Hchk Hq.
    pose proof (handleMessage_Infos_duplicate ext c p pc peer fields clientId q
                  rnd Hp Hproto Hconn Hid Hpeer Hchk Hq) as H.
    unfold wp in H. destruct H as (Hr & Hidx & pc' & Hp' & Hst' & Hdir' & Hc').
    unfold refused_duplicate. split; [done|]. split; [done|].
    rewrite <- Hidx. apply (exit_after_refusal _ p pc' errorDuplicate Hp');
      congruence.
Qed.
(** ** The reply to a download request *)

Lemma handleSendFile_run c d dl q s l z :
  c_downloads c !! d = Some dl ->
  q = d_query dl -> s = Start (d_conf dl) ->
  z && conf_PeerDisableCompression (c_conf c) = false ->
  (Length (d_conf dl) = -1 \/ uint64 (Length (d_conf dl)) = l) ->
  (if (Length (d_conf dl) =? -1)%Z then l else uint64 (Length (d_conf dl))) <> 0 ->
  forall p pc cn,
    d_pconn dl = Some p -> c_conns c !! p = Some pc -> p_conn pc = Some cn ->
    wp (Download_handleSendFile d q s l z)
       (fun r c' =>
          (exists pc', c_conns c' !! p = Some pc'
                       /\ (readBinary <$> p_conn pc') = Some true)
          /\ (exists dl', c_downloads c' !! d = Some dl'
                /\ d_length dl'
                   = (if (Length (d_conf dl) =? -1)%Z then l
                      else uint64 (Length (d_conf dl)))
                /\ d_offset dl' = d_offset dl
                /\ d_conf dl' = d_conf dl
                /\ fs_denied (c_fs c') = fs_denied (c_fs c)
                /\ (r = Ret tt ->
                    if SavePath (d_conf dl) =? "" then
                      d_writer dl' = Some (BytesWriter 0)
                      /\ length (d_content dl') = Z.to_nat (d_length dl')
                    else
                      d_writer dl'
                      = Some (FileWriter (SavePath (d_conf dl) +:+ ".tmp"))
                      /\ fs_files (c_fs c')
                           !! (SavePath (d_conf dl) +:+ ".tmp") = Some []))
          /\ r = (if (SavePath (d_conf dl) =? "")
                     || negb (bool_decide (SavePath (d_conf dl) +:+ ".tmp"
                                           ∈ fs_denied (c_fs c)))
                  then Ret tt
                  else Fail (Errorf "unable to create destination file"))) c.
Proof.
  intros Hd -> -> Hz Hlen Hnz p pc cn Hpconn Hp Hcn.
  unfold Download_handleSendFile. wp_run.
  rewrite String.eqb_refl, Z.eqb_refl, Hz. simpl.
  assert (Hwrong : Length (d_conf dl) <> -1 ->
                   negb (uint64 (Length (d_conf dl)) =? l)%Z = false).
  { intros Hne. destruct Hlen as [Hx | Hx]; [done|]. by rewrite Hx, Z.eqb_refl. }
  destruct (Z.eqb_spec (Length (d_conf dl)) (-1)) as [He|Hne];
    [|specialize (Hwrong Hne)];
    apply Z.eqb_neq in Hnz;
    destruct z;
    destruct (SavePath (d_conf dl) =? "") eqn:Hs;
    simpl;
    try (destruct (bool_decide (SavePath (d_conf dl) +:+ ".tmp"
                                ∈ fs_denied (c_fs c))) eqn:Hden; simpl);
    wp_run;
    try (unfold os_Create; rewrite Hden; norm_state; wp_run);
    rewrite ?lookup_insert_eq;
    (split; [eexists; split; [reflexivity|]; norm_state; by rewrite ?Hcn|]);
    (split; [eexists; split; [reflexivity|]; norm_state;
             repeat split; try done|]);
    try done;
    try (by rewrite length_replicate);
    try (by rewrite lookup_insert_eq).
Qed.





(** ** The end of a download *)

Lemma os_Open_ok fs path content :
  path ∉ fs_denied fs -> fs_files fs !! path = Some content ->
  os_Open path fs = (fs, Ret content).
Proof.
  intros Hden Hfile. unfold os_Open.
  by rewrite (bool_decide_eq_false_2 _ Hden), Hfile.
Qed.

Lemma os_Rename_ok fs src dst content :
  dst ∉ fs_denied fs -> fs_files fs !! src = Some content ->
  os_Rename src dst fs
  = (mkFs (<[dst := content]> (delete src (fs_files fs))) (fs_denied fs), Ret tt).
Proof.
  intros Hden Hfile. unfold os_Rename.
  by rewrite (bool_decide_eq_false_2 _ Hden), Hfile.
Qed.

Lemma file_Write_ok fs path content chunk :
  path ∉ fs_denied fs -> fs_files fs !! path = Some content ->
  file_Write path chunk fs
  = (mkFs (<[path := content ++ chunk]> (fs_files fs)) (fs_denied fs), Ret tt).
Proof.
  intros Hden Hfile. unfold file_Write.
  by rewrite (bool_decide_eq_false_2 _ Hden), Hfile.
Qed.

Lemma finish_normal_memory ext c d dl p pc cn w :
  c_downloads c !! d = Some dl ->
  isFilelist (d_conf dl) = false ->
  d_pconn dl = Some p -> c_conns c !! p = Some pc -> p_conn pc = Some cn ->
  d_writer dl = Some w ->
  SavePath (d_conf dl) = "" ->
  wp (Download_finish ext d)
     (fun r c' =>
        r = (if negb (SkipValidation (d_conf dl)) && (Start (d_conf dl) =? 0)%Z
                && (Length (d_conf dl) <=? 0)%Z
                && negb (bool_decide (TTHFromBytes ext (d_content dl)
                                      = TTH (d_conf dl)))
             then Fail (Errorf "validation failed")
             else Fail errorTerminated)
        /\ c_fs c' = c_fs c) c.
Proof.
  intros Hd Hfl Hpconn Hp Hcn Hw Hsave.
  unfold Download_finish, writer_Close. wp_run. rewrite Hsave. simpl.
  destruct (negb (SkipValidation (d_conf dl)) && (Start (d_conf dl) =? 0)%Z
            && (Length (d_conf dl) <=? 0)%Z) eqn:Hv; simpl; wp_run.
  - destruct (bool_decide (TTHFromBytes ext (d_content dl) = TTH (d_conf dl)));
      simpl; by wp_run.
  - done.
Qed.

Lemma finish_normal_disk ext c d dl p pc cn w content :
  c_downloads c !! d = Some dl ->
  isFilelist (d_conf dl) = false ->
  d_pconn dl = Some p -> c_conns c !! p = Some pc -> p_conn pc = Some cn ->
  d_writer dl = Some w ->
  SavePath (d_conf dl) <> "" ->
  fs_files (c_fs c) !! (SavePath (d_conf dl) +:+ ".tmp") = Some content ->
  SavePath (d_conf dl) +:+ ".tmp" ∉ fs_denied (c_fs c) ->
  SavePath (d_conf dl) ∉ fs_denied (c_fs c) ->
  wp (Download_finish ext d)
     (fun r c' =>
        if negb (SkipValidation (d_conf dl)) && (Start (d_conf dl) =? 0)%Z
           && (Length (d_conf dl) <=? 0)%Z
           && negb (bool_decide (TTHFromBytes ext content = TTH (d_conf dl)))
        then r = Fail (Errorf "validation failed") /\ c_fs c' = c_fs c
        else r = Fail errorTerminated
             /\ fs_files (c_fs c')
                = <[SavePath (d_conf dl) := content]>
                    (delete (SavePath (d_conf dl) +:+ ".tmp")
                       (fs_files (c_fs c)))) c.
Proof.
  intros Hd Hfl Hpconn Hp Hcn Hw Hsave Htmp Hden1 Hden2.
  apply String.eqb_neq in Hsave.
  unfold Download_finish, writer_Close. wp_run.
  destruct (negb (SkipValidation (d_conf dl)) && (Start (d_conf dl) =? 0)%Z
            && (Length (d_conf dl) <=? 0)%Z) eqn:Hv; simpl; wp_run.
  - unfold TTHFromFile. wp_run. rewrite (os_Open_ok _ _ content) by done.
    wp_run.
    destruct (bool_decide (TTHFromBytes ext content = TTH (d_conf dl)));
      simpl; wp_run.
    + rewrite (os_Rename_ok _ _ _ content) by done. by wp_run.
    + by destruct (c_fs c).
  - rewrite (os_Rename_ok _ _ _ content) by done. by wp_run.
Qed.

(** ** Binary chunks *)

Lemma uint64_small z : 0 <= z < 2 ^ 64 -> uint64 z = z.
Proof. intros H. unfold uint64. by apply Z.mod_small. Qed.

Lemma handleDownload_binary_rejects ext c d dl chunk :
  c_downloads c !! d = Some dl ->
  0 <= d_offset dl ->
  d_offset dl + Z.of_nat (length chunk) < 2 ^ 64 ->
  d_length dl < d_offset dl + Z.of_nat (length chunk) ->
  Download_handleDownload ext d (msgBinary chunk) c
  = (c, Fail (Errorf ("binary content too long ("
                      +:+ pretty (d_offset dl + Z.of_nat (length chunk))
                      +:+ ")"))).
Proof.
  intros Hd H0 Hwrap Hlong. apply wp_eq.
  unfold Download_handleDownload. wp_run.
  rewrite uint64_small by lia.
  rewrite (proj2 (Z.gtb_lt _ _)) by lia. by wp_run.
Qed.

Lemma handleDownload_binary_file ext c d dl chunk path content :
  c_downloads c !! d = Some dl ->
  0 <= d_offset dl ->
  d_offset dl + Z.of_nat (length chunk) < 2 ^ 64 ->
  d_offset dl + Z.of_nat (length chunk) <= d_length dl ->
  d_writer dl = Some (FileWriter path) ->
  fs_files (c_fs c) !! path = Some content ->
  path ∉ fs_denied (c_fs c) ->
  Download_handleDownload ext d (msgBinary chunk) c
  = (if (d_offset dl + Z.of_nat (length chunk) =? d_length dl)%Z
     then Download_finish ext d else ret tt)
      (set_c_downloads
         (<[d := set_d_offset (d_offset dl + Z.of_nat (length chunk)) dl]>
            (c_downloads c))
         (set_c_fs
            (mkFs (<[path := content ++ chunk]> (fs_files (c_fs c)))
               (fs_denied (c_fs c))) c)).
Proof.
  intros Hd H0 Hwrap Hfit Hw Hfile Hden.
  unfold Download_handleDownload.
  unfold bind at 1, getd. rewrite Hd.
  rewrite uint64_small by lia.
  destruct (Z.gtb_spec (d_offset dl + Z.of_nat (length chunk)) (d_length dl));
    [lia|].
  unfold bind at 1, catch, writer_Write, bind at 1, getd. rewrite Hd, Hw.
  unfold onfs. rewrite (file_Write_ok _ _ content) by done.
  unfold bind at 1, setd. norm_state. rewrite Hd. done.
Qed.

Lemma handleDownload_binary_memory ext c d dl chunk off :
  c_downloads c !! d = Some dl ->
  0 <= d_offset dl ->
  d_offset dl + Z.of_nat (length chunk) < 2 ^ 64 ->
  d_offset dl + Z.of_nat (length chunk) <= d_length dl ->
  d_writer dl = Some (BytesWriter off) ->
  (off + length chunk <= length (d_content dl))%nat ->
  Download_handleDownload ext d (msgBinary chunk) c
  = (if (d_offset dl + Z.of_nat (length chunk) =? d_length dl)%Z
     then Download_finish ext d else ret tt)
      (set_c_downloads
         (<[d := set_d_offset (d_offset dl + Z.of_nat (length chunk))
                   (set_d_writer (Some (BytesWriter (off + length chunk)))
                      (set_d_content
                         (take off (d_content dl) ++ chunk
                          ++ drop (off + length chunk) (d_content dl)) dl))]>
            (c_downloads c)) c).
Proof.
  intros Hd H0 Hwrap Hfit Hw Hspace.
  unfold Download_handleDownload.
  unfold bind at 1, getd. rewrite Hd.
  rewrite uint64_small by lia.
  destruct (Z.gtb_spec (d_offset dl + Z.of_nat (length chunk)) (d_length dl));
    [lia|].
  unfold bind at 1, catch, writer_Write, bind at 1, getd. rewrite Hd, Hw.
  rewrite Nat.min_l by lia. rewrite firstn_all.
  unfold bind at 1, setd. rewrite Hd. norm_state. rewrite lookup_insert_eq.
  unfold bind at 1. norm_state. rewrite lookup_insert_eq.
  rewrite !insert_insert_eq. done.
Qed.
Lemma never_returns_bind {S A B} (m : M S A) (k : A -> M S B) :
  (forall a, never_returns (k a)) -> never_returns (bind m k).
Proof.
  intros Hk s b. unfold bind. destruct (m s) as [s' [a| | |]]; simpl; try done.
  apply Hk.
Qed.

Lemma never_returns_fail {S A} e : never_returns (@fail S A e).
Proof. by intros s a. Qed.

(** [handleDownload] leaves the end of a download with an error, the
    sentinel [errorTerminated] when all went well. *)
Lemma Download_finish_never_returns ext d : never_returns (Download_finish ext d).
Proof.
  unfold Download_finish.
  do 4 (apply never_returns_bind; intros ?).
  apply never_returns_fail.
Qed.

Lemma keeps_setd_field {X} (g : Download -> X) d d' h :
  (forall dl, g (h dl) = g dl) ->
  keeps (fun c => g <$> c_downloads c !! d) (setd d' h).
Proof.
  intros Hg c. unfold setd. destruct (c_downloads c !! d') as [x|] eqn:Hx;
    [|done].
  norm_state. destruct (decide (d' = d)) as [->|Hne].
  - rewrite lookup_insert_eq, Hx. simpl. by rewrite Hg.
  - by rewrite lookup_insert_ne.
Qed.

#[local] Hint Extern 1 (keeps _ (setd _ _)) =>
  apply keeps_setd_field; intros; reflexivity : keeps.

Lemma keeps_finish_offset ext d d' :
  keeps (fun c => (fun dl => (d_offset dl, d_length dl)) <$> c_downloads c !! d)
        (Download_finish ext d').
Proof. unfold Download_finish, writer_Close, TTHFromFile. keeps_auto. Qed.
Lemma streaming_within c d L : streaming c d L -> offset_within c d L.
Proof. intros (dl & Hd & HL & Hoff & _). by exists dl. Qed.

Lemma binary_step ext c d L chunk :
  streaming c d L ->
  L + Z.of_nat (length chunk) < 2 ^ 64 ->
  let out := Download_handleDownload ext d (msgBinary chunk) c in
  offset_within (fst out) d L /\ (snd out = Ret tt -> streaming (fst out) d L).
Proof.
  intros (dl & Hd & HL & Hoff & Hwb & Hw) Hwrap out. subst out.
  unfold writtenBytes in Hwb. rewrite Hd in Hwb.
  destruct (Z.lt_ge_cases (d_length dl) (d_offset dl + Z.of_nat (length chunk)))
    as [Hlong|Hfit].
  { rewrite (handleDownload_binary_rejects ext c d dl chunk) by (done || lia).
    simpl. split; [by exists dl | done]. }
  assert (Hend : forall c1 dl1,
            c_downloads c1 !! d = Some dl1 ->
            d_length dl1 = L ->
            d_offset dl1 = d_offset dl + Z.of_nat (length chunk) ->
            (streaming c1 d L) ->
            let out := (if (d_offset dl + Z.of_nat (length chunk)
                            =? d_length dl)%Z
                        then Download_finish ext d else ret tt) c1 in
            offset_within (fst out) d L
            /\ (snd out = Ret tt -> streaming (fst out) d L)).
  { intros c1 dl1 Hd1 HL1 Ho1 Hs1 out.
    subst out. destruct (_ =? _)%Z.
    - split.
      + pose proof (keeps_finish_offset ext d d c1) as Hk. simpl in Hk.
        rewrite Hd1 in Hk. simpl in Hk.
        destruct (c_downloads (fst (Download_finish ext d c1)) !! d)
          as [dl2|] eqn:Hd2; [|done].
        simpl in Hk. injection Hk as Ho2 Hl2.
        exists dl2. split; [done|]. split; [congruence|]. lia.
      + intros Hret. by apply Download_finish_never_returns in Hret.
    - simpl. split; [by apply streaming_within | done]. }
  destruct (d_writer dl) as [[path|off]|] eqn:Hwr; [| |done].
  - destruct (fs_files (c_fs c) !! path) as [content|] eqn:Hfile; [|done].
    simpl in Hwb. injection Hwb as Hwb.
    rewrite (handleDownload_binary_file ext c d dl chunk path content)
      by (done || lia).
    eapply Hend; norm_state; [apply lookup_insert_eq|done|done|].
    eexists. split; [norm_state; apply lookup_insert_eq|]. norm_state.
    split; [done|]. split; [lia|]. split; [|by rewrite Hwr].
    unfold writtenBytes. norm_state. rewrite !lookup_insert_eq. norm_state.
    rewrite Hwr, lookup_insert_eq. simpl. rewrite length_app. f_equal. lia.
  - injection Hwb as Hwb.
    rewrite (handleDownload_binary_memory ext c d dl chunk off)
      by (done || lia).
    eapply Hend; norm_state; [apply lookup_insert_eq|done|done|].
    eexists. split; [norm_state; apply lookup_insert_eq|]. norm_state.
    split; [done|]. split; [lia|]. split.
    + unfold writtenBytes. norm_state. rewrite !lookup_insert_eq. norm_state.
      f_equal. lia.
    + rewrite !length_app, length_take, length_drop. lia.
Qed.

Lemma receive_within ext d L chunks :
  forall c,
    streaming c d L ->
    Forall (fun chunk => L + Z.of_nat (length chunk) < 2 ^ 64) chunks ->
    let out := Download_receive ext d chunks c in
    offset_within (fst out) d L /\ (snd out = Ret tt -> streaming (fst out) d L).
Proof.
  induction chunks as [|chunk rest IH]; intros c Hs Hall;
    cbn [Download_receive].
  - split; [by apply streaming_within | done].
  - inversion Hall as [|? ? Hchunk Hrest]; subst.
    destruct (binary_step ext c d L chunk Hs Hchunk) as [Hin Hok].
    cbv zeta. unfold bind at 1 2 3.
    destruct (Download_handleDownload ext d (msgBinary chunk) c) as [c' [[]|e|t|]];
      cbn [fst snd] in *; try done.
    by apply IH; [apply Hok|].
Qed.

(** C5: for every chunk a download receives, if the offset plus the
    length of the chunk exceeds the declared length (the sum being below
    2^64, as it is for every transfer that can take place), the download
    fails with "binary content too long" and nothing is written: the
    client stays as it was; otherwise the chunk, and the chunk only, is
    written to the writer and the offset advances by its length, after
    which the download ends if the declared length is reached.  So along
    every sequence of chunks the offset, which counts the bytes written,
    stays within the declared length. *)
Theorem binary_chunks_within_length ext c d dl chunk :
  c_downloads c !! d = Some dl ->
  0 <= d_offset dl ->
  d_offset dl + Z.of_nat (length chunk) < 2 ^ 64 ->
  let n := d_offset dl + Z.of_nat (length chunk) in
  let out := Download_handleDownload ext d (msgBinary chunk) c in
  let continues c1 :=
    out = (if (n =? d_length dl)%Z then Download_finish ext d else ret tt) c1 in
  (d_length dl < n ->
   out = (c, Fail (Errorf ("binary content too long (" +:+ pretty n +:+ ")"))))
  /\ (n <= d_length dl ->
      (forall path content,
         d_writer dl = Some (FileWriter path) ->
         fs_files (c_fs c) !! path = Some content ->
         path ∉ fs_denied (c_fs c) ->
         exists c1,
           continues c1
           /\ fs_files (c_fs c1) !! path = Some (content ++ chunk)
           /\ (d_offset <$> c_downloads c1 !! d) = Some n)
      /\ (forall off,
            d_writer dl = Some (BytesWriter off) ->
            (off + length chunk <= length (d_content dl))%nat ->
            exists c1 dl1,
              continues c1
              /\ c_downloads c1 !! d = Some dl1
              /\ d_offset dl1 = n
              /\ d_writer dl1 = Some (BytesWriter (off + length chunk))
              /\ d_content dl1
                 = take off (d_content dl) ++ chunk
                   ++ drop (off + length chunk) (d_content dl)))
  /\ (forall chunks,
        streaming c d (d_length dl) ->
        Forall (fun chunk => d_length dl + Z.of_nat (length chunk) < 2 ^ 64)
          chunks ->
        let end_ := Download_receive ext d chunks c in
        offset_within (fst end_) d (d_length dl)
        /\ (snd end_ = Ret tt -> streaming (fst end_) d (d_length dl))).
Proof.
  intros Hd H0 Hwrap n out continues. subst n out continues.
  split; [|split].
  - intros Hlong. by apply handleDownload_binary_rejects.
  - intros Hfit. split.
    + intros path content Hw Hfile Hden. eexists. split.
      * by apply (handleDownload_binary_file ext c d dl chunk path content).
      * norm_state. by rewrite !lookup_insert_eq.
    + intros off Hw Hspace. eexists. eexists. split.
      * by apply (handleDownload_binary_memory ext c d dl chunk off).
      * norm_state. by rewrite lookup_insert_eq.
  - intros chunks Hs Hall. by apply receive_within.
Qed.

Lemma binary_chunks_within_length_witness :
  let c := client_downloading fresh_fs (download_to_file 4) in
  exists c1,
    Download_handleDownload ext0 0 (msgBinary [Byte.x61; Byte.x62]) c = (c1, Ret tt)
    /\ fs_files (c_fs c1) !! "/dl/file.tmp" = Some [Byte.x61; Byte.x62]
    /\ (d_offset <$> c_downloads c1 !! 0%nat) = Some 2.
Proof.
  intros c.
  assert (H0 : 0 <= d_offset (download_to_file 4)) by (vm_compute; discriminate).
  assert (Hwrap : d_offset (download_to_file 4)
                  + Z.of_nat (length [Byte.x61; Byte.x62]) < 2 ^ 64)
    by reflexivity.
  assert (Hfit : d_offset (download_to_file 4)
                 + Z.of_nat (length [Byte.x61; Byte.x62])
                 <= d_length (download_to_file 4))
    by (vm_compute; discriminate).
  destruct (proj1 (proj1 (proj2
              (binary_chunks_within_length ext0 c 0 (download_to_file 4)
                 [Byte.x61; Byte.x62] eq_refl H0 Hwrap)) Hfit)
              "/dl/file.tmp" [] eq_refl eq_refl (not_elem_of_empty _))
    as (c1 & H1 & H2 & H3).
  exists c1. split; [exact H1 | split; [exact H2 | exact H3]].
Defined.

(** C4: when a download of a normal file has reached its declared
    length, the hash of what was written (the buffer, or the file
    [<SavePath>.tmp]) is computed and compared with [conf.TTH] exactly
    when [SkipValidation] is false, [Start] is 0 and the configured
    [Length] is not positive; a difference fails the download with
    "validation failed", and nothing is renamed; in every other case the
    hash plays no part.  With a [SavePath] the reply opens the file
    [<SavePath>.tmp] for the transfer, and the file is renamed to
    [<SavePath>] once the validation has passed or was skipped. *)
Theorem normal_file_validation ext c d dl p pc cn :
  c_downloads c !! d = Some dl ->
  isFilelist (d_conf dl) = false ->
  d_pconn dl = Some p -> c_conns c !! p = Some pc -> p_conn pc = Some cn ->
  let conf := d_conf dl in
  let tmp := SavePath conf +:+ ".tmp" in
  let validated :=
    negb (SkipValidation conf) && (Start conf =? 0)%Z && (Length conf <=? 0)%Z in
  let differs content :=
    negb (bool_decide (TTHFromBytes ext content = TTH conf)) in
  (forall w,
     d_writer dl = Some w ->
     let out := Download_finish ext d c in
     (SavePath conf = "" ->
      snd out = (if validated && differs (d_content dl)
                 then Fail (Errorf "validation failed")
                 else Fail errorTerminated)
      /\ c_fs (fst out) = c_fs c)
     /\ (SavePath conf <> "" ->
         forall content,
           fs_files (c_fs c) !! tmp = Some content ->
           tmp ∉ fs_denied (c_fs c) ->
           SavePath conf ∉ fs_denied (c_fs c) ->
           if validated && differs content
           then snd out = Fail (Errorf "validation failed")
                /\ c_fs (fst out) = c_fs c
           else snd out = Fail errorTerminated
                /\ fs_files (c_fs (fst out))
                   = <[SavePath conf := content]>
                       (delete tmp (fs_files (c_fs c)))))
  /\ (forall q s l z,
        q = d_query dl -> s = Start conf ->
        z && conf_PeerDisableCompression (c_conf c) = false ->
        (Length conf = -1 \/ uint64 (Length conf) = l) ->
        (if (Length conf =? -1)%Z then l else uint64 (Length conf)) <> 0 ->
        SavePath conf <> "" ->
        tmp ∉ fs_denied (c_fs c) ->
        let out := Download_handleSendFile d q s l z c in
        snd out = Ret tt
        /\ (d_writer <$> c_downloads (fst out) !! d) = Some (Some (FileWriter tmp))
        /\ fs_files (c_fs (fst out)) !! tmp = Some []).
Proof.
  intros Hd Hfl Hpconn Hp Hcn conf tmp validated differs.
  subst conf tmp validated differs. split.
  - intros w Hw out. subst out. split.
    + intros Hsave.
      pose proof (finish_normal_memory ext c d dl p pc cn w Hd Hfl Hpconn Hp Hcn
                    Hw Hsave) as H.
      exact H.
    + intros Hsave content Hfile Hden1 Hden2.
      pose proof (finish_normal_disk ext c d dl p pc cn w content Hd Hfl Hpconn
                    Hp Hcn Hw Hsave Hfile Hden1 Hden2) as H.
      exact H.
  - intros q s l z Hq Hs Hz Hlen Hnz Hsave Hden out. subst out.
    pose proof (handleSendFile_run c d dl q s l z Hd Hq Hs Hz Hlen Hnz
                  p pc cn Hpconn Hp Hcn) as H.
    unfold wp in H.
    destruct H as (_ & (dl' & Hd' & _ & _ & _ & _ & Hw) & Hr).
    rewrite (proj2 (String.eqb_neq _ _) Hsave) in Hr, Hw.
    rewrite (bool_decide_eq_false_2 _ Hden) in Hr. simpl in Hr.
    split; [done|]. destruct (Hw Hr) as [Hw1 Hw2].
    rewrite Hd'. simpl. by rewrite Hw1.
Qed.

Lemma normal_file_validation_witness :
  let dl := download_to_memory tthA [Byte.x61] in
  let c := client_downloading fresh_fs dl in
  snd (Download_finish ext0 0 c) = Fail (Errorf "validation failed").
Proof.
  intros dl c.
  exact (proj1 (proj1 (proj1
           (normal_file_validation ext0 c 0 dl 0 _ _ eq_refl eq_refl eq_refl
              eq_refl eq_refl) _ eq_refl) eq_refl)).
Defined.
(** ** Closing a download that waits *)

(** Whatever the error, [handleExit] calls [OnDownloadError] when the
    callback is set. *)
Lemma handleExit_calls_OnDownloadError d err c dl :
  c_downloads c !! d = Some dl ->
  c_OnDownloadError c = true ->
  wp (Download_handleExit d (Some err))
     (fun r c' => r = Ret tt -> last (c_events c') = Some (CallOnDownloadError d))
     c.
Proof.
  intros Hd Hcb. unfold Download_handleExit.
  apply wp_bind. eapply wp_getd; [done|]. lazy beta iota zeta.
  apply wp_bind, wp_modify. apply wp_bind, wp_modify.
  apply wp_bind, wp_get.
  apply wp_bind. eapply (wp_keeps c_OnDownloadError); [keeps_auto|].
  intros [[]| | |] c1 Hc1; [|done..].
  apply wp_bind, wp_modify. apply wp_bind, wp_get.
  apply wp_bind. eapply (wp_keeps c_OnDownloadError); [keeps_auto|].
  intros [[]| | |] c2 Hc2; [|done..].
  apply wp_bind, wp_get. norm_state. simpl in Hc1, Hc2.
  rewrite Hc2, Hc1, Hcb. apply wp_modify. intros _. norm_state.
  by rewrite last_snoc.
Qed.

(** C9 fails on the code: a download that waits for a slot and is closed
    leaves its wait by the sentinel [errorTerminated], which goes to
    [handleExit] as any error does, and [OnDownloadError] is called. *)
Lemma Close_waiting_calls_OnDownloadError :
  let waiting := run ext0 (take 3 close_while_waiting) (client_idle 0) in
  let closed := run ext0 (take 4 close_while_waiting) (client_idle 0) in
  (d_state <$> c_downloads waiting !! 0%nat) = Some "waiting_slot"
  /\ snd (Download_do_select 0 WaitSlot WokenTerminate closed)
     = Ret (Some errorTerminated)
  /\ c_events (run ext0 close_while_waiting (client_idle 0))
     = [CallOnDownloadError 0].
Proof. vm_compute. done. Qed.

(** ** The theorems on examples *)

Lemma nmdcKey_direction_witness :
  let pc := connPeer_elect "download" 7 "download" 3 in
  let c := client_ex 1 fresh_fs pc (download_ex tthA "" "waiting_peer") ∅ in
  conn_direction (fst (handleMessage ext0 0 0 (msgNmdcKey []) c)) 0
  = Some "download".
Proof.
  intros pc c.
  assert (Hbet : p_remoteBet pc < p_localBet pc) by reflexivity.
  pose proof (nmdcKey_direction ext0 c 0 pc alice 0 [] eq_refl eq_refl eq_refl)
    as H.
  exact (proj1 (proj1 (proj1 (proj2 (proj2 H)) eq_refl eq_refl Hbet) eq_refl)).
Defined.

Lemma duplicate_connection_refused_witness :
  let pc := connPeer_elect "upload" 0 "download" 3 in
  let c := client_ex 1 fresh_fs pc (download_ex tthA "" "waiting_peer")
             {[("alice", "upload") := 7%nat]} in
  snd (handleMessage ext0 0 0 (msgNmdcKey []) c) = Fail errorDuplicate.
Proof.
  intros pc c.
  assert (Hconn : is_Some (p_conn pc)) by (eexists; reflexivity).
  pose proof (duplicate_connection_refused ext0 c 0 pc alice 0 7
                eq_refl eq_refl eq_refl Hconn) as H.
  exact (proj1 (proj1 H [] "upload" eq_refl eq_refl eq_refl eq_refl)).
Defined.

Lemma newUpload_refusals_witness :
  snd (newUpload ext0 0 "file TTH/AAAA" 0 (-1) false (client_serving 0))
  = Ret false.
Proof.
  assert (Hp : handshaken (client_serving 0) 0).
  { eexists. split; [reflexivity|]. split; eexists; reflexivity. }
  assert (Hslot : c_uploadSlotAvail (client_serving 0) <= 0) by (simpl; lia).
  pose proof (newUpload_refusals ext0 (client_serving 0) 0 "file TTH/AAAA" 0
                (-1) false Hp) as H.
  exact (f_equal snd (proj1 H Hslot)).
Defined.


Lemma slots_never_negative_witness :
  slots_ok (run ext0 close_while_waiting (client_idle 0)).
Proof.
  assert (H0 : slots_ok (client_idle 0)) by (unfold slots_ok; simpl; lia).
  exact (proj1 (slots_never_negative ext0 close_while_waiting (client_idle 0) H0)).
Defined.

(** * More of the code

    The handshakes of [conn_peer.go] as a whole, the life of a download
    and of an upload, and the functions of [download.go] and [upload.go]
    that the properties above do not reach. *)

(** The outcome and the state of a computation, as a [wp]. *)
Ltac as_wp :=
  match goal with
  | |- context [snd (?m ?c)] =>
      let o := fresh "o" in
      set (o := m c); pattern (snd o), (fst o); subst o;
      match goal with |- ?Q (snd _) (fst _) => change (wp m Q c) end
  end.

Lemma downloadPendingByPeer_ext c c' peer :
  c_activeDownloadsByPeer c' = c_activeDownloadsByPeer c ->
  c_downloads c' = c_downloads c ->
  downloadPendingByPeer c' peer = downloadPendingByPeer c peer.
Proof. intros H1 H2. unfold downloadPendingByPeer. by rewrite H1, H2. Qed.

Lemma downloadByAdcToken_ext c c' token :
  c_transfers c' = c_transfers c ->
  c_downloads c' = c_downloads c ->
  downloadByAdcToken c' token = downloadByAdcToken c token.
Proof. intros H1 H2. unfold downloadByAdcToken. by rewrite H1, H2. Qed.

Lemma peerByClientId_ext c c' id :
  c_peers c' = c_peers c -> peerByClientId c' id = peerByClientId c id.
Proof. intros H. unfold peerByClientId. by rewrite H. Qed.

Lemma downloadByAdcToken_Some c token d :
  downloadByAdcToken c token = Some d ->
  exists dl, c_downloads c !! d = Some dl
             /\ TDownload d ∈ c_transfers c
             /\ d_adcToken dl = token
             /\ d_state dl = "waiting_peer".
Proof.
  unfold downloadByAdcToken. intros H. apply find_some in H as [Hin H].
  destruct (c_downloads c !! d) as [dl|]; [|done].
  apply andb_true_iff in H as [H1 H2].
  apply String.eqb_eq in H1, H2. exists dl. repeat split; try done.
  unfold downloadsOf in Hin. apply list_elem_of_In, list_elem_of_omap in Hin.
  destruct Hin as ([d'|u] & Hin & Heq); simplify_eq. done.
Qed.

(** ** Messages out of order *)

(** X?: a message of the handshake that arrives when the connection is
    not in the one [protoState] its case accepts is refused with the error
    "[Name] invalid state: <protoState>", and the client is left as it
    was; both requests for a file are reported under the name AdcGet. *)
Theorem handleMessage_out_of_order ext c p pc rnd m st :
  c_conns c !! p = Some pc ->
  expectedProtoState m = Some st ->
  p_protoState pc <> st ->
  handleMessage ext p rnd m c
  = (c, Fail (Errorf (reportedName m +:+ " invalid state: " +:+ p_protoState pc))).
Proof.
  intros Hp Hst Hne. apply String.eqb_neq in Hne.
  apply wp_eq. unfold handleMessage.
  destruct m; simpl in Hst; simplify_eq; wp_run; rewrite ?Hne; wp_run; done.
Qed.

(** X?: the messages of a transfer (SendFile, MaxedOut, Error, binary
    content) and the messages the codec does not know are refused by
    [handleMessage] with "unhandled"; an ADC status is accepted, and
    ignored, when its type is [adcStatusOk] and refused with its code and
    its text otherwise.  The client is left as it was. *)
Theorem handleMessage_no_case ext c p pc rnd m :
  c_conns c !! p = Some pc ->
  (noCase m = true -> handleMessage ext p rnd m c = (c, Fail (Errorf "unhandled")))
  /\ (forall type code text,
        m = msgAdcCStatus type code text ->
        handleMessage ext p rnd m c
        = (c, if (type =? adcStatusOk ext)%Z then Ret tt
              else Fail (Errorf ("error (" +:+ pretty code +:+ "): " +:+ text)))).
Proof.
  intros Hp. split.
  - intros Hm. apply wp_eq. unfold handleMessage.
    destruct m; simpl in Hm; try done; wp_run; done.
  - intros type code text ->. apply wp_eq. unfold handleMessage. wp_run.
    destruct (type =? adcStatusOk ext)%Z; wp_run; done.
Qed.

(** ** The NMDC handshake *)

(** X?: on the Lock of the peer the connection writes, in this order,
    its own MyNick and Lock when it is the side that accepted the
    connection, then Supports, Direction and Key; ZlibGet is announced
    unless the configuration disables compression, the direction wished
    is Download exactly when a download is pending for the peer, and the
    bet is the random number drawn, which the connection keeps with the
    lock of the peer. *)
Theorem nmdcLock_reply ext c p pc cn peer rnd lock pk ref :
  c_conns c !! p = Some pc ->
  p_protoState pc = "mynick" ->
  p_peer pc = Some peer ->
  p_conn pc = Some cn ->
  let out := handleMessage ext p rnd (msgNmdcLock lock pk ref) c in
  snd out = Ret tt
  /\ conn_written (fst out) p
     = Some (written cn ++ lockReply ext c pc peer rnd lock)
  /\ exists pc',
       c_conns (fst out) !! p = Some pc'
       /\ p_protoState pc' = "lock"
       /\ p_remoteLock pc' = list_byte_of_string lock
       /\ p_localBet pc' = rnd
       /\ p_localDirection pc' = ToLower (wishedDirection c peer).
Proof.
  intros Hp Hproto Hpeer Hcn out. subst out.
  change (wp (handleMessage ext p rnd (msgNmdcLock lock pk ref))
            (fun r c' =>
               r = Ret tt
               /\ conn_written c' p
                  = Some (written cn ++ lockReply ext c pc peer rnd lock)
               /\ exists pc',
                    c_conns c' !! p = Some pc'
                    /\ p_protoState pc' = "lock"
                    /\ p_remoteLock pc' = list_byte_of_string lock
                    /\ p_localBet pc' = rnd
                    /\ p_localDirection pc' = ToLower (wishedDirection c peer)) c).
  unfold handleMessage, lockReply, wishedDirection, conn_written. wp_run.
  rewrite Hproto. simpl.
  destruct (p_isActive pc); wp_run;
    destruct (downloadPendingByPeer c peer); wp_run;
    (split; [done|]); simplify_map_eq; simpl; rewrite <- ?app_assoc; simpl;
    (split; [done|]); eexists; (split; [done|]); done.
Qed.

(** X?: a connection on which the peer, known to the hub, sends MyNick,
    Lock, Supports, a Direction asking for Download and Key, while no
    download is pending for the peer and the index has no upload
    connection for it, ends its handshake as the uploader: it is entered
    in the index under the nick of the peer and "upload", waits for a
    request in [wait_upload], has written the reply to the Lock and
    nothing else, and has asked the hub for nothing. *)
Theorem nmdc_handshake_uploader ext c p pc cn peer rnd nick lock pk ref fs dir bet k :
  c_conns c !! p = Some pc ->
  p_protoState pc = "connected" ->
  p_conn pc = Some cn ->
  peerByNick c nick = Some peer ->
  downloadPendingByPeer c peer = None ->
  ToLower dir = "download" ->
  c_connPeersByKey c !! (Nick peer, "upload") = None ->
  let out := handleMessages ext p rnd
               [msgNmdcMyNick nick; msgNmdcLock lock pk ref; msgNmdcSupports fs;
                msgNmdcDirection dir bet; msgNmdcKey k] c in
  snd out = Ret tt
  /\ c_connPeersByKey (fst out) = <[(Nick peer, "upload") := p]> (c_connPeersByKey c)
  /\ conn_written (fst out) p
     = Some (written cn ++ lockReply ext c pc peer rnd lock)
  /\ c_requests (fst out) = c_requests c
  /\ exists pc',
       c_conns (fst out) !! p = Some pc'
       /\ p_peer pc' = Some peer
       /\ p_direction pc' = "upload"
       /\ p_protoState pc' = "wait_upload"
       /\ p_state pc' = p_state pc
       /\ p_transfer pc' = p_transfer pc.
Proof.
  intros Hp Hproto Hcn Hpeer Hpend Hdir Hfree out. subst out. as_wp.
  unfold peerByNick in Hpeer.
  unfold handleMessages, handleMessage at 1. wp_run. rewrite Hproto. simpl.
  wp_run. unfold peerByNick. rewrite Hpeer. wp_run.
  unfold handleMessage at 1. wp_run.
  unfold lockReply, wishedDirection, conn_written.
  destruct (p_isActive pc); wp_run.
  all: rewrite (downloadPendingByPeer_ext c) by done; rewrite Hpend; wp_run.
  all: unfold handleMessage at 1; wp_run.
  all: unfold handleMessage at 1; wp_run.
  all: unfold handleMessage at 1; wp_run.
  all: unfold electDirection; wp_run; rewrite Hdir; simpl; wp_run.
  all: unfold registerDirection; wp_run.
  all: split; [done|]; split; [done|]; simplify_map_eq; simpl;
       rewrite <- ?app_assoc; simpl.
  all: split; [done|]; split; [done|]; eexists; split; [done|]; done.
Qed.

(** X?: a connection on which the peer sends MyNick, Lock, Supports,
    Direction and Key while a download is pending for the peer, and the
    peer asks for Upload or bets less than the connection does, is handed
    to the download: the connection is entered in the index under
    "download", is in state [delegated_download] with the download as its
    transfer, and the download, once woken, writes its request for the
    file on the connection, after the reply to the Lock. *)
Theorem nmdc_handshake_downloader ext c p pc cn peer rnd nick lock pk ref fs dir
    bet k d :
  c_conns c !! p = Some pc ->
  p_protoState pc = "connected" ->
  p_conn pc = Some cn ->
  peerByNick c nick = Some peer ->
  downloadPendingByPeer c peer = Some d ->
  ToLower dir = "upload" \/ (ToLower dir = "download" /\ bet < rnd) ->
  c_connPeersByKey c !! (Nick peer, "download") = None ->
  let out := (handleMessages ext p rnd
                [msgNmdcMyNick nick; msgNmdcLock lock pk ref; msgNmdcSupports fs;
                 msgNmdcDirection dir bet; msgNmdcKey k] ;;;
              woken <- Download_do_select d WaitPeer WokenSignal ;;
              match woken with
              | None => Download_do_process d
              | Some err => fail err
              end) c in
  snd out = Ret tt
  /\ c_connPeersByKey (fst out)
     = <[(Nick peer, "download") := p]> (c_connPeersByKey c)
  /\ exists dl pc' dl',
       c_downloads c !! d = Some dl
       /\ conn_written (fst out) p
          = Some (written cn ++ lockReply ext c pc peer rnd lock
                  ++ [getFileRequest c dl])
       /\ c_conns (fst out) !! p = Some pc'
       /\ p_direction pc' = "download"
       /\ p_protoState pc' = "wait_download"
       /\ p_state pc' = "delegated_download"
       /\ p_transfer pc' = Some (TDownload d)
       /\ c_downloads (fst out) !! d = Some dl'
       /\ d_pconn dl' = Some p
       /\ d_state dl' = "waited_peer"
       /\ d_peerChan dl' = d_peerChan dl.
Proof.
  intros Hp Hproto Hcn Hpeer Hpend Hdir Hfree out. subst out. as_wp.
  unfold peerByNick in Hpeer.
  destruct (downloadPendingByPeer_Some _ _ _ Hpend) as (dl & Hd & Hact & Hreq & Hst).
  apply wp_bind.
  unfold handleMessages, handleMessage at 1. wp_run. rewrite Hproto. simpl.
  wp_run. unfold peerByNick. rewrite Hpeer. wp_run.
  unfold handleMessage at 1. wp_run.
  unfold lockReply, wishedDirection, conn_written, getFileRequest.
  destruct (p_isActive pc); wp_run.
  all: rewrite (downloadPendingByPeer_ext c) by done; rewrite Hpend; wp_run.
  all: unfold handleMessage at 1; wp_run.
  all: unfold handleMessage at 1; wp_run.
  all: unfold handleMessage at 1; wp_run.
  all: unfold electDirection; wp_run.
  all: destruct Hdir as [Hdir | [Hdir Hbet]]; rewrite Hdir; simpl; wp_run.
  all: try (apply Z.gtb_lt in Hbet; rewrite Hbet; wp_run).
  all: unfold registerDirection; wp_run.
  all: rewrite (downloadPendingByPeer_ext c) by done; rewrite Hpend; wp_run.
  all: unfold delegate_download; wp_run.
  all: unfold Download_do_select; wp_run.
  all: unfold Download_do_process; wp_run.
  all: destruct (c_protoIsAdc c); wp_run.
  all: split; [done|]; split; [done|]; exists dl; simplify_map_eq; simpl;
       rewrite <- ?app_assoc; simpl.
  all: do 2 eexists; split; [done|]; split; [done|]; done.
Qed.

(** ** The ADC handshake *)

(** X?: Supports followed by Infos, with the client-id of a peer known to
    the hub (and, on the side that accepted the connection, a token; on
    the other side, a certificate that matches the fingerprint of the
    peer when one is known), completes the ADC handshake when the index
    has no connection for the peer and the direction: the direction is
    download when a download waits for the token, and the connection is
    then handed to it; it is upload otherwise.  The side that accepted the
    connection takes the token of the peer and never sends it back; the
    side that dialled sends its own token. *)
Theorem adc_handshake ext c p pc cn peer rnd fs fields clientId :
  c_conns c !! p = Some pc ->
  p_protoState pc = "connected" ->
  p_conn pc = Some cn ->
  fields !! adcFieldClientId ext = Some clientId ->
  peerByClientId c (dcBase32Decode ext clientId) = Some peer ->
  adcInfosChecked ext c pc peer fields ->
  let token := adcTokenAfter ext pc fields in
  c_connPeersByKey c !! (Nick peer, adcDirection c token) = None ->
  let out := handleMessages ext p rnd [msgAdcCSupports fs; msgAdcCInfos fields] c in
  snd out = Ret tt
  /\ c_connPeersByKey (fst out)
     = <[(Nick peer, adcDirection c token) := p]> (c_connPeersByKey c)
  /\ conn_written (fst out) p = Some (written cn ++ adcReply ext c pc)
  /\ exists pc',
       c_conns (fst out) !! p = Some pc'
       /\ p_peer pc' = Some peer
       /\ p_adcToken pc' = token
       /\ p_direction pc' = adcDirection c token
       /\ match downloadByAdcToken c token with
          | Some d =>
              p_protoState pc' = "wait_download"
              /\ p_state pc' = "delegated_download"
              /\ p_transfer pc' = Some (TDownload d)
              /\ exists dl dl',
                   c_downloads c !! d = Some dl
                   /\ c_downloads (fst out) !! d = Some dl'
                   /\ d_pconn dl' = Some p
                   /\ d_state dl' = "waited_peer"
                   /\ d_peerChan dl' = S (d_peerChan dl)
          | None =>
              p_protoState pc' = "wait_upload"
              /\ p_state pc' = p_state pc
              /\ p_transfer pc' = p_transfer pc
              /\ c_downloads (fst out) = c_downloads c
          end.
Proof.
  intros Hp Hproto Hcn Hid Hpeer Hchk token Hfree out. subst out token. as_wp.
  unfold handleMessages, handleMessage at 1. wp_run. rewrite Hproto. simpl.
  unfold adcInfosChecked, adcTokenAfter, adcDirection, adcReply, conn_written in *.
  destruct (p_isActive pc) eqn:Hact; wp_run.
  - destruct Hchk as [tok Htok]. rewrite Htok in *. simpl in *.
    unfold handleMessage at 1. wp_run.
    match goal with
    | |- context [peerByClientId ?c1 ?i] =>
        rewrite !(peerByClientId_ext c c1 i) by done
    end.
    rewrite Hpeer, Hact. wp_run.
    unfold registerAdcDirection. wp_run.
    change (find _ (omap _ (c_transfers c))) with (downloadByAdcToken c tok).
    destruct (downloadByAdcToken c tok) as [d|] eqn:Hd; rewrite Hfree; wp_run.
    + destruct (downloadByAdcToken_Some _ _ _ Hd) as (dl & Hdl & _).
      unfold delegate_download. wp_run.
      split; [done|]. split; [done|]. simplify_map_eq. simpl.
      rewrite <- ?app_assoc. split; [done|]. eexists. split; [done|].
      repeat (split; [done|]). eauto 10.
    + split; [done|]. split; [done|]. simplify_map_eq. simpl.
      rewrite <- ?app_assoc. split; [done|]. eexists. split; [done|]. done.
  - unfold handleMessage at 1. wp_run.
    match goal with
    | |- context [peerByClientId ?c1 ?i] =>
        rewrite !(peerByClientId_ext c c1 i) by done
    end.
    rewrite Hpeer, Hact. wp_run. lazy beta iota zeta.
    assert (Hend : forall c1 pc1,
      c_conns c1 !! p = Some pc1 ->
      c_connPeersByKey c1 = c_connPeersByKey c ->
      c_transfers c1 = c_transfers c -> c_downloads c1 = c_downloads c ->
      p_adcToken pc1 = p_adcToken pc -> p_peer pc1 = Some peer ->
      p_state pc1 = p_state pc -> p_transfer pc1 = p_transfer pc ->
      p_conn pc1
      = Some (protocol_Write
                (msgAdcCInfos (<[adcFieldToken ext := p_adcToken pc]>
                     {[adcFieldClientId ext := dcBase32Encode ext (c_clientId c)]}))
                cn) ->
      wp (registerAdcDirection p peer)
        (fun r c' =>
           r = Ret tt
           /\ c_connPeersByKey c'
              = <[(Nick peer, match downloadByAdcToken c (p_adcToken pc) with
                              | Some _ => "download" | None => "upload" end) := p]>
                  (c_connPeersByKey c)
           /\ match c_conns c' !! p with
              | Some pc0 => written <$> p_conn pc0
              | None => None
              end
              = Some (written cn
                      ++ [msgAdcCInfos (<[adcFieldToken ext := p_adcToken pc]>
                            {[adcFieldClientId ext :=
                                dcBase32Encode ext (c_clientId c)]})])
           /\ exists pc',
                c_conns c' !! p = Some pc'
                /\ p_peer pc' = Some peer
                /\ p_adcToken pc' = p_adcToken pc
                /\ p_direction pc'
                   = match downloadByAdcToken c (p_adcToken pc) with
                     | Some _ => "download" | None => "upload" end
                /\ match downloadByAdcToken c (p_adcToken pc) with
                   | Some d =>
                       p_protoState pc' = "wait_download"
                       /\ p_state pc' = "delegated_download"
                       /\ p_transfer pc' = Some (TDownload d)
                       /\ exists dl dl',
                            c_downloads c !! d = Some dl
                            /\ c_downloads c' !! d = Some dl'
                            /\ d_pconn dl' = Some p
                            /\ d_state dl' = "waited_peer"
                            /\ d_peerChan dl' = S (d_peerChan dl)
                   | None =>
                       p_protoState pc' = "wait_upload"
                       /\ p_state pc' = p_state pc
                       /\ p_transfer pc' = p_transfer pc
                       /\ c_downloads c' = c_downloads c
                   end) c1).
    { intros c1 pc1 Hp1 Hidx Htr Hdls Htok1 Hpeer1 Hst1 Htf1 Hcn1.
      unfold registerAdcDirection. wp_run.
      rewrite (downloadByAdcToken_ext c c1) by done. rewrite Htok1, Hidx.
      destruct (downloadByAdcToken c (p_adcToken pc)) as [d|] eqn:Hd;
        rewrite Hfree; wp_run.
      - destruct (downloadByAdcToken_Some _ _ _ Hd) as (dl & Hdl & _).
        unfold delegate_download. rewrite <- Hdls in Hdl. wp_run.
        rewrite ?Hidx.
        split; [done|]. split; [done|]. simplify_map_eq. simpl.
        rewrite ?Hcn1; simpl. split; [done|]. eexists. split; [done|].
        repeat (split; [done|]). rewrite Hdls in Hdl. eauto 10.
      - rewrite ?Hidx.
        split; [done|]. split; [done|]. simplify_map_eq. simpl.
        rewrite ?Hcn1; simpl. split; [done|]. eexists. split; [done|]. done. }
    destruct (c_protoIsAdc c && p_isEncrypted pc
              && negb (peer_adcFingerprint peer =? "")) eqn:Hfp.
    + destruct (Hchk eq_refl) as (cert & rest & Htls & Hcert).
      rewrite Htls, Hcert, String.eqb_refl. simpl. wp_run.
      eapply wp_mono;
        [eapply Hend; simpl; [by simplify_map_eq|done..]
        |intros r c' (-> & H); exact (conj eq_refl H)].
    + wp_run. eapply wp_mono;
        [eapply Hend; simpl; [by simplify_map_eq|done..]
        |intros r c' (-> & H); exact (conj eq_refl H)].
Qed.
(** ** Downloads asked and counted *)

Lemma downloadsOf_app l l' : downloadsOf (l ++ l') = downloadsOf l ++ downloadsOf l'.
Proof. unfold downloadsOf. apply omap_app. Qed.

Lemma fresh_download c : c_downloads c !! fresh (dom (c_downloads c)) = None.
Proof. apply not_elem_of_dom, is_fresh. Qed.

Lemma fresh_not_transfer c :
  transfers_wf c -> TDownload (fresh (dom (c_downloads c))) ∉ c_transfers c.
Proof.
  intros Hwf Hin. apply Hwf in Hin. rewrite fresh_download in Hin.
  by destruct Hin.
Qed.

(** X?: [DownloadFile] never fails: it registers a new download among
    the transfers, in state [uninitialized], with the configuration it was
    given but for a length that is not positive, which becomes -1 (the
    whole file), and with the query "file files.xml.bz2" for a file list
    and "file TTH/<hash>" otherwise; [DownloadCount] goes up by one, and
    no slot, no connection and no entry of the active downloads is
    touched. *)
Theorem DownloadFile_registers ext conf c :
  transfers_wf c ->
  let out := DownloadFile ext conf c in
  exists d,
    snd out = Ret d
    /\ c_downloads c !! d = None
    /\ c_transfers (fst out) = c_transfers c ++ [TDownload d]
    /\ DownloadCount (fst out) = S (DownloadCount c)
    /\ c_downloads (fst out)
       = <[d := mkDownload (normalConf conf) false 0 "uninitialized" 0 0 0 None
                  (if isFilelist conf then "file files.xml.bz2"
                   else "file TTH/" +:+ TigerHash_String ext (TTH conf))
                  "" None false [] 0 0]> (c_downloads c)
    /\ slots (fst out) = slots c
    /\ c_conns (fst out) = c_conns c
    /\ c_activeDownloadsByPeer (fst out) = c_activeDownloadsByPeer c
    /\ transfers_wf (fst out).
Proof.
  intros Hwf out. subst out. exists (fresh (dom (c_downloads c))).
  pose proof (fresh_download c) as Hfresh.
  pose proof (fresh_not_transfer c Hwf) as Hnot.
  unfold DownloadFile, bind, get, modify, ret, DownloadCount. simpl.
  unfold transfers_insert. rewrite bool_decide_eq_false_2 by done.
  rewrite downloadsOf_app, length_app. simpl.
  split; [done|]. split; [done|]. split; [done|]. split; [lia|].
  split.
  { unfold normalConf. by destruct (Length conf <=? 0)%Z, conf. }
  repeat (split; [done|]).
  intros t Ht. simpl in Ht. apply elem_of_app in Ht as [Ht|Ht].
  - specialize (Hwf t Ht). destruct t as [d|u]; simpl; [|done].
    destruct (decide (d = fresh (dom (c_downloads c)))) as [->|Hne].
    + by rewrite lookup_insert_eq.
    + by rewrite lookup_insert_ne.
  - apply list_elem_of_singleton in Ht as ->. simpl. by rewrite lookup_insert_eq.
Qed.

(** ** The end of a download *)

Lemma find_ext_in {A} (f g : A -> bool) (l : list A) :
  (forall x, In x l -> f x = g x) -> find f l = find g l.
Proof.
  induction l as [|a l IH]; intros H; simpl; [done|].
  rewrite (H a) by (by left). destruct (g a); [done|].
  apply IH. intros x Hx. apply H. by right.
Qed.

Lemma downloadsOf_delete d od l :
  In od (downloadsOf (transfers_delete (TDownload d) l)) -> od <> d.
Proof.
  intros Hin ->. apply list_elem_of_In, list_elem_of_omap in Hin.
  destruct Hin as ([d'|u] & Hin & Heq); simplify_eq.
  unfold transfers_delete in Hin. apply list_elem_of_In, filter_In in Hin.
  destruct Hin as [_ Hin]. by rewrite bool_decide_eq_true_2 in Hin.
Qed.

Lemma activeDlWaiter_Some c d dl od :
  activeDlWaiter c d dl = Some od ->
  od <> d
  /\ exists o, c_downloads c !! od = Some o
               /\ d_terminateRequested o = false
               /\ d_state o = "waiting_activedl".
Proof.
  unfold activeDlWaiter. intros H. apply find_some in H as [Hin H].
  split; [by eapply downloadsOf_delete|].
  destruct (c_downloads c !! od) as [o|]; [|done].
  apply andb_true_iff in H as [H _]. apply andb_true_iff in H as [H1 H2].
  apply negb_true_iff in H1. apply String.eqb_eq in H2. by exists o.
Qed.

Lemma slotWaiter_Some c d od :
  slotWaiter c d = Some od ->
  od <> d
  /\ exists o, c_downloads c !! od = Some o
               /\ d_terminateRequested o = false
               /\ d_state o = "waiting_slot".
Proof.
  unfold slotWaiter. intros H. apply find_some in H as [Hin H].
  split; [by eapply downloadsOf_delete|].
  destruct (c_downloads c !! od) as [o|]; [|done].
  apply andb_true_iff in H as [H1 H2].
  apply negb_true_iff in H1. apply String.eqb_eq in H2. by exists o.
Qed.

(** Waking the download that waits for the peer does not change which
    download waits for a slot. *)
Lemma slotWaiter_woken c d od o o2 (dls : gmap nat Download) :
  c_downloads c !! od = Some o -> d_state o = "waiting_activedl" ->
  dls !! od = Some o2 -> d_state o2 = "waited_activedl" ->
  (forall od', od' <> od -> dls !! od' = c_downloads c !! od') ->
  find
    (fun od' =>
       match dls !! od' with
       | Some o' => negb (d_terminateRequested o') && (d_state o' =? "waiting_slot")
       | None => false
       end)
    (downloadsOf (transfers_delete (TDownload d) (c_transfers c)))
  = slotWaiter c d.
Proof.
  intros Ho Hst Ho2 Hst2 Hother. unfold slotWaiter. apply find_ext_in.
  intros x _. destruct (decide (x = od)) as [->|Hne].
  - rewrite Ho, Ho2, Hst, Hst2. simpl. by rewrite !andb_false_r.
  - by rewrite Hother.
Qed.

(** [handleExit], step by step. *)
Lemma Download_handleExit_run d err c dl :
  c_downloads c !! d = Some dl ->
  wp (Download_handleExit d err)
     (fun r c' =>
       r = Ret tt
       /\ c_transfers c' = transfers_delete (TDownload d) (c_transfers c)
       /\ c_events c' = c_events c ++ handleExit_events c d err
       /\ match slotWaiter c d with
          | Some od =>
              c_downloadSlotAvail c' = c_downloadSlotAvail c
              /\ exists o o',
                   c_downloads c !! od = Some o
                   /\ c_downloads c' !! od = Some o'
                   /\ d_state o' = "waited_slot"
                   /\ d_slotChan o' = S (d_slotChan o)
          | None => c_downloadSlotAvail c' = c_downloadSlotAvail c + 1
          end
       /\ match activeDlWaiter c d dl with
          | Some od =>
              exists o o',
                c_downloads c !! od = Some o
                /\ c_downloads c' !! od = Some o'
                /\ d_state o' = "waited_activedl"
                /\ d_activeDlChan o' = S (d_activeDlChan o)
                /\ c_activeDownloadsByPeer c'
                   = <[Nick (conf_Peer (d_conf o)) := d]>
                       (delete (Nick (conf_Peer (d_conf dl)))
                          (c_activeDownloadsByPeer c))
          | None =>
              c_activeDownloadsByPeer c'
              = delete (Nick (conf_Peer (d_conf dl))) (c_activeDownloadsByPeer c)
          end
       /\ c_downloads c' !! d = Some dl
       /\ c_conns c' = c_conns c
       /\ c_uploads c' = c_uploads c
       /\ c_uploadSlotAvail c' = c_uploadSlotAvail c
       /\ c_connPeers c' = c_connPeers c
       /\ c_connPeersByKey c' = c_connPeersByKey c
       /\ c_fs c' = c_fs c) c.
Proof.
  intros Hd.
  unfold Download_handleExit, handleExit_events. wp_run.
  change (find _ (downloadsOf (transfers_delete (TDownload d) (c_transfers c))))
    with (activeDlWaiter c d dl).
  destruct (activeDlWaiter c d dl) as [od|] eqn:Ha.
  - destruct (activeDlWaiter_Some _ _ _ _ Ha) as (Hod & o & Ho & Hreq & Hst).
    wp_run.
    erewrite (slotWaiter_woken c d od o); [|done|done|by simplify_map_eq|done|
      by intros; simplify_map_eq].
    destruct (slotWaiter c d) as [sd|] eqn:Hs.
    + destruct (slotWaiter_Some _ _ _ Hs) as (Hsd & so & Hso & Hsreq & Hsst).
      assert (sd <> od) by (intros ->; simplify_eq; congruence).
      wp_run. destruct err; wp_run.
      * destruct (c_OnDownloadError c); wp_run;
          rewrite ?app_nil_r; repeat split; try done; try lia;
          try (exists so; eexists; by simplify_map_eq);
          try (by simplify_map_eq);
          try (exists o; eexists; by simplify_map_eq).
      * destruct (c_OnDownloadSuccessful c); wp_run;
          rewrite ?app_nil_r; repeat split; try done; try lia;
          try (exists so; eexists; by simplify_map_eq);
          try (by simplify_map_eq);
          try (exists o; eexists; by simplify_map_eq).
    + wp_run. destruct err; wp_run.
      * destruct (c_OnDownloadError c); wp_run;
          rewrite ?app_nil_r; repeat split; try done; try lia;
          try (exists o; eexists; by simplify_map_eq);
          try (by simplify_map_eq).
      * destruct (c_OnDownloadSuccessful c); wp_run;
          rewrite ?app_nil_r; repeat split; try done; try lia;
          try (exists o; eexists; by simplify_map_eq);
          try (by simplify_map_eq).
  - wp_run.
    change (find _ (downloadsOf (transfers_delete (TDownload d) (c_transfers c))))
      with (slotWaiter c d).
    destruct (slotWaiter c d) as [sd|] eqn:Hs.
    + destruct (slotWaiter_Some _ _ _ Hs) as (Hsd & so & Hso & Hsreq & Hsst).
      wp_run. destruct err; wp_run.
      * destruct (c_OnDownloadError c); wp_run;
          rewrite ?app_nil_r; repeat split; try done; try lia;
          try (exists so; eexists; by simplify_map_eq);
          try (by simplify_map_eq).
      * destruct (c_OnDownloadSuccessful c); wp_run;
          rewrite ?app_nil_r; repeat split; try done; try lia;
          try (exists so; eexists; by simplify_map_eq);
          try (by simplify_map_eq).
    + wp_run. destruct err; wp_run.
      * destruct (c_OnDownloadError c); wp_run;
          rewrite ?app_nil_r; repeat split; try done; lia.
      * destruct (c_OnDownloadSuccessful c); wp_run;
          rewrite ?app_nil_r; repeat split; try done; lia.
Qed.

(** X?: [handleExit] always returns; it takes the download out of the
    transfers and calls the callback that is set, [OnDownloadSuccessful]
    for the nil error and [OnDownloadError] for every other one.  It gives
    back a slot whatever the state the download was in: the first other
    download that waits for a slot and was not closed is woken and keeps
    the slot, and when none waits [downloadSlotAvail] goes up by one.
    The entry of the peer in the active downloads is deleted; when another
    download waits for the same peer, the first one is woken and the entry
    is set again, to the download that exits. *)
Theorem handleExit_hands_over d err c dl :
  c_downloads c !! d = Some dl ->
  let out := Download_handleExit d err c in
  snd out = Ret tt
  /\ c_transfers (fst out) = transfers_delete (TDownload d) (c_transfers c)
  /\ c_events (fst out) = c_events c ++ handleExit_events c d err
  /\ match slotWaiter c d with
     | Some od =>
         c_downloadSlotAvail (fst out) = c_downloadSlotAvail c
         /\ exists o o',
              c_downloads c !! od = Some o
              /\ c_downloads (fst out) !! od = Some o'
              /\ d_state o' = "waited_slot"
              /\ d_slotChan o' = S (d_slotChan o)
     | None => c_downloadSlotAvail (fst out) = c_downloadSlotAvail c + 1
     end
  /\ match activeDlWaiter c d dl with
     | Some od =>
         exists o o',
           c_downloads c !! od = Some o
           /\ c_downloads (fst out) !! od = Some o'
           /\ d_state o' = "waited_activedl"
           /\ d_activeDlChan o' = S (d_activeDlChan o)
           /\ c_activeDownloadsByPeer (fst out)
              = <[Nick (conf_Peer (d_conf o)) := d]>
                  (delete (Nick (conf_Peer (d_conf dl)))
                     (c_activeDownloadsByPeer c))
     | None =>
         c_activeDownloadsByPeer (fst out)
         = delete (Nick (conf_Peer (d_conf dl))) (c_activeDownloadsByPeer c)
     end.
Proof.
  intros Hd out. subst out.
  pose proof (Download_handleExit_run d err c dl Hd) as H. unfold wp in H.
  destruct H as (H1 & H2 & H3 & H4 & H5 & _). done.
Qed.
